(** * Task-completion tracking and persona storage of the Suno scripts

    A shallow embedding of
      - generate_trap_polling.py  (module [TrapPolling]),
      - generate_hard_trap.py     (module [HardTrap]),
      - r2r.py                    (modules [R2R], [R2RStyle], [R2RManager]),
      - the downloads of the two scripts (modules [TrapPollingDownload],
        [HardTrapDownload]) and the generator that reads the personas
        (module [Generator]),
    and the properties of their completion-wait loops, webhook listener,
    persona records, persona store and downloads.

    Conventions.
      - JSON and attribute values are [pyval]s; numbers are integers.
      - The wall clock [time.time()] is read in milliseconds, so the loop
        test [time.time() - start_time < max_wait] (seconds) is
        [now - start_time < 1000 * max_wait].
      - [requests], [json] and [http.server] are library code: what a
        request answers and what a body parses to are inputs of the model.
      - Only HTTP exchanges and [time.sleep] take time; a sleep lasts
        what it is asked to.
      - The listener thread of the callback script is seen from the
        waiter: between two looks of the waiter at [callback_data] it
        serves the POSTs that arrived, one handler call at a time; what
        arrives during the last sleep of a wait is served before the
        wait gives up.
      - Prints carry the values they interpolate, not the text. Stdout
        is UTF-8: a [print] of a line with a lone surrogate in it raises
        [UnicodeEncodeError], and so does writing such text to a file
        opened as UTF-8, after the file has been emptied.
      - The persona store and the downloads work on a disk that is part
        of their state, and on it [open] can fail with [OSError]; the
        one file the callback script writes before its wait is in the
        trace of the process.
      - A string is the bytes of its UTF-8 form, a lone surrogate the
        three bytes of its code point; where Python goes through the
        characters of a string, the characters are an input
        ([code_points]).
      - Loops carry fuel; [OutOfFuel] is the only outcome the Python code
        does not have, and [wait_loop_terminates] bounds the fuel at which
        it disappears. *)

From Stdlib Require Import ZArith List String Bool Lia.
From Stdlib Require Import Ascii.
From Stdlib Require DecimalString.
Import ListNotations.
Local Open Scope string_scope.
Local Open Scope list_scope.
Local Open Scope Z_scope.
Set Warnings "-register-all".

(** ** Python values *)

Inductive pyval : Type :=
| PyNone
| PyBool (b : bool)
| PyInt (n : Z)
| PyStr (s : string)
| PyList (items : list pyval)
| PyDict (entries : list (string * pyval)).

Inductive exn : Type :=
| AttributeError
| TypeError
| KeyError
| ValueError
| RequestException
| ApiError (msg : pyval)     (* [Exception(f"API Error: {msg}")] *)
| UnicodeEncodeError
| OSError.

(** Pure computations that may raise. *)
Inductive res (A : Type) : Type :=
| Ok (a : A)
| Err (e : exn).
Arguments Ok {A} a.
Arguments Err {A} e.

Definition res_bind {A B} (r : res A) (f : A -> res B) : res B :=
  match r with
  | Ok a => f a
  | Err e => Err e
  end.

(** [bool(v)]: None, False, 0, the empty string, list and dict are falsy. *)
Definition truthy (v : pyval) : bool :=
  match v with
  | PyNone => false
  | PyBool b => b
  | PyInt n => negb (n =? 0)
  | PyStr s => negb (s =? "")%string
  | PyList [] => false
  | PyList (_ :: _) => true
  | PyDict [] => false
  | PyDict (_ :: _) => true
  end.

Fixpoint lookup (key : string) (d : list (string * pyval)) : option pyval :=
  match d with
  | [] => None
  | (k, v) :: rest => if (k =? key)%string then Some v else lookup key rest
  end.

Definition dict_get (d : list (string * pyval)) (key : string) (default : pyval) : pyval :=
  match lookup key d with
  | Some v => v
  | None => default
  end.

(** [v.get(key, default)]: only dicts have a [get] attribute. *)
Definition py_get (v : pyval) (key : string) (default : pyval) : res pyval :=
  match v with
  | PyDict d => Ok (dict_get d key default)
  | _ => Err AttributeError
  end.

(** [v[key]] with a string key. *)
Definition py_index (v : pyval) (key : string) : res pyval :=
  match v with
  | PyDict d =>
      match lookup key d with
      | Some x => Ok x
      | None => Err KeyError
      end
  | _ => Err TypeError
  end.

(** [d[key] = x]: an entry with this key keeps its place; a new key goes
    to the end. *)
Fixpoint dict_set (key : string) (x : pyval) (d : list (string * pyval))
  : list (string * pyval) :=
  match d with
  | [] => [(key, x)]
  | (k, v) :: rest =>
      if (k =? key)%string then (k, x) :: rest else (k, v) :: dict_set key x rest
  end.

(** [v[key] = x] with a string key: of the values here only a dict takes
    it. *)
Definition py_setitem (v : pyval) (key : string) (x : pyval) : res pyval :=
  match v with
  | PyDict d => Ok (PyDict (dict_set key x d))
  | _ => Err TypeError
  end.

(** [v == n] for an int literal [n]; [True == 1] and [False == 0]. *)
Definition eq_int (v : pyval) (n : Z) : bool :=
  match v with
  | PyInt m => m =? n
  | PyBool b => (if b then 1 else 0) =? n
  | _ => false
  end.

(** [v == s] for a string literal [s]. *)
Definition eq_str (v : pyval) (s : string) : bool :=
  match v with
  | PyStr t => (t =? s)%string
  | _ => false
  end.

(** [len(v)]. *)
Definition py_len (v : pyval) : res Z :=
  match v with
  | PyStr s => Ok (Z.of_nat (String.length s))
  | PyList l => Ok (Z.of_nat (List.length l))
  | PyDict d => Ok (Z.of_nat (List.length d))
  | _ => Err TypeError
  end.

(** ** Text *)

(** A [str] is kept as the bytes of its UTF-8 form. A lone surrogate,
    which [json.loads] yields from an escape such as [\ud800], is kept as
    the three bytes of its code point, [ED] and a byte from [A0] to [BF]
    and one more; no other character has these first two bytes. *)
Fixpoint has_surrogate (s : string) : bool :=
  match s with
  | EmptyString => false
  | String a rest =>
      match rest with
      | EmptyString => false
      | String b _ =>
          ((nat_of_ascii a =? 237)%nat &&
           (160 <=? nat_of_ascii b)%nat && (nat_of_ascii b <=? 191)%nat)
          || has_surrogate rest
      end
  end.

(** [print(f"...{v}...")] with a UTF-8 stdout goes through when [str(v)]
    can be encoded. [str] of a string is the string; [str] of a list or a
    dict shows its strings by [repr], which escapes surrogates. *)
Definition str_encodable (v : pyval) : bool :=
  match v with
  | PyStr s => negb (has_surrogate s)
  | _ => true
  end.

(** The text [json.dumps(v, ensure_ascii=False)] can be encoded: no
    string of [v], key or value, holds a lone surrogate. *)
Fixpoint json_encodable (v : pyval) : bool :=
  match v with
  | PyStr s => negb (has_surrogate s)
  | PyList items => forallb json_encodable items
  | PyDict entries =>
      forallb
        (fun kv : string * pyval =>
           match kv with
           | (k, x) => negb (has_surrogate k) && json_encodable x
           end)
        entries
  | _ => true
  end.

Arguments has_surrogate : simpl never.
Arguments str_encodable : simpl never.
Arguments json_encodable : simpl never.

(** The bytes that continue a character. *)
Definition is_continuation (c : ascii) : bool :=
  (128 <=? nat_of_ascii c)%nat && (nat_of_ascii c <? 192)%nat.

(** [s[:n]]: the first [n] characters. *)
Fixpoint take_chars (n : nat) (s : string) : string :=
  match s with
  | EmptyString => EmptyString
  | String c rest =>
      if is_continuation c then String c (take_chars n rest)
      else
        match n with
        | O => EmptyString
        | S n' => String c (take_chars n' rest)
        end
  end.

(** [v[:n]]. A dict takes the slice for a key it does not have (from
    Python 3.12 on; before, a slice cannot be hashed and the exception
    is [TypeError]). *)
Definition py_slice (n : nat) (v : pyval) : res pyval :=
  match v with
  | PyStr s => Ok (PyStr (take_chars n s))
  | PyList items => Ok (PyList (firstn n items))
  | PyDict _ => Err KeyError
  | _ => Err TypeError
  end.

(** ** Effects: a state monad with Python's ways of leaving a function *)

Inductive outcome (A : Type) : Type :=
| Normal (a : A)            (* falls through or returns [a] *)
| SysExit (code : Z)        (* sys.exit(code) *)
| Raised (e : exn)          (* uncaught exception *)
| OutOfFuel.                (* the model's loop bound ran out *)
Arguments Normal {A} a.
Arguments SysExit {A} code.
Arguments Raised {A} e.
Arguments OutOfFuel {A}.

Definition M (S A : Type) : Type := S -> outcome A * S.

Definition ret {S A} (a : A) : M S A := fun s => (Normal a, s).

Definition bind {S A B} (m : M S A) (f : A -> M S B) : M S B :=
  fun s =>
    match m s with
    | (Normal a, s') => f a s'
    | (SysExit c, s') => (SysExit c, s')
    | (Raised e, s') => (Raised e, s')
    | (OutOfFuel, s') => (OutOfFuel, s')
    end.

Definition sys_exit {S A} (code : Z) : M S A := fun s => (SysExit code, s).

Definition out_of_fuel {S A} : M S A := fun s => (OutOfFuel, s).

(** [try: body except Exception as e: handler(e)]; [sys.exit] is no
    [Exception] and passes. *)
Definition try_except {S A} (body : M S A) (handler : exn -> M S A) : M S A :=
  fun s =>
    match body s with
    | (Raised e, s') => handler e s'
    | r => r
    end.

(** A pure computation inside the monad: an [Err] propagates uncaught. *)
Definition lift {S A} (r : res A) : M S A :=
  fun s =>
    match r with
    | Ok a => (Normal a, s)
    | Err e => (Raised e, s)
    end.

(** [appends log Q m]: whatever [m] does, it only appends entries that
    satisfy [Q] to the log [log] of the state. *)
Definition appends {S E A : Type} (log : S -> list E) (Q : E -> Prop) (m : M S A) : Prop :=
  forall s, exists entries, log (snd (m s)) = log s ++ entries /\ Forall Q entries.

(** [preserves f m]: [m] leaves the component [f] of the state as it is. *)
Definition preserves {S T A : Type} (f : S -> T) (m : M S A) : Prop :=
  forall s, f (snd (m s)) = f s.

Declare Scope py_scope.
Delimit Scope py_scope with py.
Notation "x <- m ;; k" := (bind m (fun x => k))
  (at level 61, m at next level, right associativity) : py_scope.
Notation "m ;; k" := (bind m (fun _ => k))
  (at level 61, right associativity) : py_scope.
Notation "x <-? r ;; k" := (res_bind r (fun x => k))
  (at level 61, r at next level, right associativity) : py_scope.

(** ** The outside world *)

(** What one HTTP exchange with the generation service produces:
    [requests.get]/[requests.post] raises, or a response arrives with a
    status code and a body that [response.json()] parses ([None] when the
    body is not JSON). *)
Inductive http_result : Type :=
| NetworkError
| Response (status_code : Z) (body : option pyval).

Record exchange : Type := mkExchange {
  latency : N;              (* milliseconds the request takes *)
  reply : http_result
}.

(** [response.raise_for_status()] *)
Definition raise_for_status (status_code : Z) : res unit :=
  if (400 <=? status_code) && (status_code <? 600) then Err RequestException
  else Ok tt.

(** [response.json()]. (Recent versions of [requests] raise a
    [RequestException] here; the handlers of the scripts treat both
    alike but for the message.) *)
Definition response_json (body : option pyval) : res pyval :=
  match body with
  | Some v => Ok v
  | None => Err ValueError
  end.

(** ** generate_trap_polling.py *)

Module TrapPolling.

(** What the script prints, with the values it interpolates. *)
Inductive message : Type :=
| MsgWaiting                                  (* "Waiting for generation..." *)
| MsgTakes                                    (* "This takes 2-5 minutes ..." *)
| MsgChecking (elapsed : Z)                   (* "[{elapsed}s] Checking status..." *)
| MsgCompleted (elapsed : Z)                  (* "Completed in {elapsed}s!" *)
| MsgGenerated (count : Z)                    (* "Generated {len(audio_list)} track variant(s)" *)
| MsgNoAudio                                  (* "Status is SUCCESS but no audio data" *)
| MsgRawData (status_data : pyval)            (* "Raw data: {json.dumps(status_data)}" *)
| MsgFailed (error : pyval)                   (* "Generation failed: {error}" *)
| MsgProgress (elapsed : Z) (status : pyval)  (* "[{elapsed}s] {status}{dots}" *)
| MsgUnknown (status : pyval)                 (* "Unknown status: {status}" *)
| MsgTimeout (max_wait : Z).                  (* "Timeout after {max_wait}s" *)

Inductive event : Type :=
| EvRequest (task_id : string)   (* GET /generate/record-info?taskId=... *)
| EvSleep (seconds : Z)          (* time.sleep(seconds) *)
| EvPrint (m : message).

Record process : Type := mkProcess {
  clock : Z;               (* time.time(), in milliseconds *)
  sent : nat;              (* status requests issued so far *)
  trace : list event       (* what the process did, oldest first *)
}.

Definition boot (t0 : Z) : process :=
  {| clock := t0; sent := 0; trace := [] |}.

Definition time_time : M process Z :=
  fun p => (Normal (clock p), p).

Definition sleep (seconds : Z) : M process unit :=
  fun p => (Normal tt,
            {| clock := clock p + 1000 * seconds;
               sent := sent p;
               trace := trace p ++ [EvSleep seconds] |}).

(** Whether stdout can encode the line: the lines that show a value of
    the response are those that can fail. *)
Definition encodable (m : message) : bool :=
  match m with
  | MsgRawData status_data => json_encodable status_data
  | MsgFailed error => str_encodable error
  | MsgProgress _ status => str_encodable status
  | MsgUnknown status => str_encodable status
  | _ => true
  end.

(** [print] raises [UnicodeEncodeError] on a line that stdout cannot
    encode, and prints nothing of it. *)
Definition print (m : message) : M process unit :=
  fun p =>
    if encodable m then
      (Normal tt,
       {| clock := clock p; sent := sent p; trace := trace p ++ [EvPrint m] |})
    else (Raised UnicodeEncodeError, p).

(** [int(time.time() - start_time)]: truncation of the elapsed seconds. *)
Definition elapsed_seconds (now start_time : Z) : Z :=
  Z.quot (now - start_time) 1000.

(** Lines 118-128: the [try] body on the outcome of the exchange, and the
    bare [except] that turns every exception into [None]. *)
Definition status_payload (r : http_result) : pyval :=
  let attempt : res pyval :=
    (match r with
     | NetworkError => Err RequestException
     | Response _ body =>
         data <-? response_json body ;;
         code <-? py_get data "code" PyNone ;;
         if negb (eq_int code 200) then Ok PyNone
         else py_get data "data" (PyDict [])
     end)%py in
  match attempt with
  | Ok v => v
  | Err _ => PyNone
  end.

Definition poll_interval : Z := 10.

Section Remote.

(** The generation service: the exchange that answers the k-th status
    request of the process. *)
Variable server : nat -> exchange.

Definition get_task_status (task_id : string) : M process pyval :=
  fun p =>
    let x := server (sent p) in
    (Normal (status_payload (reply x)),
     {| clock := clock p + Z.of_N (latency x);
        sent := S (sent p);
        trace := trace p ++ [EvRequest task_id] |}).

(** One pass through the body of the [while] loop, lines 139-175.
    [Some v] is [return v]; [None] goes back to the loop test. *)
Definition wait_body (task_id : string) (start_time : Z) : M process (option pyval) :=
  (status_data <- get_task_status task_id ;;
   if negb (truthy status_data) then
     now <- time_time ;;
     print (MsgChecking (elapsed_seconds now start_time)) ;;
     sleep poll_interval ;;
     ret None
   else
     status <- lift (py_get status_data "status" PyNone) ;;
     now <- time_time ;;
     let elapsed := elapsed_seconds now start_time in
     if eq_str status "SUCCESS" then
       response_data <- lift (py_get status_data "response" (PyDict [])) ;;
       audio_list <- lift (py_get response_data "data" (PyList [])) ;;
       if truthy audio_list then
         print (MsgCompleted elapsed) ;;
         count <- lift (py_len audio_list) ;;
         print (MsgGenerated count) ;;
         ret (Some audio_list)
       else
         print MsgNoAudio ;;
         print (MsgRawData status_data) ;;
         sleep poll_interval ;;
         ret None
     else if eq_str status "FAILED" then
       error <- lift (py_get status_data "errorMessage" (PyStr "Unknown")) ;;
       print (MsgFailed error) ;;
       sys_exit 1
     else if eq_str status "PENDING" || eq_str status "GENERATING" then
       print (MsgProgress elapsed status) ;;
       sleep poll_interval ;;
       ret None
     else
       print (MsgUnknown status) ;;
       sleep poll_interval ;;
       ret None)%py.

(** The [while] loop of lines 138-178 with the timeout exit behind it. *)
Fixpoint wait_loop (fuel : nat) (task_id : string) (max_wait start_time : Z)
  : M process pyval :=
  match fuel with
  | O => out_of_fuel
  | S fuel' =>
      (now <- time_time ;;
       if now - start_time <? 1000 * max_wait then
         r <- wait_body task_id start_time ;;
         match r with
         | Some v => ret v
         | None => wait_loop fuel' task_id max_wait start_time
         end
       else
         print (MsgTimeout max_wait) ;;
         sys_exit 1)%py
  end.

(** The only parameter besides the task id, [max_wait: int = 360]:
    [None] is a call that leaves the argument out. *)
Definition budget (max_wait : option Z) : Z :=
  match max_wait with
  | Some seconds => seconds
  | None => 360
  end.

(** Lines 130-178. *)
Definition wait_for_completion (fuel : nat) (task_id : string) (max_wait : option Z)
  : M process pyval :=
  (start_time <- time_time ;;
   print MsgWaiting ;;
   print MsgTakes ;;
   wait_loop fuel task_id (budget max_wait) start_time)%py.

(** *** Vocabulary for the statements about the loop *)

(** What [get_task_status] hands to the loop for the k-th request. *)
Definition payload (k : nat) : pyval := status_payload (reply (server k)).

(** Duration of a pass that goes back to the loop test: the request and
    one [time.sleep(poll_interval)]. *)
Definition round_ms (k : nat) : Z :=
  Z.of_N (latency (server k)) + 1000 * poll_interval.

(** Clock reading at the loop test that precedes request [k0 + i], when
    the test before request [k0] read [t] and every pass since went back
    to the test. *)
Fixpoint poll_time (k0 : nat) (t : Z) (i : nat) : Z :=
  match i with
  | O => t
  | S i' => poll_time (S k0) (t + round_ms k0) i'
  end.

End Remote.

(** The [status] field of a poll response. *)
Definition status_of (status_data : pyval) : option pyval :=
  match status_data with
  | PyDict d => lookup "status" d
  | _ => None
  end.

(** The artifact list of a poll response: [response.data]. *)
Definition artifacts_of (status_data : pyval) : option pyval :=
  match status_data with
  | PyDict d =>
      match lookup "response" d with
      | Some (PyDict r) => lookup "data" r
      | _ => None
      end
  | _ => None
  end.

(** A poll response on which the pass goes back to the loop test:
    nothing usable came back; or the status is PENDING or GENERATING; or
    it is any other value but SUCCESS and FAILED that stdout can show; or
    it is SUCCESS with an object as [response], an empty (falsy or absent)
    artifact list, and raw data that stdout can show. *)
Definition in_flight (status_data : pyval) : bool :=
  match status_data with
  | PyDict ((_ :: _) as d) =>
      let status := dict_get d "status" PyNone in
      if eq_str status "SUCCESS" then
        match dict_get d "response" (PyDict []) with
        | PyDict r =>
            negb (truthy (dict_get r "data" (PyList []))) && json_encodable status_data
        | _ => false
        end
      else if eq_str status "FAILED" then false
      else if eq_str status "PENDING" || eq_str status "GENERATING" then true
      else str_encodable status
  | v => negb (truthy v)
  end.

(** The status query fails: network error, a body that is not JSON or not
    a JSON object, or an API code other than 200. *)
Inductive query_fails : http_result -> Prop :=
| fails_network : query_fails NetworkError
| fails_not_json : forall sc, query_fails (Response sc None)
| fails_not_object : forall sc v,
    (forall d, v <> PyDict d) -> query_fails (Response sc (Some v))
| fails_api_code : forall sc d,
    eq_int (dict_get d "code" PyNone) 200 = false ->
    query_fails (Response sc (Some (PyDict d))).

(** A status string the loop has no branch for. *)
Definition unmapped_status (status_data : pyval) (s : string) : Prop :=
  truthy status_data = true /\
  status_of status_data = Some (PyStr s) /\
  s <> "SUCCESS" /\ s <> "FAILED" /\ s <> "PENDING" /\ s <> "GENERATING".

(** The status query gives something the loop raises on: a [data] that
    is truthy and no object ([status_data.get]), or SUCCESS with a
    [response] that is no object ([response_data.get]). *)
Definition unusable (status_data : pyval) : Prop :=
  (truthy status_data = true /\ forall d, status_data <> PyDict d) \/
  (exists d v,
     status_data = PyDict d /\
     lookup "status" d = Some (PyStr "SUCCESS") /\
     lookup "response" d = Some v /\ forall r, v <> PyDict r).

(** The events of passes that went back to the loop test: per pass the
    request, what it printed, and the sleep. *)
Fixpoint rounds (task_id : string) (printed : list (list message)) : list event :=
  match printed with
  | [] => []
  | msgs :: rest =>
      EvRequest task_id :: map EvPrint msgs ++ EvSleep poll_interval :: rounds task_id rest
  end.

(** The process after a pass that printed [msgs] and went back to the
    loop test. *)
Definition next_round (server : nat -> exchange) (task_id : string)
  (msgs : list message) (p : process) : process :=
  {| clock := clock p + round_ms server (sent p);
     sent := S (sent p);
     trace := trace p ++ rounds task_id [msgs] |}.

(** The k-th request is answered by a failed query or by a status the
    loop has no branch for and stdout can show. *)
Definition transient (server : nat -> exchange) (k : nat) : Prop :=
  query_fails (reply (server k)) \/
  exists s, unmapped_status (payload server k) s /\ has_surrogate s = false.

(** Fuel that covers every pass [max_wait] allows, and the last test. *)
Definition enough_fuel (max_wait : Z) : nat :=
  S (Z.to_nat (max_wait / poll_interval + 1)).

(** The process when [wait_for_completion] gets to its loop. *)
Definition entered (p : process) : process :=
  {| clock := clock p; sent := sent p;
     trace := trace p ++ [EvPrint MsgWaiting; EvPrint MsgTakes] |}.

(** The only sleep there is: [poll_interval] seconds. *)
Definition sleeps_poll_interval (e : event) : Prop :=
  forall seconds, e = EvSleep seconds -> seconds = poll_interval.

End TrapPolling.

(** ** generate_hard_trap.py *)

Module HardTrap.

Inductive message : Type :=
| MsgApiKeyMissing                            (* "ERROR: Please set SUNO_API_KEY ..." *)
| MsgGenerating (title : pyval)               (* "Generating: {config['title']}" *)
| MsgModel (model : pyval)                    (* "Model: {config['model']}" *)
| MsgStyle (head : pyval)                     (* "Style: {config['style'][:80]}..." *)
| MsgVocals                                   (* "Vocals: Yes (Russian rap)" *)
| MsgCallbackUrl (port : Z)                   (* "Callback: {callback_url}" *)
| MsgTaskCreated (task_id : pyval)            (* "Task created: {task_id}" *)
| MsgTaskSaved                                (* "Task ID saved to: last_task_id.txt" *)
| MsgNetworkError                             (* "Network error: {e}" *)
| MsgError (e : exn)                          (* "Error: {e}" *)
| MsgWaiting                                  (* "Waiting for generation to complete..." *)
| MsgUsually                                  (* "This usually takes 2-4 minutes ..." *)
| MsgRetrying                                 (* "Failed to get status, retrying..." *)
| MsgCompleted (elapsed : Z)                  (* "Generation completed in {elapsed} seconds!" *)
| MsgFailed (error_msg : pyval)               (* "Generation failed: {error_msg}" *)
| MsgProgress (elapsed : Z) (status : pyval)  (* "[{elapsed}s] {status}{dots}" *)
| MsgUnknown (status : pyval)                 (* "Unknown status: {status}" *)
| MsgTimeout (max_wait : Z)                   (* "Timeout: Generation took longer than ..." *)
| MsgServerStarted (port : Z)                 (* "Webhook server started on port {port}" *)
| MsgCallbackReceived                         (* "Callback received!" *)
| MsgCallbackError (e : exn)                  (* "Callback error: {e}" *)
| MsgCallbackCompleted                        (* "Generation completed!" *)
| MsgAwaitingCallback (elapsed : Z)           (* "[{elapsed}s] Waiting for callback{dots}" *)
| MsgNoCallback (max_wait : Z)                (* "Timeout: No callback received in ..." *)
| MsgFirewallTip (port : Z)                   (* "Tip: Make sure your firewall allows ..." *)
| MsgNoAudioData.                             (* "No audio data received" *)

(** [f"http://localhost:{port}/callback"] *)
Inductive url : Type :=
| LocalCallback (port : Z).

Inductive event : Type :=
| EvListen (port : Z)            (* HTTPServer(('0.0.0.0', port), ...): bind and listen *)
| EvSubmit (callback_url : url)  (* POST /generate, with [callBackUrl] *)
| EvRequest (task_id : string)   (* GET /generate/record-info?taskId=... *)
| EvSleep (seconds : Z)          (* time.sleep(seconds) *)
| EvWrite (file text : string)   (* the file is opened for writing and holds [text] *)
| EvPrint (m : message).

(** The module-level dict [callback_data]. *)
Record callback_store : Type := mkStore {
  received : bool;
  data : pyval;
  error : option exn       (* [str(e)] of the last failed callback *)
}.

Record process : Type := mkProcess {
  clock : Z;                       (* time.time(), in milliseconds *)
  sent : nat;                      (* status requests issued so far *)
  checks : nat;                    (* looks at [callback_data] by the waiter so far *)
  callback_data : callback_store;
  listening : option Z;            (* port of the open listening socket *)
  responses : list Z;              (* status codes the listener answered, oldest first *)
  trace : list event               (* what the process did, oldest first *)
}.

(** Lines 26-30. *)
Definition callback_data_init : callback_store :=
  {| received := false; data := PyNone; error := None |}.

Definition boot (t0 : Z) : process :=
  {| clock := t0; sent := 0; checks := 0; callback_data := callback_data_init;
     listening := None; responses := []; trace := [] |}.

Definition emit (e : event) (p : process) : process :=
  {| clock := clock p; sent := sent p; checks := checks p;
     callback_data := callback_data p; listening := listening p;
     responses := responses p; trace := trace p ++ [e] |}.

Definition advance (ms : Z) (p : process) : process :=
  {| clock := clock p + ms; sent := sent p; checks := checks p;
     callback_data := callback_data p; listening := listening p;
     responses := responses p; trace := trace p |}.

Definition store (cb : callback_store) (p : process) : process :=
  {| clock := clock p; sent := sent p; checks := checks p;
     callback_data := cb; listening := listening p;
     responses := responses p; trace := trace p |}.

Definition time_time : M process Z :=
  fun p => (Normal (clock p), p).

Definition sleep (seconds : Z) : M process unit :=
  fun p => (Normal tt, emit (EvSleep seconds) (advance (1000 * seconds) p)).

(** Whether stdout can encode the line: the lines that show a value of
    the configuration or of a response are those that can fail. The text
    of the other exceptions ([str(e)]) shows foreign text by [repr]. *)
Definition encodable (m : message) : bool :=
  match m with
  | MsgGenerating title => str_encodable title
  | MsgModel model => str_encodable model
  | MsgStyle head => str_encodable head
  | MsgTaskCreated task_id => str_encodable task_id
  | MsgError (ApiError msg) => str_encodable msg
  | MsgFailed error_msg => str_encodable error_msg
  | MsgProgress _ status => str_encodable status
  | MsgUnknown status => str_encodable status
  | _ => true
  end.

(** [print] raises [UnicodeEncodeError] on a line that stdout cannot
    encode, and prints nothing of it. *)
Definition print (m : message) : M process unit :=
  fun p =>
    if encodable m then (Normal tt, emit (EvPrint m) p)
    else (Raised UnicodeEncodeError, p).

(** [Path(file).write_text(text)]: the text has to be a [str], the file
    is opened, emptied, and written if the text can be encoded. *)
Definition write_text (writable : string -> bool) (file : string) (text : pyval)
  : M process unit :=
  fun p =>
    match text with
    | PyStr t =>
        if writable file then
          if has_surrogate t then (Raised UnicodeEncodeError, emit (EvWrite file "") p)
          else (Normal tt, emit (EvWrite file t) p)
        else (Raised OSError, p)
    | _ => (Raised TypeError, p)
    end.

Definition elapsed_seconds (now start_time : Z) : Z :=
  Z.quot (now - start_time) 1000.

Definition WEBHOOK_PORT : Z := 8877.

(** [f"http://localhost:{port}/callback"] as text. *)
Definition url_text (u : url) : string :=
  match u with
  | LocalCallback port =>
      ("http://localhost:" ++ DecimalString.NilZero.string_of_int (Z.to_int port)
         ++ "/callback")%string
  end.

Definition port_of (u : url) : Z :=
  match u with
  | LocalCallback port => port
  end.

(** Lines 66-119. *)
Definition quote : string := String (ascii_of_nat 34) EmptyString.

Definition prompt : string :=
  ("[Intro]
Москва! Жесткий trap!
(Bass drop!)

[Verse 1]
Москва в огне, bass бьет по стенам (стенам!)
808 трясет, мы в этой системе (е-е!)
Темные улицы, холодный бетон
Агрессивный flow, это наш закон

[Pre-Chorus]
Hard trap Moscow, звук идет со дна
Massive 808s, качает вся страна
Gunshot samples, это наша игра
Жесткий стиль, от рассвета до утра

[Chorus]
Москва! Hard trap! Агрессивный стиль!
Тяжелые басы рвут на части всю пыль!
808 давит, snare бьет по ушам!
Московский trap - мы даем жару вам!

[Verse 2]
Distorted 808, синты как нож
Rapid hi-hats режут, этот sound не врешь
Air horns орут, crowd кричит " ++ quote ++ "Еще!" ++ quote ++ "
Компрессия на максимум, все что мы хочем

[Bridge]
Dark synth leads, ведут нас в темноту
Gunshot echoes, мы меняем высоту
Heavy compression, каждый sound идет в атаку
Московский trap, мы не знаем пощады

[Chorus]
Москва! Hard trap! Агрессивный стиль!
Тяжелые басы рвут на части всю пыль!
808 давит, snare бьет по ушам!
Московский trap - мы даем жару вам!

[Outro]
Hard trap Moscow... Bass до утра...
Жесткий sound... Москва... (gunshots)
Ха!")%string.

Definition TRACK_CONFIG : pyval :=
  PyDict
    [("title", PyStr "Hard Trap Moscow");
     ("style", PyStr "hard trap, aggressive, 808 bass, rapid hi-hats, dark synths, Russian rap, heavy, distorted, 138 BPM, D# minor, massive bass, gunshot samples, air horns");
     ("model", PyStr "V4_5PLUS");
     ("customMode", PyBool true);
     ("instrumental", PyBool false);
     ("negativeTags", PyStr "soft, calm, peaceful, acoustic, gentle, slow");
     ("prompt", PyStr prompt)].

(** *** WebhookHandler *)

(** An inbound POST as lines 43-47 leave it: the value the body parses
    to, or the exception raised on the way (a Content-Length that is not
    a number, a body that is not UTF-8 or not JSON). *)
Definition inbound_post : Type := res pyval.

Definition send_response (status_code : Z) : M process unit :=
  fun p =>
    (Normal tt,
     {| clock := clock p; sent := sent p; checks := checks p;
        callback_data := callback_data p; listening := listening p;
        responses := responses p ++ [status_code]; trace := trace p |}).

(** Lines 40-65. *)
Definition do_POST (post : inbound_post) : M process unit :=
  match post with
  | Ok parsed =>
      (fun p =>
         let cb := callback_data p in
         let cb1 := {| received := true; data := data cb; error := error cb |} in
         let cb2 := {| received := received cb1; data := parsed; error := error cb1 |} in
         (Normal tt, store cb2 p)) ;;
      print MsgCallbackReceived ;;
      send_response 200
  | Err e =>
      (fun p =>
         let cb := callback_data p in
         (Normal tt, store {| received := received cb; data := data cb; error := Some e |} p)) ;;
      print (MsgCallbackError e) ;;
      send_response 500
  end%py.

(** Lines 284-287, the listener thread: [handle_request] serves the next
    POST of the inbox as long as [callback_data["received"]] is false;
    once the loop is left the rest of the inbox is never served. *)
Fixpoint run_server (inbox : list inbound_post) : M process unit :=
  match inbox with
  | [] => ret tt
  | post :: rest =>
      fun p =>
        if received (callback_data p) then (Normal tt, p)
        else (do_POST post ;; run_server rest)%py p
  end.

(** Lines 280-292. The socket is bound by the [HTTPServer] constructor. *)
Definition start_webhook_server (port : Z) : M process Z :=
  ((fun p =>
      (Normal tt,
       emit (EvListen port)
         {| clock := clock p; sent := sent p; checks := checks p;
            callback_data := callback_data p; listening := Some port;
            responses := responses p; trace := trace p |})) ;;
   print (MsgServerStarted port) ;;
   ret port)%py.

(** Lines 295-314; both branches give the same URL. *)
Definition get_public_url (port : Z) : url := LocalCallback port.

Section World.

(** [server k]: the exchange that answers the k-th status request. *)
Variable server : nat -> exchange.
(** [inbound k]: the POSTs that reach the listening socket before the
    waiter looks at [callback_data] for the k-th time, in arrival order;
    the look that follows the last sleep of a wait is the loop test that
    ends it. *)
Variable inbound : nat -> list inbound_post.
(** The files that can be opened for writing. *)
Variable writable : string -> bool.

(** The listener thread's progress between two looks of the waiter.
    Without a listening socket nothing is served. *)
Definition listener_turn : M process unit :=
  fun p =>
    let p' := {| clock := clock p; sent := sent p; checks := S (checks p);
                 callback_data := callback_data p; listening := listening p;
                 responses := responses p; trace := trace p |} in
    match listening p with
    | Some _ => run_server (inbound (checks p)) p'
    | None => (Normal tt, p')
    end.

(** *** SunoAPIClient *)

(** Lines 125-138. *)
Definition client_init (api_key : string) : M process unit :=
  if (api_key =? "your_suno_api_key_here")%string then
    (print MsgApiKeyMissing ;; sys_exit 1)%py
  else ret tt.

(** Lines 153-164, the [try] body of [generate_music]. *)
Definition task_id_of (r : http_result) : res pyval :=
  match r with
  | NetworkError => Err RequestException
  | Response status_code body =>
      (_ <-? raise_for_status status_code ;;
       parsed <-? response_json body ;;
       code <-? py_get parsed "code" PyNone ;;
       if negb (eq_int code 200) then
         msg <-? py_get parsed "msg" (PyStr "Unknown error") ;;
         Err (ApiError msg)
       else
         d <-? py_index parsed "data" ;;
         py_index d "taskId")%py
  end.

(** Lines 140-171. [submit] is the exchange that answers the request.
    The lines that show the configuration come before the [try]. *)
Definition generate_music (config : pyval) (callback_url : url) (submit : exchange)
  : M process pyval :=
  (config <- lift (py_setitem config "callBackUrl" (PyStr (url_text callback_url))) ;;
   title <- lift (py_index config "title") ;;
   print (MsgGenerating title) ;;
   model <- lift (py_index config "model") ;;
   print (MsgModel model) ;;
   style <- lift (py_index config "style") ;;
   head <- lift (py_slice 80 style) ;;
   print (MsgStyle head) ;;
   print MsgVocals ;;
   print (MsgCallbackUrl (port_of callback_url)) ;;
   try_except
     ((fun p =>
         (Normal tt,
          emit (EvSubmit callback_url) (advance (Z.of_N (latency submit)) p))) ;;
      task_id <- lift (task_id_of (reply submit)) ;;
      print (MsgTaskCreated task_id) ;;
      ret task_id)
     (fun e =>
        match e with
        | RequestException => print MsgNetworkError ;; sys_exit 1
        | _ => print (MsgError e) ;; sys_exit 1
        end))%py.

(** Lines 178-187, the [try] body of [get_task_status]. *)
Definition status_payload (r : http_result) : res pyval :=
  match r with
  | NetworkError => Err RequestException
  | Response status_code body =>
      (_ <-? raise_for_status status_code ;;
       parsed <-? response_json body ;;
       code <-? py_get parsed "code" PyNone ;;
       if negb (eq_int code 200) then
         msg <-? py_get parsed "msg" (PyStr "Unknown error") ;;
         Err (ApiError msg)
       else py_index parsed "data")%py
  end.

(** Lines 173-194. *)
Definition get_task_status (task_id : string) : M process pyval :=
  (x <- (fun p =>
           (Normal (server (sent p)),
            emit (EvRequest task_id)
              {| clock := clock p + Z.of_N (latency (server (sent p)));
                 sent := S (sent p); checks := checks p;
                 callback_data := callback_data p; listening := listening p;
                 responses := responses p; trace := trace p |})) ;;
   match status_payload (reply x) with
   | Ok v => ret v
   | Err RequestException => print MsgNetworkError ;; ret PyNone
   | Err e => print (MsgError e) ;; ret PyNone
   end)%py.

Definition poll_interval : Z := 5.

(** One pass through the body of the [while] loop, lines 205-232. *)
Definition wait_body (task_id : string) (start_time : Z) : M process (option pyval) :=
  (status_data <- get_task_status task_id ;;
   if negb (truthy status_data) then
     print MsgRetrying ;;
     sleep poll_interval ;;
     ret None
   else
     status <- lift (py_get status_data "status" PyNone) ;;
     now <- time_time ;;
     let elapsed := elapsed_seconds now start_time in
     if eq_str status "SUCCESS" then
       print (MsgCompleted elapsed) ;;
       response_data <- lift (py_get status_data "response" (PyDict [])) ;;
       audio_list <- lift (py_get response_data "data" (PyList [])) ;;
       ret (Some audio_list)
     else if eq_str status "FAILED" then
       error_msg <- lift (py_get status_data "errorMessage" (PyStr "Unknown error")) ;;
       print (MsgFailed error_msg) ;;
       sys_exit 1
     else if eq_str status "PENDING" || eq_str status "GENERATING" then
       print (MsgProgress elapsed status) ;;
       sleep poll_interval ;;
       ret None
     else
       print (MsgUnknown status) ;;
       sleep poll_interval ;;
       ret None)%py.

(** Lines 204-235. *)
Fixpoint wait_loop (fuel : nat) (task_id : string) (max_wait start_time : Z)
  : M process pyval :=
  match fuel with
  | O => out_of_fuel
  | S fuel' =>
      (now <- time_time ;;
       if now - start_time <? 1000 * max_wait then
         r <- wait_body task_id start_time ;;
         match r with
         | Some v => ret v
         | None => wait_loop fuel' task_id max_wait start_time
         end
       else
         print (MsgTimeout max_wait) ;;
         sys_exit 1)%py
  end.

(** [max_wait: int = 300], of [wait_for_completion] and of
    [wait_for_callback]: [None] is a call that leaves the argument out. *)
Definition budget (max_wait : option Z) : Z :=
  match max_wait with
  | Some seconds => seconds
  | None => 300
  end.

(** Lines 196-235. *)
Definition wait_for_completion (fuel : nat) (task_id : string) (max_wait : option Z)
  : M process pyval :=
  (start_time <- time_time ;;
   print MsgWaiting ;;
   print MsgUsually ;;
   wait_loop fuel task_id (budget max_wait) start_time)%py.

(** *** wait_for_callback *)

(** Lines 326-334: what the waiter does with the stored notification. *)
Definition hand_over (d : pyval) : M process pyval :=
  (code <- lift (py_get d "code" PyNone) ;;
   if eq_int code 200 then
     print MsgCallbackCompleted ;;
     lift (py_get d "data" (PyDict []))
   else
     error_msg <- lift (py_get d "msg" (PyStr "Unknown error")) ;;
     print (MsgFailed error_msg) ;;
     sys_exit 1)%py.

(** One pass through the body of the [while] loop, lines 325-340, after
    the listener thread has had its turn. *)
Definition callback_body (start_time : Z) : M process (option pyval) :=
  (listener_turn ;;
   cb <- (fun p => (Normal (callback_data p), p)) ;;
   if received cb then
     v <- hand_over (data cb) ;;
     ret (Some v)
   else
     now <- time_time ;;
     print (MsgAwaitingCallback (elapsed_seconds now start_time)) ;;
     sleep 1 ;;
     ret None)%py.

(** Lines 324-344. When the loop test fails the listener thread has
    served what arrived during the last sleep. *)
Fixpoint callback_loop (fuel : nat) (max_wait start_time : Z) : M process pyval :=
  match fuel with
  | O => out_of_fuel
  | S fuel' =>
      (now <- time_time ;;
       if now - start_time <? 1000 * max_wait then
         r <- callback_body start_time ;;
         match r with
         | Some v => ret v
         | None => callback_loop fuel' max_wait start_time
         end
       else
         listener_turn ;;
         print (MsgNoCallback max_wait) ;;
         print (MsgFirewallTip WEBHOOK_PORT) ;;
         sys_exit 1)%py
  end.

(** Lines 317-344. *)
Definition wait_for_callback (fuel : nat) (max_wait : option Z) : M process pyval :=
  (start_time <- time_time ;;
   print MsgWaiting ;;
   print MsgUsually ;;
   callback_loop fuel (budget max_wait) start_time)%py.

(** Lines 353-375 of [main]: from the start of the listener to the
    artifact list in hand. [submit] answers the generation request. *)
Definition main (fuel : nat) (api_key : string) (submit : exchange) : M process pyval :=
  (_ <- start_webhook_server WEBHOOK_PORT ;;
   let callback_url := get_public_url WEBHOOK_PORT in
   sleep 1 ;;
   client_init api_key ;;
   task_id <- generate_music TRACK_CONFIG callback_url submit ;;
   write_text writable "last_task_id.txt" task_id ;;
   print MsgTaskSaved ;;
   audio_info <- wait_for_callback fuel None ;;
   if negb (truthy audio_info) then
     print MsgNoAudioData ;;
     sys_exit 1
   else ret audio_info)%py.

End World.

(** *** Vocabulary for the statements *)

(** A POST whose body lines 43-47 cannot read. *)
Definition malformed (post : inbound_post) : Prop :=
  match post with
  | Err _ => True
  | Ok _ => False
  end.

(** The POSTs that reach the socket before looks [c], ..., [c + k - 1]
    of the waiter, in arrival order. *)
Fixpoint arrived (inbound : nat -> list inbound_post) (c k : nat) : list inbound_post :=
  match k with
  | O => []
  | S k' => inbound c ++ arrived inbound (S c) k'
  end.

(** The process when [wait_for_completion] or [wait_for_callback] gets
    to its loop. *)
Definition entered (p : process) : process :=
  emit (EvPrint MsgUsually) (emit (EvPrint MsgWaiting) p).

(** [p'] is [p] after [k] looks of the waiter that found nothing, the
    listener having turned down [n] POSTs meanwhile. *)
Definition still_waiting (n k : nat) (p p' : process) : Prop :=
  clock p' = clock p + 1000 * Z.of_nat k /\
  checks p' = (checks p + k)%nat /\
  listening p' = listening p /\
  received (callback_data p') = false /\
  data (callback_data p') = data (callback_data p) /\
  responses p' = responses p ++ repeat 500 n.

(** [p'] is [p] after [k] looks of the waiter that found nothing and the
    turn of the listener in which, [n] POSTs turned down, it stored [v]. *)
Definition fulfilled (v : pyval) (n k : nat) (p p' : process) : Prop :=
  clock p' = clock p + 1000 * Z.of_nat k /\
  checks p' = S (checks p + k) /\
  listening p' = listening p /\
  received (callback_data p') = true /\
  data (callback_data p') = v /\
  responses p' = responses p ++ repeat 500 n ++ [200].

(** The sleeps of [wait_for_completion]: [poll_interval] seconds. *)
Definition sleeps_poll_interval (e : event) : Prop :=
  forall seconds, e = EvSleep seconds -> seconds = poll_interval.

(** The sleeps of [wait_for_callback]: one second. *)
Definition sleeps_one_second (e : event) : Prop :=
  forall seconds, e = EvSleep seconds -> seconds = 1.

End HardTrap.

(** ** r2r.py *)

Module R2R.

(** Attributes are untyped in Python: each holds a [pyval]. *)
Record SunoPersona : Type := mkPersona {
  name : pyval;
  style : pyval;
  model : pyval;
  bpm : pyval;
  key : pyval;
  vocal_characteristics : pyval;
  instrumental_elements : pyval;
  mixing_notes : pyval;
  tags : pyval;
  description : pyval;
  created_at : pyval;
  track_ids : pyval
}.

(** [v or []] *)
Definition or_empty (v : pyval) : pyval :=
  if truthy v then v else PyList [].

(** Lines 13-37; [now] is [datetime.now().isoformat()]. *)
Definition init (now : string)
  (name style model bpm key vocal_characteristics instrumental_elements
   mixing_notes tags description : pyval) : SunoPersona :=
  {| name := name;
     style := style;
     model := model;
     bpm := bpm;
     key := key;
     vocal_characteristics := vocal_characteristics;
     instrumental_elements := or_empty instrumental_elements;
     mixing_notes := mixing_notes;
     tags := or_empty tags;
     description := description;
     created_at := PyStr now;
     track_ids := PyList [] |}.

(** Lines 39-54. *)
Definition to_dict (p : SunoPersona) : pyval :=
  PyDict
    [ ("name", name p);
      ("style", style p);
      ("model", model p);
      ("bpm", bpm p);
      ("key", key p);
      ("vocal_characteristics", vocal_characteristics p);
      ("instrumental_elements", instrumental_elements p);
      ("mixing_notes", mixing_notes p);
      ("tags", tags p);
      ("description", description p);
      ("created_at", created_at p);
      ("track_ids", track_ids p) ].

(** Lines 56-73. *)
Definition from_dict (now : string) (d : pyval) : res SunoPersona :=
  (a_name <-? py_index d "name" ;;
   a_style <-? py_index d "style" ;;
   a_model <-? py_get d "model" (PyStr "V4") ;;
   a_bpm <-? py_get d "bpm" PyNone ;;
   a_key <-? py_get d "key" PyNone ;;
   a_vocal <-? py_get d "vocal_characteristics" PyNone ;;
   a_instr <-? py_get d "instrumental_elements" (PyList []) ;;
   a_mixing <-? py_get d "mixing_notes" PyNone ;;
   a_tags <-? py_get d "tags" (PyList []) ;;
   a_descr <-? py_get d "description" PyNone ;;
   let persona :=
     init now a_name a_style a_model a_bpm a_key a_vocal a_instr a_mixing
       a_tags a_descr in
   a_created <-? py_get d "created_at" (created_at persona) ;;
   a_tracks <-? py_get d "track_ids" (PyList []) ;;
   Ok {| name := name persona;
         style := style persona;
         model := model persona;
         bpm := bpm persona;
         key := key persona;
         vocal_characteristics := vocal_characteristics persona;
         instrumental_elements := instrumental_elements persona;
         mixing_notes := mixing_notes persona;
         tags := tags persona;
         description := description persona;
         created_at := a_created;
         track_ids := a_tracks |})%py.

(** [track_id in container] for a string [track_id]: an element of a list,
    a substring of a string, a key of a dict; other values are not
    iterable. *)
Definition py_in (track_id : string) (container : pyval) : res bool :=
  match container with
  | PyList items => Ok (existsb (fun x => eq_str x track_id) items)
  | PyStr s =>
      Ok (match String.index 0 track_id s with Some _ => true | None => false end)
  | PyDict entries =>
      Ok (match lookup track_id entries with Some _ => true | None => false end)
  | _ => Err TypeError
  end.

(** [container.append(x)]: only lists have [append]. *)
Definition py_append (container : pyval) (x : pyval) : res pyval :=
  match container with
  | PyList items => Ok (PyList (items ++ [x]))
  | _ => Err AttributeError
  end.

(** Lines 100-103. The list is updated in place; the persona after the
    call is returned. *)
Definition add_track (p : SunoPersona) (track_id : string) : res SunoPersona :=
  (present <-? py_in track_id (track_ids p) ;;
   if negb present then
     appended <-? py_append (track_ids p) (PyStr track_id) ;;
     Ok {| name := name p;
           style := style p;
           model := model p;
           bpm := bpm p;
           key := key p;
           vocal_characteristics := vocal_characteristics p;
           instrumental_elements := instrumental_elements p;
           mixing_notes := mixing_notes p;
           tags := tags p;
           description := description p;
           created_at := created_at p;
           track_ids := appended |}
   else Ok p)%py.

(** [add_track] for each id of [ids] in turn. *)
Fixpoint add_tracks (p : SunoPersona) (ids : list string) : res SunoPersona :=
  match ids with
  | [] => Ok p
  | t :: rest => (p' <-? add_track p t ;; add_tracks p' rest)%py
  end.

(** The value [__init__] leaves in [instrumental_elements] and [tags]:
    a truthy value or the empty list. *)
Definition kept_by_init (v : pyval) : Prop :=
  truthy v = true \/ v = PyList [].

Definition is_list (v : pyval) : Prop :=
  exists items, v = PyList items.

End R2R.

(** ** Scenarios *)

Module Scenarios.

(** A world that answers the requests from a finite script and refuses
    connections afterwards. *)
Definition script (xs : list exchange) (k : nat) : exchange :=
  nth k xs (mkExchange 0 NetworkError).

(** [{code: 200, data: {status: ..., ...fields}}], answered at once. *)
Definition status_reply (status : string) (fields : list (string * pyval)) : exchange :=
  mkExchange 0
    (Response 200
       (Some (PyDict [("code", PyInt 200);
                      ("data", PyDict (("status", PyStr status) :: fields))]))).

Definition pending : exchange := status_reply "PENDING" [].

Definition success (audio : list pyval) : exchange :=
  status_reply "SUCCESS" [("response", PyDict [("data", PyList audio)])].

Definition failed (msg : string) : exchange :=
  status_reply "FAILED" [("errorMessage", PyStr msg)].

Definition track_a : pyval := PyDict [("audio_url", PyStr "http://x/a.mp3")].

(** The example of the specification: two PENDING polls, SUCCESS without
    artifacts, SUCCESS with one artifact. *)
Definition lagging_success : nat -> exchange :=
  script [pending; pending; success []; success [track_a]].

Definition always_pending : nat -> exchange := fun _ => pending.

Definition fails_at_once : nat -> exchange := script [failed "quota exceeded"].

(** A connection error, an API error, a body that is not JSON and a
    status the loop does not know, then PENDING for ever. *)
Definition flaky : nat -> exchange :=
  fun k =>
    nth k
      [ mkExchange 250 NetworkError;
        mkExchange 40 (Response 200 (Some (PyDict [("code", PyInt 429);
                                                   ("msg", PyStr "Too many requests")])));
        mkExchange 40 (Response 502 None);
        status_reply "QUEUED" [] ]
      pending.

(** The service cannot be reached at all. *)
Definition unreachable : nat -> exchange := fun _ => mkExchange 100 NetworkError.

(** The answer to the generation request. *)
Definition accepted : exchange :=
  mkExchange 300
    (Response 200
       (Some (PyDict [("code", PyInt 200);
                      ("data", PyDict [("taskId", PyStr "task-1")])]))).

Definition track_b : pyval := PyDict [("audio_url", PyStr "http://x/b.mp3")].

(** A completion callback: [{code: 200, msg: ..., data: [...]}]. *)
Definition callback (audio : list pyval) : HardTrap.inbound_post :=
  Ok (PyDict [("code", PyInt 200); ("msg", PyStr "All generated successfully.");
              ("data", PyList audio)]).

(** Two well-formed callbacks in the third second, one more later. *)
Definition two_callbacks (k : nat) : list HardTrap.inbound_post :=
  match k with
  | 2%nat => [callback [track_a]; callback [track_b]]
  | 4%nat => [callback [track_b]]
  | _ => []
  end.

(** A body that is not JSON in the second second, the callback in the
    fourth. *)
Definition junk_then_callback (k : nat) : list HardTrap.inbound_post :=
  match k with
  | 1%nat => [Err ValueError]
  | 3%nat => [callback [track_a]]
  | _ => []
  end.

(** A working directory in which every file can be written. *)
Definition writable_disk (file : string) : bool := true.

(** The process of the callback script once the listener is up. *)
Definition served : HardTrap.process :=
  snd (HardTrap.start_webhook_server HardTrap.WEBHOOK_PORT (HardTrap.boot 0)).

(** A persona file whose list of track ids names one track twice. *)
Definition doubled_tracks : pyval :=
  PyDict [("name", PyStr "Drill"); ("style", PyStr "Russian drill-rap");
          ("track_ids", PyList [PyStr "t1"; PyStr "t1"])].

(** A persona as [__init__] makes it, with one track added. *)
Definition drill : R2R.SunoPersona :=
  {| R2R.name := PyStr "Drill";
     R2R.style := PyStr "Russian drill-rap";
     R2R.model := PyStr "V4";
     R2R.bpm := PyInt 142;
     R2R.key := PyStr "D Minor";
     R2R.vocal_characteristics := PyNone;
     R2R.instrumental_elements := PyList [PyStr "balalaika motifs"];
     R2R.mixing_notes := PyNone;
     R2R.tags := PyList [];
     R2R.description := PyNone;
     R2R.created_at := PyStr "2025-01-01T00:00:00";
     R2R.track_ids := PyList [PyStr "t1"] |}.

(** The persona [drill] after [update_persona(name,
    instrumental_elements=None)]: [setattr] stores the [None]. *)
Definition drill_reset : R2R.SunoPersona :=
  {| R2R.name := PyStr "Drill";
     R2R.style := PyStr "Russian drill-rap";
     R2R.model := PyStr "V4";
     R2R.bpm := PyInt 142;
     R2R.key := PyStr "D Minor";
     R2R.vocal_characteristics := PyNone;
     R2R.instrumental_elements := PyNone;
     R2R.mixing_notes := PyNone;
     R2R.tags := PyList [];
     R2R.description := PyNone;
     R2R.created_at := PyStr "2025-01-01T00:00:00";
     R2R.track_ids := PyList [PyStr "t1"] |}.

(** A well-formed answer whose [data] is a list, not an object. *)
Definition data_is_a_list : nat -> exchange :=
  fun _ =>
    mkExchange 0
      (Response 200 (Some (PyDict [("code", PyInt 200);
                                   ("data", PyList [PyStr "SUCCESS"])]))).

End Scenarios.


(** ** r2r.py: the style string *)

Module R2RStyle.
Import R2R.

(** [sep.join(parts)] on strings. *)
Fixpoint join_strings (sep : string) (parts : list string) : string :=
  match parts with
  | [] => ""
  | [x] => x
  | x :: rest => (x ++ sep ++ join_strings sep rest)%string
  end.

(** The items of a list when all of them are strings; [str.join] raises
    [TypeError] on any other item. *)
Fixpoint all_strings (items : list pyval) : res (list string) :=
  match items with
  | [] => Ok []
  | PyStr s :: rest => (tail <-? all_strings rest ;; Ok (s :: tail))%py
  | _ :: _ => Err TypeError
  end.

Section Formatting.

(** The characters of a string, each as a string; a character may take
    more than one byte. *)
Variable code_points : string -> list string.

(** [sep.join(v)]: [v] is iterated; a string gives its characters, a dict
    its keys. *)
Definition py_join (sep : string) (v : pyval) : res string :=
  match v with
  | PyList items => (parts <-? all_strings items ;; Ok (join_strings sep parts))%py
  | PyStr s => Ok (join_strings sep (code_points s))
  | PyDict entries => Ok (join_strings sep (map fst entries))
  | _ => Err TypeError
  end.

(** The builtin [str()], as the f-strings of lines 94 and 96 apply it. *)
Variable py_str : pyval -> string.

(** Lines 75-98. *)
Definition get_suno_style_string (p : SunoPersona) : res string :=
  (let parts := [style p] in
   let parts :=
     if truthy (vocal_characteristics p) then parts ++ [vocal_characteristics p]
     else parts in
   parts <-? (if truthy (instrumental_elements p) then
                joined <-? py_join ", " (instrumental_elements p) ;;
                Ok (parts ++ [PyStr joined])
              else Ok parts) ;;
   let parts :=
     if truthy (mixing_notes p) then parts ++ [mixing_notes p] else parts in
   style_string <-? py_join ", " (PyList parts) ;;
   let style_string :=
     if truthy (key p) then (style_string ++ ", " ++ py_str (key p))%string
     else style_string in
   let style_string :=
     if truthy (bpm p) then (style_string ++ ", " ++ py_str (bpm p) ++ " bpm")%string
     else style_string in
   Ok style_string)%py.

End Formatting.

End R2RStyle.

(** ** Code that works on files *)

(** What a method that works on files gives: its value, or the
    exception it raises. *)
Inductive result (A : Type) : Type :=
| Done (a : A)
| Failed (e : exn).
Arguments Done {A} a.
Arguments Failed {A} e.

(** ** r2r.py: PersonaManager *)

Module R2RManager.
Import R2R.

(** *** The dict [self.personas] *)

(** Lists and dicts cannot be keys. *)
Definition hashable (k : pyval) : bool :=
  match k with
  | PyList _ | PyDict _ => false
  | _ => true
  end.

Definition key_number (k : pyval) : option Z :=
  match k with
  | PyInt n => Some n
  | PyBool true => Some 1
  | PyBool false => Some 0
  | _ => None
  end.

(** Equality of keys: [True] and [1] are one key. *)
Definition key_eq (a b : pyval) : bool :=
  match a, b with
  | PyStr s, PyStr t => (s =? t)%string
  | PyNone, PyNone => true
  | _, _ =>
      match key_number a, key_number b with
      | Some x, Some y => x =? y
      | _, _ => false
      end
  end.

Section Dict.

Context {V : Type}.

(** [d.get(k)] *)
Fixpoint dict_find (k : pyval) (d : list (pyval * V)) : option V :=
  match d with
  | [] => None
  | (k', v) :: rest => if key_eq k' k then Some v else dict_find k rest
  end.

(** [d[k] = v]: an entry with this key keeps its place and its key
    object; a new key goes to the end. *)
Fixpoint dict_store (k : pyval) (v : V) (d : list (pyval * V)) : list (pyval * V) :=
  match d with
  | [] => [(k, v)]
  | (k', v') :: rest =>
      if key_eq k' k then (k', v) :: rest else (k', v') :: dict_store k v rest
  end.

(** [del d[k]] *)
Fixpoint dict_remove (k : pyval) (d : list (pyval * V)) : list (pyval * V) :=
  match d with
  | [] => []
  | (k', v') :: rest =>
      if key_eq k' k then rest else (k', v') :: dict_remove k rest
  end.

End Dict.

Record PersonaManager : Type := mkManager {
  storage_path : string;
  personas : list (pyval * SunoPersona)
}.

(** *** JSON files *)

(** A file as [open] and [json.load] find it. *)
Inductive file : Type :=
| JsonFile (v : pyval)     (* [json.load] gives [v] *)
| NotJson                  (* [json.load] raises *)
| Unreadable.              (* [open(..., 'r')] raises: a directory, no permission *)

(** The key of a JSON object that [json.dump] writes for a dict key. *)
Definition json_key (k : pyval) : res string :=
  match k with
  | PyStr s => Ok s
  | PyInt n => Ok (DecimalString.NilZero.string_of_int (Z.to_int n))
  | PyBool true => Ok "true"
  | PyBool false => Ok "false"
  | PyNone => Ok "null"
  | _ => Err TypeError
  end.

(** A JSON object read back: of two members with one key the later value
    stays, at the place of the first. *)
Fixpoint object_store (k : string) (v : pyval) (o : list (string * pyval))
  : list (string * pyval) :=
  match o with
  | [] => [(k, v)]
  | (k', v') :: rest =>
      if (k' =? k)%string then (k', v) :: rest else (k', v') :: object_store k v rest
  end.

Definition json_object (members : list (string * pyval)) : list (string * pyval) :=
  fold_left (fun o kv => object_store (fst kv) (snd kv) o) members [].

(** Lines 119-125: what [json.dump] writes member by member, the key of
    a member before its value. With [ensure_ascii=False] a lone surrogate
    goes to the file as it is, and the file, opened as UTF-8, raises
    [UnicodeEncodeError] on it. *)
Fixpoint dumped (ps : list (pyval * SunoPersona)) : res (list (string * pyval)) :=
  match ps with
  | [] => Ok []
  | (k, persona) :: rest =>
      (name <-? json_key k ;;
       _ <-? (if negb (has_surrogate name) && json_encodable (to_dict persona)
              then Ok tt else Err UnicodeEncodeError) ;;
       tail <-? dumped rest ;;
       Ok ((name, to_dict persona) :: tail))%py
  end.

(** Lines 135-138: [from_dict] for each member in turn; [now i] is the
    time at which the i-th persona is constructed. *)
Fixpoint loaded (now : nat -> string) (i : nat) (members : list (string * pyval))
  (acc : list (pyval * SunoPersona)) : res (list (pyval * SunoPersona)) :=
  match members with
  | [] => Ok acc
  | (k, persona_data) :: rest =>
      (persona <-? from_dict (now i) persona_data ;;
       loaded now (S i) rest (dict_store (PyStr k) persona acc))%py
  end.

Section Files.

(** The file a path names, and whether it can be opened for writing. *)
Variable resolve : string -> nat.
Variable writable : nat -> bool.

Definition disk : Type := nat -> option file.

Definition write (id : nat) (f : file) (d : disk) : disk :=
  fun i => if Nat.eqb i id then Some f else d i.

(** Lines 117-125. [open(..., 'w')] empties the file before [json.dump]
    writes; when [json.dump] raises, what the file holds is no JSON. *)
Definition save (m : PersonaManager) (d : disk) : result unit * disk :=
  let id := resolve (storage_path m) in
  if writable id then
    match dumped (personas m) with
    | Ok members => (Done tt, write id (JsonFile (PyDict (json_object members))) d)
    | Err e => (Failed e, write id NotJson d)
    end
  else (Failed OSError, d).

(** Lines 127-138. *)
Definition load (now : nat -> string) (m : PersonaManager) (d : disk)
  : result unit * PersonaManager :=
  match d (resolve (storage_path m)) with
  | None => (Done tt, m)
  | Some Unreadable => (Failed OSError, m)
  | Some NotJson => (Failed ValueError, m)
  | Some (JsonFile (PyDict members)) =>
      match loaded now 0 members [] with
      | Ok ps => (Done tt, {| storage_path := storage_path m; personas := ps |})
      | Err e => (Failed e, m)
      end
  | Some (JsonFile _) => (Failed AttributeError, m)
  end.

(** Lines 112-115: [PersonaManager(storage_path)]. *)
Definition init (now : nat -> string) (path : string) (d : disk) : result PersonaManager :=
  match load now {| storage_path := path; personas := [] |} d with
  | (Done _, m) => Done m
  | (Failed f, _) => Failed f
  end.

(** Lines 140-143. *)
Definition add_persona (m : PersonaManager) (persona : SunoPersona) (d : disk)
  : result unit * PersonaManager * disk :=
  if hashable (name persona) then
    let m' := {| storage_path := storage_path m;
                 personas := dict_store (name persona) persona (personas m) |} in
    let (r, d') := save m' d in
    (r, m', d')
  else (Failed TypeError, m, d).

(** Lines 145-147. *)
Definition get_persona (m : PersonaManager) (name : pyval) : result (option SunoPersona) :=
  if hashable name then Done (dict_find name (personas m))
  else Failed TypeError.

(** Lines 149-151. *)
Definition list_personas (m : PersonaManager) : list pyval :=
  map fst (personas m).

(** Lines 165-169. *)
Definition delete_persona (m : PersonaManager) (name : pyval) (d : disk)
  : result unit * PersonaManager * disk :=
  if hashable name then
    match dict_find name (personas m) with
    | Some _ =>
        let m' := {| storage_path := storage_path m;
                     personas := dict_remove name (personas m) |} in
        let (r, d') := save m' d in
        (r, m', d')
    | None => (Done tt, m, d)
    end
  else (Failed TypeError, m, d).


(** Lines 180-186. *)
Definition import_persona (now : string) (m : PersonaManager) (input_path : string)
  (d : disk) : result unit * PersonaManager * disk :=
  match d (resolve input_path) with
  | None | Some Unreadable => (Failed OSError, m, d)
  | Some NotJson => (Failed ValueError, m, d)
  | Some (JsonFile data) =>
      match from_dict now data with
      | Ok persona => add_persona m persona d
      | Err e => (Failed e, m, d)
      end
  end.

End Files.

(** *** Vocabulary for the statements *)

(** The keys of a dict are pairwise different keys. *)
Fixpoint distinct_keys {V : Type} (d : list (pyval * V)) : Prop :=
  match d with
  | [] => True
  | (k, _) :: rest => dict_find k rest = None /\ distinct_keys rest
  end.

(** Every persona of the manager is filed under a string and holds in
    [instrumental_elements] and [tags] what [__init__] leaves there. *)
Definition as_built (ps : list (pyval * SunoPersona)) : Prop :=
  Forall (fun kp => (exists s, fst kp = PyStr s) /\
                    kept_by_init (instrumental_elements (snd kp)) /\
                    kept_by_init (tags (snd kp))) ps.

(** No name and no field of a persona holds a lone surrogate: the
    personas can be written to a UTF-8 file. *)
Definition writable_text (ps : list (pyval * SunoPersona)) : Prop :=
  Forall (fun kp => str_encodable (fst kp) = true /\
                    json_encodable (to_dict (snd kp)) = true) ps.

(** A member of the JSON object written for an entry of the dict. *)
Definition same_entry (kp : pyval * SunoPersona) (member : string * pyval) : Prop :=
  fst kp = PyStr (fst member) /\ snd member = to_dict (snd kp).

End R2RManager.

(** ** SunoGenerator.generate_with_persona *)

(** The generator that follows the shutdown fix in otel_shutdown_fix.py
    (lines 246-310); it reads the personas that r2r.py stores. *)
Module Generator.
Import R2R R2RStyle R2RManager.

(** The lines printed, with the values they show. *)
Inductive message : Type :=
| Generating (name : string)
| TitleLine (title : string)
| ModelLine (model : string)
| StyleHead (style : string)        (* [style[:80]] *)
| Rule
| Instructions
| OpenSuno
| PasteStyle
| StyleText (style : string)
| PasteLyrics
| LyricsText (lyrics : string)
| TitleStep (title : string)
| ModelStep (model : string)
| Afterwards
| AddTrackCommand (name : string)
| Blank
| SavedTo (filename : string).

(** Whether stdout can encode the line. *)
Definition encodable (m : message) : bool :=
  match m with
  | Generating t | TitleLine t | ModelLine t | StyleHead t | StyleText t
  | LyricsText t | TitleStep t | ModelStep t | AddTrackCommand t | SavedTo t =>
      negb (has_surrogate t)
  | _ => true
  end.

(** [print] line by line: the first line that stdout cannot encode raises
    [UnicodeEncodeError] ([false]), and the lines after it are not
    printed. *)
Fixpoint print_lines (lines out : list message) : bool * list message :=
  match lines with
  | [] => (true, out)
  | m :: rest =>
      if encodable m then print_lines rest (out ++ [m]) else (false, out)
  end.

Section World.

Variable code_points : string -> list string.
Variable py_str : pyval -> string.
Variable resolve : string -> nat.
Variable writable : nat -> bool.

(** The times at which the personas are constructed, and [int(time.time())]
    at line 303. *)
Variable now : nat -> string.
Variable seconds : Z.

Definition file_name : string :=
  ("suno_generation_" ++ DecimalString.NilZero.string_of_int (Z.to_int seconds)
     ++ ".json")%string.

(** Lines 266-267: the title of the call, or one made of the name of
    the persona. *)
Definition title_or_default (persona : SunoPersona) (title : pyval) : pyval :=
  if negb (truthy title)
  then PyStr (py_str (name persona) ++ " - Generated Track")
  else title.

(** Lines 246-310. The parameter [wait] is not used. [open(..., 'w')]
    empties the output file before [json.dump] writes; when [json.dump]
    raises, what the file holds is no JSON. *)
Definition generate_with_persona (persona_name : pyval) (lyrics : string) (title : pyval)
  (d : disk) (out : list message) : result pyval * disk * list message :=
  match init resolve now "suno_personas.json" d with
  | Failed f => (Failed f, d, out)
  | Done manager =>
      match get_persona manager persona_name with
      | Failed f => (Failed f, d, out)
      | Done None => (Failed ValueError, d, out)
      | Done (Some persona) =>
          match get_suno_style_string code_points py_str persona with
          | Err e => (Failed e, d, out)
          | Ok style =>
              let title := title_or_default persona title in
              let lines :=
                [Generating (py_str (name persona));
                 TitleLine (py_str title);
                 ModelLine (py_str (model persona));
                 StyleHead (take_chars 80 style);
                 Rule; Instructions; Rule;
                 OpenSuno; PasteStyle; StyleText style;
                 PasteLyrics; LyricsText lyrics;
                 TitleStep (py_str title);
                 ModelStep (py_str (model persona));
                 Rule; Afterwards; Rule;
                 AddTrackCommand (py_str (name persona));
                 Blank] in
              let output :=
                PyDict [("persona", name persona);
                        ("title", title);
                        ("style", PyStr style);
                        ("lyrics", PyStr lyrics);
                        ("model", model persona);
                        ("bpm", bpm persona);
                        ("key", key persona)] in
              match print_lines lines out with
              | (false, out) => (Failed UnicodeEncodeError, d, out)
              | (true, out) =>
                  if writable (resolve file_name) then
                    if json_encodable output then
                      (* the name of the file is ASCII *)
                      (Done output, write (resolve file_name) (JsonFile output) d,
                       out ++ [SavedTo file_name])
                    else
                      (Failed UnicodeEncodeError,
                       write (resolve file_name) NotJson d, out)
                  else (Failed OSError, d, out)
              end
          end
      end
  end.


End World.

End Generator.

(** ** The downloads of the two scripts *)

Module Files.

(** [output_dir / filename], kept as the two parts. *)
Inductive path : Type :=
| Join (output_dir filename : string).

Definition path_eqb (p q : path) : bool :=
  match p, q with
  | Join d f, Join d' f' => (d =? d')%string && (f =? f')%string
  end.

Definition content : Type := list Byte.byte.

(** What [download_track] prints. *)
Inductive message : Type :=
| DownloadingTracks (n : Z)
| NoAudioUrl (i : nat)
| Downloading (filename : string)
| Saved (filepath : path) (size : nat)
| Duration (v : pyval)
| ModelName (v : pyval)
| Tags (v : pyval)
| DownloadFailed
| FailedToDownload (filename : string).

(** The files written, the latest first, and the lines printed. *)
Record state : Type := mkState {
  files : list (path * content);
  printed : list message
}.

Definition add_line (msg : message) (s : state) : state :=
  {| files := files s; printed := printed s ++ [msg] |}.

(** Whether stdout can encode the line. The text of an exception shows
    foreign text by [repr]. *)
Definition encodable (msg : message) : bool :=
  match msg with
  | Downloading filename => negb (has_surrogate filename)
  | Saved (Join output_dir filename) _ =>
      negb (has_surrogate output_dir) && negb (has_surrogate filename)
  | Duration v => str_encodable v
  | ModelName v => str_encodable v
  | Tags v => str_encodable v
  | FailedToDownload filename => negb (has_surrogate filename)
  | _ => true
  end.

(** [print(...)]: [UnicodeEncodeError] on a line that stdout cannot
    encode. *)
Definition print (msg : message) : M state unit :=
  fun s =>
    if encodable msg then (Normal tt, add_line msg s)
    else (Raised UnicodeEncodeError, s).

Definition write_bytes (p : path) (c : content) (s : state) : state :=
  {| files := (p, c) :: files s; printed := printed s |}.

(** What a path holds. *)
Fixpoint read (p : path) (fs : list (path * content)) : option content :=
  match fs with
  | [] => None
  | (q, c) :: rest => if path_eqb q p then Some c else read p rest
  end.

(** The answer to the GET of an audio URL. *)
Inductive download : Type :=
| Unreachable
| Answer (status_code : Z) (body : content).

(** [s.replace(a, b)] for one-character [a] and [b]. *)
Fixpoint replace (a b : ascii) (s : string) : string :=
  match s with
  | EmptyString => EmptyString
  | String c rest => String (if Ascii.eqb c a then b else c) (replace a b rest)
  end.

(** [str(i)] *)
Definition decimal (i : nat) : string :=
  DecimalString.NilZero.string_of_uint (Nat.to_uint i).

(** What a [for] loop goes through: the items of a list, the characters
    of a string ([code_points]), the keys of a dict. *)
Definition py_iter (code_points : string -> list string) (v : pyval)
  : res (list pyval) :=
  match v with
  | PyList items => Ok items
  | PyStr s => Ok (map PyStr (code_points s))
  | PyDict entries => Ok (map (fun kv => PyStr (fst kv)) entries)
  | _ => Err TypeError
  end.

Section World.

(** The GET for the i-th track, and which paths can be written. *)
Variable fetch : nat -> pyval -> download.
Variable can_write : path -> bool.

(** [requests.get(audio_url)] and [response.raise_for_status()]. *)
Definition get (i : nat) (audio_url : pyval) : M state content :=
  fun s =>
    match fetch i audio_url with
    | Unreachable => (Raised RequestException, s)
    | Answer status_code body =>
        match raise_for_status status_code with
        | Ok _ => (Normal body, s)
        | Err e => (Raised e, s)
        end
    end.

(** [filepath.write_bytes(body)], [open(filepath, "wb")] and [f.write(body)]. *)
Definition save (filepath : path) (body : content) : M state unit :=
  fun s =>
    if can_write filepath then (Normal tt, write_bytes filepath body s)
    else (Raised OSError, s).

End World.

(** [l] is [l'] with some of its entries left out. *)
Inductive sublist {A : Type} : list A -> list A -> Prop :=
| sublist_nil : sublist [] []
| sublist_skip (x : A) (l l' : list A) : sublist l l' -> sublist l (x :: l')
| sublist_cons (x : A) (l l' : list A) : sublist l l' -> sublist (x :: l) (x :: l').





(** Every line that [download_track] prints for the track can be
    encoded: its title and the directory hold no lone surrogate, and
    neither does a [duration], [model_name] or [tags] that is a
    string. *)
Definition shows_cleanly (output_dir : string) (track : pyval) : Prop :=
  has_surrogate output_dir = false /\
  exists fields,
    track = PyDict fields /\
    (forall t, lookup "title" fields = Some (PyStr t) -> has_surrogate t = false) /\
    str_encodable (dict_get fields "duration" PyNone) = true /\
    str_encodable (dict_get fields "model_name" PyNone) = true /\
    str_encodable (dict_get fields "tags" PyNone) = true.

End Files.

(** *** generate_trap_polling.py, lines 180-218 *)

Module TrapPollingDownload.
Import Files.

Definition file_name (title : string) : string :=
  (replace " " "_" title ++ ".mp3")%string.

Section World.

(** The GET for the i-th track, and which paths can be written and which
    directories made. *)
Variable fetch : nat -> pyval -> download.
Variable can_write : path -> bool.
Variable can_mkdir : string -> bool.

(** The characters of a string, each as a string. *)
Variable code_points : string -> list string.

(** Lines 197-215, the [try]: every exception ends in the [except],
    which prints it and goes on. *)
Definition fetch_and_save (i : nat) (track audio_url : pyval) (filename : string)
  (filepath : path) : M state (option path) :=
  (try_except
     (print (Downloading filename) ;;
      body <- get fetch i audio_url ;;
      save can_write filepath body ;;
      print (Saved filepath (List.length body)) ;;
      duration <- lift (py_get track "duration" PyNone) ;;
      (if truthy duration then print (Duration duration) else ret tt) ;;
      tags <- lift (py_get track "tags" PyNone) ;;
      (if truthy tags then print (Tags tags) else ret tt) ;;
      ret (Some filepath))
     (fun e => print DownloadFailed ;; ret None))%py.

(** Lines 187-215, from the i-th track on. *)
Fixpoint download_loop (output_dir : string) (i : nat) (tracks : list pyval)
  (downloaded : list path) : M state (list path) :=
  match tracks with
  | [] => ret downloaded
  | track :: rest =>
      (audio_url <- lift (py_get track "audio_url" PyNone) ;;
       if negb (truthy audio_url) then
         print (NoAudioUrl i) ;;
         download_loop output_dir (S i) rest downloaded
       else
         title <- lift (py_get track "title" (PyStr ("Hard_Trap_Moscow_" ++ decimal i))) ;;
         match title with
         | PyStr title =>
             let filename := file_name title in
             let filepath := Join output_dir filename in
             saved <- fetch_and_save i track audio_url filename filepath ;;
             match saved with
             | Some saved => download_loop output_dir (S i) rest (downloaded ++ [saved])
             | None => download_loop output_dir (S i) rest downloaded
             end
         | _ => lift (Err AttributeError)       (* [title.replace] *)
         end)%py
  end.

(** Lines 180-218. *)
Definition download_track (audio_list : pyval) (output_dir : string)
  : M state (list path) :=
  (if can_mkdir output_dir then
     (* [len] counts what the loop goes through, and raises when the
        loop would *)
     tracks <- lift (py_iter code_points audio_list) ;;
     print (DownloadingTracks (Z.of_nat (List.length tracks))) ;;
     download_loop output_dir 1 tracks []
   else lift (Err OSError))%py.

End World.

End TrapPollingDownload.

(** *** generate_hard_trap.py, lines 237-277 *)

Module HardTrapDownload.
Import Files.

Definition file_name (title : string) : string :=
  (replace "/" "-" (replace " " "_" title) ++ ".mp3")%string.

Section World.

Variable fetch : nat -> pyval -> download.
Variable can_write : path -> bool.
Variable can_mkdir : string -> bool.
Variable code_points : string -> list string.

(** Lines 255-275, the [try]; the [except] shows the file name once
    more. *)
Definition fetch_and_save (i : nat) (track audio_url : pyval) (filename : string)
  (filepath : path) : M state (option path) :=
  (try_except
     (print (Downloading filename) ;;
      body <- get fetch i audio_url ;;
      save can_write filepath body ;;
      print (Saved filepath (List.length body)) ;;
      duration <- lift (py_get track "duration" (PyStr "N/A")) ;;
      print (Duration duration) ;;
      model_name <- lift (py_get track "model_name" (PyStr "N/A")) ;;
      print (ModelName model_name) ;;
      tags <- lift (py_get track "tags" PyNone) ;;
      (if truthy tags then print (Tags tags) else ret tt) ;;
      ret (Some filepath))
     (fun e => print (FailedToDownload filename) ;; ret None))%py.

(** Lines 245-275, from the i-th track on. *)
Fixpoint download_loop (output_dir : string) (i : nat) (tracks : list pyval)
  (downloaded : list path) : M state (list path) :=
  match tracks with
  | [] => ret downloaded
  | track :: rest =>
      (audio_url <- lift (py_get track "audio_url" PyNone) ;;
       if negb (truthy audio_url) then
         print (NoAudioUrl i) ;;
         download_loop output_dir (S i) rest downloaded
       else
         title <- lift (py_get track "title" (PyStr ("track_" ++ decimal i))) ;;
         match title with
         | PyStr title =>
             let filename := file_name title in
             let filepath := Join output_dir filename in
             saved <- fetch_and_save i track audio_url filename filepath ;;
             match saved with
             | Some saved => download_loop output_dir (S i) rest (downloaded ++ [saved])
             | None => download_loop output_dir (S i) rest downloaded
             end
         | _ => lift (Err AttributeError)       (* [title.replace] *)
         end)%py
  end.

(** Lines 237-277. *)
Definition download_track (audio_info : pyval) (output_dir : string)
  : M state (list path) :=
  (if can_mkdir output_dir then
     (* [len] counts what the loop goes through, and raises when the
        loop would *)
     tracks <- lift (py_iter code_points audio_info) ;;
     print (DownloadingTracks (Z.of_nat (List.length tracks))) ;;
     download_loop output_dir 1 tracks []
   else lift (Err OSError))%py.

End World.

End HardTrapDownload.

(** ** More scenarios *)

Module Cases.

(** The lone surrogate U+D800, which the JSON text [\ud800] stands for. *)
Definition lone_surrogate : string :=
  String (ascii_of_nat 237) (String (ascii_of_nat 160) (String (ascii_of_nat 128) EmptyString)).

(** FAILED with an error message that stdout cannot show. *)
Definition fails_with_surrogate : nat -> exchange :=
  Scenarios.script [Scenarios.failed lone_surrogate].

(** A connection error, an API error, a body that is not JSON, a body
    that is JSON and no object, and from then on a status the loop does
    not know. *)
Definition odd_answers (k : nat) : exchange :=
  match k with
  | 0%nat => mkExchange 250 NetworkError
  | 1%nat =>
      mkExchange 40 (Response 200 (Some (PyDict [("code", PyInt 429);
                                                 ("msg", PyStr "Too many requests")])))
  | 2%nat => mkExchange 40 (Response 502 None)
  | 3%nat => mkExchange 40 (Response 200 (Some (PyList [])))
  | _ => Scenarios.status_reply "QUEUED" []
  end.

(** A connection error, then answers whose [data] is a list. *)
Definition list_after_error (k : nat) : exchange :=
  match k with
  | 0%nat => mkExchange 0 NetworkError
  | _ => Scenarios.data_is_a_list 0
  end.

(** The characters of a string of ASCII text. *)
Fixpoint bytes (s : string) : list string :=
  match s with
  | EmptyString => []
  | String c rest => String c EmptyString :: bytes rest
  end.

(** [str()] on the values the examples format: strings and integers. *)
Definition plain_str (v : pyval) : string :=
  match v with
  | PyStr s => s
  | PyInt n => DecimalString.NilZero.string_of_int (Z.to_int n)
  | PyNone => "None"
  | PyBool true => "True"
  | PyBool false => "False"
  | PyList _ => "[...]"
  | PyDict _ => "{...}"
  end.

(** The body [null] in the second second, the callback in the fourth. *)
Definition null_then_callback (k : nat) : list HardTrap.inbound_post :=
  match k with
  | 1%nat => [Ok PyNone]
  | 3%nat => [Scenarios.callback [Scenarios.track_a]]
  | _ => []
  end.

(** The body [{}] in the second second, the callback in the fourth. *)
Definition empty_object_then_callback (k : nat) : list HardTrap.inbound_post :=
  match k with
  | 1%nat => [Ok (PyDict [])]
  | 3%nat => [Scenarios.callback [Scenarios.track_a]]
  | _ => []
  end.

(** A callback that reports a failure, in the second second. *)
Definition rejected_callback (k : nat) : list HardTrap.inbound_post :=
  match k with
  | 1%nat => [Ok (PyDict [("code", PyInt 400); ("msg", PyStr "Sensitive word")])]
  | _ => []
  end.

(** Unreadable POSTs for three seconds, the completion callback in the
    fourth. *)
Definition late_callback (k : nat) : list HardTrap.inbound_post :=
  match k with
  | 3%nat => [Scenarios.callback [Scenarios.track_a]]
  | _ => [Err ValueError]
  end.

(** The callback of another job, every second. *)
Definition next_job_callbacks (k : nat) : list HardTrap.inbound_post :=
  [Scenarios.callback [Scenarios.track_b]].

(** The storage file and every other path as two files. *)
Definition paths (path : string) : nat :=
  if (path =? "suno_personas.json")%string then 0%nat else 1%nat.

Definition all_writable (id : nat) : bool := true.

Definition empty_disk : R2RManager.disk := fun _ => None.

Definition noon (i : nat) : string := "2025-01-01T12:00:00".

(** A manager that holds the persona [drill]. *)
Definition studio : R2RManager.PersonaManager :=
  {| R2RManager.storage_path := "suno_personas.json";
     R2RManager.personas := [(PyStr "Drill", Scenarios.drill)] |}.

(** A server of audio files that answers every GET, the first with one
    body and the later ones with another. *)
Definition cdn (i : nat) (audio_url : pyval) : Files.download :=
  match i with
  | 1%nat => Files.Answer 200 [Byte.x01]
  | _ => Files.Answer 200 [Byte.x02; Byte.x02]
  end.

Definition any_path (p : Files.path) : bool := true.

Definition any_dir (output_dir : string) : bool := true.

Definition no_files : Files.state := Files.mkState [] [].

(** The two variants of one song, as the service sends them. *)
Definition variant_1 : list (string * pyval) :=
  [("audio_url", PyStr "https://cdn.example/1.mp3"); ("title", PyStr "Hard Trap Moscow")].

Definition variant_2 : list (string * pyval) :=
  [("audio_url", PyStr "https://cdn.example/2.mp3"); ("title", PyStr "Hard Trap Moscow")].


End Cases.

(** * Properties *)

Create HintDb appends.
Create HintDb preserves.

(** ** The monad *)

Section MonadFacts.

Context {S E T : Type}.
Variable log : S -> list E.
Variable Q : E -> Prop.
Variable f : S -> T.

Lemma appends_ret {A} (a : A) : appends log Q (ret a).
Proof. intros s. exists []. cbn. now rewrite app_nil_r. Qed.

Lemma appends_sys_exit {A} (code : Z) : appends log Q (@sys_exit S A code).
Proof. intros s. exists []. cbn. now rewrite app_nil_r. Qed.

Lemma appends_out_of_fuel {A} : appends log Q (@out_of_fuel S A).
Proof. intros s. exists []. cbn. now rewrite app_nil_r. Qed.

Lemma appends_lift {A} (r : res A) : appends log Q (lift r).
Proof. intros s. exists []. destruct r; cbn; now rewrite app_nil_r. Qed.

Lemma appends_bind {A B} (m : M S A) (k : A -> M S B) :
  appends log Q m -> (forall a, appends log Q (k a)) -> appends log Q (bind m k).
Proof.
  intros Hm Hk s. unfold bind. destruct (Hm s) as (evs & Ht & Hq).
  destruct (m s) as [[a| | |] s1]; cbn in Ht; try (now exists evs).
  destruct (Hk a s1) as (evs' & Ht' & Hq').
  exists (evs ++ evs'). rewrite Ht', Ht, app_assoc. split; [reflexivity|].
  apply Forall_app. now split.
Qed.

Lemma appends_try_except {A} (body : M S A) (handler : exn -> M S A) :
  appends log Q body -> (forall e, appends log Q (handler e)) ->
  appends log Q (try_except body handler).
Proof.
  intros Hb Hh s. unfold try_except. destruct (Hb s) as (evs & Ht & Hq).
  destruct (body s) as [[a| |e|] s1]; cbn in Ht; try (now exists evs).
  destruct (Hh e s1) as (evs' & Ht' & Hq').
  exists (evs ++ evs'). rewrite Ht', Ht, app_assoc. split; [reflexivity|].
  apply Forall_app. now split.
Qed.

Lemma preserves_ret {A} (a : A) : preserves f (ret a).
Proof. intros s. reflexivity. Qed.

Lemma preserves_sys_exit {A} (code : Z) : preserves f (@sys_exit S A code).
Proof. intros s. reflexivity. Qed.

Lemma preserves_out_of_fuel {A} : preserves f (@out_of_fuel S A).
Proof. intros s. reflexivity. Qed.

Lemma preserves_lift {A} (r : res A) : preserves f (lift r).
Proof. intros s. now destruct r. Qed.

Lemma preserves_bind {A B} (m : M S A) (k : A -> M S B) :
  preserves f m -> (forall a, preserves f (k a)) -> preserves f (bind m k).
Proof.
  intros Hm Hk s. unfold bind. specialize (Hm s).
  destruct (m s) as [[a| | |] s1]; cbn in Hm; try exact Hm.
  now rewrite Hk.
Qed.

Lemma preserves_try_except {A} (body : M S A) (handler : exn -> M S A) :
  preserves f body -> (forall e, preserves f (handler e)) ->
  preserves f (try_except body handler).
Proof.
  intros Hb Hh s. unfold try_except. specialize (Hb s).
  destruct (body s) as [[a| |e|] s1]; cbn in Hb; try exact Hb.
  now rewrite Hh.
Qed.

End MonadFacts.

Lemma eq_str_true (v : pyval) (s : string) : eq_str v s = true -> v = PyStr s.
Proof.
  destruct v; cbn; try discriminate. intros H. apply String.eqb_eq in H. now subst.
Qed.

#[global] Hint Resolve appends_ret appends_sys_exit appends_out_of_fuel appends_lift : appends.
#[global] Hint Resolve preserves_ret preserves_sys_exit preserves_out_of_fuel
  preserves_lift : preserves.

Ltac appends_step :=
  match goal with
  | |- appends _ _ (bind _ _) => apply appends_bind; [|intros ?]
  | |- appends _ _ (try_except _ _) => apply appends_try_except; [|intros ?]
  | |- appends _ _ (if ?b then _ else _) => destruct b
  | |- appends _ _ (match ?x with Some _ => _ | None => _ end) => destruct x
  | |- appends _ _ (match ?x with Ok _ => _ | Err _ => _ end) => destruct x
  | |- appends _ _ (match ?x with AttributeError => _ | _ => _ end) => destruct x
  | |- appends _ _ _ => solve [auto with appends]
  end.

Ltac preserves_step :=
  match goal with
  | |- preserves _ (bind _ _) => apply preserves_bind; [|intros ?]
  | |- preserves _ (try_except _ _) => apply preserves_try_except; [|intros ?]
  | |- preserves _ (if ?b then _ else _) => destruct b
  | |- preserves _ (match ?x with Some _ => _ | None => _ end) => destruct x
  | |- preserves _ (match ?x with Ok _ => _ | Err _ => _ end) => destruct x
  | |- preserves _ (match ?x with AttributeError => _ | _ => _ end) => destruct x
  | |- preserves _ _ => solve [auto with preserves]
  end.

(** ** The polling loop of generate_trap_polling.py *)

Module TrapPollingFacts.
Import TrapPolling.

Ltac run_py :=
  unfold wait_body, get_task_status, bind, ret, lift, sys_exit, print, sleep,
    time_time; cbn [fst snd clock sent trace encodable].

Lemma process_eq (c c' : Z) (n : nat) (tr tr' : list event) :
  c = c' -> tr = tr' -> mkProcess c n tr = mkProcess c' n tr'.
Proof. intros -> ->; reflexivity. Qed.

Ltac close_round :=
  cbn -[json_encodable str_encodable];
  apply f_equal, process_eq; [lia | now rewrite <- !app_assoc].

Section Loop.

Variable server : nat -> exchange.
Variable task_id : string.
Variable start_time : Z.

Lemma rounds_one (msgs : list message) :
  rounds task_id [msgs] = EvRequest task_id :: map EvPrint msgs ++ [EvSleep poll_interval].
Proof. reflexivity. Qed.

Lemma wait_body_in_flight (p : process) :
  in_flight (payload server (sent p)) = true ->
  exists msgs,
    wait_body server task_id start_time p = (Normal None, next_round server task_id msgs p).
Proof.
  unfold payload, next_round, round_ms. intros H. run_py.
  destruct (status_payload (reply (server (sent p)))) as [| b | n | s | l | d] eqn:E;
    cbn in H |- *.
  - eexists [_]. close_round.
  - destruct b; [discriminate|]. eexists [_]. close_round.
  - destruct (n =? 0); [|discriminate]. eexists [_]. close_round.
  - destruct (s =? "")%string; [|discriminate]. eexists [_]. close_round.
  - destruct l; [|discriminate]. eexists [_]. close_round.
  - destruct d as [|kv d]; cbn -[json_encodable str_encodable] in H |- *.
    + eexists [_]. close_round.
    + set (status := dict_get (kv :: d) "status" PyNone) in *.
      set (response_data := dict_get (kv :: d) "response" (PyDict [])) in *.
      destruct (eq_str status "SUCCESS").
      * destruct response_data as [| | | | |r]; try discriminate.
        cbn -[json_encodable str_encodable] in H |- *.
        apply andb_true_iff in H as [Ha Hj].
        destruct (truthy (dict_get r "data" (PyList []))); [discriminate|].
        cbn -[json_encodable str_encodable]. rewrite Hj.
        eexists [_; _]. close_round.
      * destruct (eq_str status "FAILED"); [discriminate|].
        destruct (eq_str status "PENDING" || eq_str status "GENERATING") eqn:Ep.
        -- assert (Hs : str_encodable status = true).
           { apply orb_true_iff in Ep as [Ep | Ep];
               apply eq_str_true in Ep; now rewrite Ep. }
           cbn -[json_encodable str_encodable]. rewrite Hs.
           eexists [_]. close_round.
        -- cbn -[json_encodable str_encodable]. rewrite H.
           eexists [_]. close_round.
Qed.

Lemma status_of_dict (status_data v : pyval) :
  status_of status_data = Some v ->
  exists kv d, status_data = PyDict (kv :: d) /\
               dict_get (kv :: d) "status" PyNone = v.
Proof.
  destruct status_data as [| | | | |[|kv d]]; try discriminate.
  unfold status_of, dict_get. intros H. exists kv, d.
  split; [reflexivity | now rewrite H].
Qed.

Lemma artifacts_of_dict (d : list (string * pyval)) (audio : pyval) :
  artifacts_of (PyDict d) = Some audio ->
  exists r, dict_get d "response" (PyDict []) = PyDict r /\
            dict_get r "data" (PyList []) = audio.
Proof.
  unfold artifacts_of, dict_get.
  destruct (lookup "response" d) as [[| | | | |r]|]; try discriminate.
  intros H. exists r. split; [reflexivity | now rewrite H].
Qed.

(** PENDING and GENERATING are not terminal. *)
Lemma pending_in_flight (status_data : pyval) (s : string) :
  status_of status_data = Some (PyStr s) ->
  s = "PENDING" \/ s = "GENERATING" ->
  in_flight status_data = true.
Proof.
  intros Hs Hp. destruct (status_of_dict _ _ Hs) as (kv & d & -> & Hst).
  unfold in_flight. rewrite Hst. now destruct Hp as [-> | ->].
Qed.

(** SUCCESS without artifacts is not terminal. *)
Lemma empty_success_in_flight (status_data : pyval) :
  status_of status_data = Some (PyStr "SUCCESS") ->
  artifacts_of status_data = Some (PyList []) ->
  json_encodable status_data = true ->
  in_flight status_data = true.
Proof.
  intros Hs Ha Hj. destruct (status_of_dict _ _ Hs) as (kv & d & -> & Hst).
  destruct (artifacts_of_dict _ _ Ha) as (r & Hr & Hd).
  unfold in_flight. now rewrite Hst, Hr, Hd, Hj.
Qed.

Lemma wait_body_success (p : process) (audio : pyval) (count : Z) :
  status_of (payload server (sent p)) = Some (PyStr "SUCCESS") ->
  artifacts_of (payload server (sent p)) = Some audio ->
  truthy audio = true ->
  py_len audio = Ok count ->
  wait_body server task_id start_time p =
  (Normal (Some audio),
   {| clock := clock p + Z.of_N (latency (server (sent p)));
      sent := S (sent p);
      trace := trace p ++
        [EvRequest task_id;
         EvPrint (MsgCompleted
           (elapsed_seconds (clock p + Z.of_N (latency (server (sent p)))) start_time));
         EvPrint (MsgGenerated count)] |}).
Proof.
  unfold payload. intros Hs Ha Ht Hl.
  destruct (status_of_dict _ _ Hs) as (kv & d & E & Hst). rewrite E in Ha.
  destruct (artifacts_of_dict _ _ Ha) as (r & Hr & Hd).
  run_py. rewrite E. cbn. rewrite Hst. cbn. rewrite Hr. cbn. rewrite Hd, Ht, Hl.
  cbn. apply f_equal, process_eq; [reflexivity | now rewrite <- !app_assoc].
Qed.

(** FAILED: the failure message and [sys.exit(1)], or the exception of
    the [print] when stdout cannot encode the message. *)
Lemma wait_body_failed (p : process) :
  status_of (payload server (sent p)) = Some (PyStr "FAILED") ->
  exists d,
    payload server (sent p) = PyDict d /\
    wait_body server task_id start_time p =
    (if str_encodable (dict_get d "errorMessage" (PyStr "Unknown"))
     then SysExit 1 else Raised UnicodeEncodeError,
     {| clock := clock p + Z.of_N (latency (server (sent p)));
        sent := S (sent p);
        trace := trace p ++
          EvRequest task_id ::
          (if str_encodable (dict_get d "errorMessage" (PyStr "Unknown"))
           then [EvPrint (MsgFailed (dict_get d "errorMessage" (PyStr "Unknown")))]
           else []) |}).
Proof.
  unfold payload. intros Hs.
  destruct (status_of_dict _ _ Hs) as (kv & d & E & Hst).
  exists (kv :: d). split; [exact E|].
  run_py. rewrite E. cbn -[str_encodable]. rewrite Hst. cbn -[str_encodable].
  destruct (str_encodable (dict_get (kv :: d) "errorMessage" (PyStr "Unknown")));
    apply f_equal, process_eq; try reflexivity; now rewrite <- !app_assoc.
Qed.

(** One unfolding of the loop. *)
Lemma wait_loop_step (fuel : nat) (max_wait : Z) (p : process) :
  wait_loop server (S fuel) task_id max_wait start_time p =
  if clock p - start_time <? 1000 * max_wait then
    match wait_body server task_id start_time p with
    | (Normal (Some v), p') => (Normal v, p')
    | (Normal None, p') => wait_loop server fuel task_id max_wait start_time p'
    | (SysExit c, p') => (SysExit c, p')
    | (Raised e, p') => (Raised e, p')
    | (OutOfFuel, p') => (OutOfFuel, p')
    end
  else
    (SysExit 1,
     {| clock := clock p; sent := sent p;
        trace := trace p ++ [EvPrint (MsgTimeout max_wait)] |}).
Proof.
  cbn [wait_loop]. unfold bind at 1. unfold time_time at 1.
  destruct (clock p - start_time <? 1000 * max_wait).
  - unfold bind at 1.
    destruct (wait_body server task_id start_time p) as [[[v|]| | |] p']; reflexivity.
  - reflexivity.
Qed.

Lemma rounds_app (a b : list (list message)) :
  rounds task_id (a ++ b) = rounds task_id a ++ rounds task_id b.
Proof.
  induction a as [|msgs a IH]; [reflexivity|].
  cbn. rewrite IH, <- app_assoc. reflexivity.
Qed.

Lemma poll_time_succ (k0 : nat) (t : Z) (i : nat) :
  poll_time server k0 t (S i) = poll_time server k0 t i + round_ms server (k0 + i).
Proof.
  revert k0 t. induction i as [|i IH]; intros k0 t.
  - cbn. now rewrite Nat.add_0_r.
  - change (poll_time server k0 t (S (S i)))
      with (poll_time server (S k0) (t + round_ms server k0) (S i)).
    rewrite IH. cbn [poll_time]. now rewrite Nat.add_succ_r.
Qed.

Lemma round_ms_lower (k : nat) : 1000 * poll_interval <= round_ms server k.
Proof. unfold round_ms. lia. Qed.

Lemma poll_time_mono (k0 : nat) (t : Z) (i j : nat) :
  (i <= j)%nat -> poll_time server k0 t i <= poll_time server k0 t j.
Proof.
  induction 1 as [|j _ IH]; [lia|].
  rewrite poll_time_succ. pose proof (round_ms_lower (k0 + j)).
  unfold poll_interval in *. lia.
Qed.

(** [k] passes over non-terminal responses inside the window. *)
Lemma wait_loop_rounds (max_wait : Z) (k : nat) :
  forall (fuel : nat) (p : process),
    (forall i, (i < k)%nat -> in_flight (payload server (sent p + i)) = true) ->
    (forall i, (i < k)%nat ->
       poll_time server (sent p) (clock p) i - start_time < 1000 * max_wait) ->
    exists printed,
      List.length printed = k /\
      wait_loop server (k + fuel) task_id max_wait start_time p =
      wait_loop server fuel task_id max_wait start_time
        {| clock := poll_time server (sent p) (clock p) k;
           sent := sent p + k;
           trace := trace p ++ rounds task_id printed |}.
Proof.
  induction k as [|k IH]; intros fuel p Hfl Htm.
  - exists []. split; [reflexivity|]. cbn. rewrite Nat.add_0_r, app_nil_r.
    now destruct p.
  - assert (H0 : in_flight (payload server (sent p)) = true).
    { rewrite <- (Nat.add_0_r (sent p)). apply Hfl. lia. }
    destruct (wait_body_in_flight p H0) as [msgs Hb].
    assert (Ht0 := Htm 0%nat ltac:(lia)). cbn [poll_time] in Ht0.
    destruct (IH fuel (next_round server task_id msgs p)) as (printed & Hlen & Hrun).
    + intros i Hi. cbn. rewrite <- Nat.add_succ_r. apply Hfl. lia.
    + intros i Hi. exact (Htm (S i) ltac:(lia)).
    + exists (msgs :: printed). split; [cbn; now rewrite Hlen|].
      change (S k + fuel)%nat with (S (k + fuel)).
      rewrite wait_loop_step, Hb.
      destruct (Z.ltb_spec (clock p - start_time) (1000 * max_wait)); [|lia].
      rewrite Hrun. f_equal. cbn [next_round clock sent trace poll_time].
      rewrite Nat.add_succ_r.
      change (msgs :: printed) with ([msgs] ++ printed).
      now rewrite rounds_app, app_assoc.
Qed.

(** A terminal response ends the pass with a return, an exit or an
    exception. *)
Lemma wait_body_stops (p : process) :
  in_flight (payload server (sent p)) = false ->
  fst (wait_body server task_id start_time p) <> Normal None /\
  fst (wait_body server task_id start_time p) <> OutOfFuel.
Proof.
  unfold payload. intros H. run_py.
  destruct (status_payload (reply (server (sent p)))) as [| b | n | s | l | d] eqn:E;
    cbn in H |- *; try discriminate.
  - destruct b; [|discriminate]. cbn. split; discriminate.
  - destruct (n =? 0); [discriminate|]. cbn. split; discriminate.
  - destruct (s =? "")%string; [discriminate|]. cbn. split; discriminate.
  - destruct l; [discriminate|]. cbn. split; discriminate.
  - destruct d as [|kv d]; [discriminate|]. cbn in H |- *.
    set (status := dict_get (kv :: d) "status" PyNone) in *.
    set (response_data := dict_get (kv :: d) "response" (PyDict [])) in *.
    destruct (eq_str status "SUCCESS").
    + destruct response_data as [| | | | |r]; cbn in H |- *;
        try (split; discriminate).
      destruct (truthy (dict_get r "data" (PyList []))); cbn in H |- *.
      * destruct (py_len (dict_get r "data" (PyList []))); cbn; split; discriminate.
      * rewrite H. cbn. split; discriminate.
    + destruct (eq_str status "FAILED").
      * destruct (str_encodable (dict_get (kv :: d) "errorMessage" (PyStr "Unknown")));
          cbn; split; discriminate.
      * destruct (eq_str status "PENDING" || eq_str status "GENERATING");
          [discriminate|]. rewrite H. cbn. split; discriminate.
Qed.

(** The loop stops within the passes the window has room for. *)
Lemma wait_loop_terminates (max_wait : Z) (fuel : nat) :
  forall p : process,
    1000 * max_wait - (clock p - start_time) <= 1000 * poll_interval * Z.of_nat fuel ->
    fst (wait_loop server (S fuel) task_id max_wait start_time p) <> OutOfFuel.
Proof.
  induction fuel as [|fuel IH]; intros p Hb; rewrite wait_loop_step;
    destruct (Z.ltb_spec (clock p - start_time) (1000 * max_wait)) as [Hlt|Hge];
    try discriminate.
  - unfold poll_interval in Hb. lia.
  - destruct (in_flight (payload server (sent p))) eqn:Hfl.
    + destruct (wait_body_in_flight p Hfl) as [msgs ->].
      apply IH. cbn [next_round clock].
      pose proof (round_ms_lower (sent p)). unfold poll_interval in *. lia.
    + destruct (wait_body_stops p Hfl) as [H1 H2].
      destruct (wait_body server task_id start_time p) as [[[v|]| | |] p'];
        cbn in *; congruence.
Qed.

(** When every response inside the window is non-terminal, the loop ends
    in the timeout exit. *)
Lemma wait_loop_timeout (max_wait : Z) (fuel : nat) :
  forall p : process,
    1000 * max_wait - (clock p - start_time) <= 1000 * poll_interval * Z.of_nat fuel ->
    (forall i,
       poll_time server (sent p) (clock p) i - start_time < 1000 * max_wait ->
       in_flight (payload server (sent p + i)) = true) ->
    exists printed,
      wait_loop server (S fuel) task_id max_wait start_time p =
      (SysExit 1,
       {| clock := poll_time server (sent p) (clock p) (List.length printed);
          sent := sent p + List.length printed;
          trace := trace p ++ rounds task_id printed ++ [EvPrint (MsgTimeout max_wait)] |}).
Proof.
  induction fuel as [|fuel IH]; intros p Hb Hfl; rewrite wait_loop_step;
    destruct (Z.ltb_spec (clock p - start_time) (1000 * max_wait)) as [Hlt|Hge].
  - unfold poll_interval in Hb. lia.
  - exists []. cbn. now rewrite Nat.add_0_r.
  - assert (H0 : in_flight (payload server (sent p)) = true).
    { rewrite <- (Nat.add_0_r (sent p)). apply Hfl. exact Hlt. }
    destruct (wait_body_in_flight p H0) as [msgs ->].
    destruct (IH (next_round server task_id msgs p)) as [printed ->].
    + cbn [next_round clock].
      pose proof (round_ms_lower (sent p)). unfold poll_interval in *. lia.
    + intros i Hi. cbn [next_round sent Nat.add]. rewrite <- Nat.add_succ_r.
      apply Hfl. exact Hi.
    + exists (msgs :: printed). f_equal. cbn [next_round clock sent trace List.length poll_time].
      rewrite Nat.add_succ_r.
      change (msgs :: printed) with ([msgs] ++ printed).
      now rewrite rounds_app, <- !app_assoc.
  - exists []. cbn. now rewrite Nat.add_0_r.
Qed.

Lemma enough_fuel_covers (max_wait : Z) (fuel : nat) (t : Z) :
  (enough_fuel max_wait <= S fuel)%nat ->
  1000 * max_wait - (t - t) <= 1000 * poll_interval * Z.of_nat fuel.
Proof.
  unfold enough_fuel, poll_interval. intros H.
  assert (Hf : max_wait / 10 + 1 <= Z.of_nat fuel) by lia.
  pose proof (Z.mul_div_le max_wait 10 ltac:(lia)).
  pose proof (Z.mod_pos_bound max_wait 10 ltac:(lia)).
  pose proof (Z.div_mod max_wait 10 ltac:(lia)). lia.
Qed.

End Loop.

Section Runs.

Variable server : nat -> exchange.
Variable task_id : string.

Lemma wait_for_completion_enters (fuel : nat) (max_wait : option Z) (p : process) :
  wait_for_completion server fuel task_id max_wait p =
  wait_loop server fuel task_id (budget max_wait) (clock p) (entered p).
Proof.
  unfold wait_for_completion, entered. run_py. now rewrite <- app_assoc.
Qed.

(** A run whose first [k] responses are non-terminal and whose request
    [k] falls inside the window gets to that request. *)
Lemma run_reaches (max_wait : option Z) (p : process) (k fuel : nat) :
  (forall i, (i < k)%nat -> in_flight (payload server (sent p + i)) = true) ->
  poll_time server (sent p) (clock p) k - clock p < 1000 * budget max_wait ->
  exists printed,
    List.length printed = k /\
    wait_for_completion server (k + S fuel) task_id max_wait p =
    match
      wait_body server task_id (clock p)
        {| clock := poll_time server (sent p) (clock p) k;
           sent := sent p + k;
           trace := trace p ++ [EvPrint MsgWaiting; EvPrint MsgTakes] ++
                    rounds task_id printed |}
    with
    | (Normal (Some v), p') => (Normal v, p')
    | (Normal None, p') =>
        wait_loop server fuel task_id (budget max_wait) (clock p) p'
    | (SysExit c, p') => (SysExit c, p')
    | (Raised e, p') => (Raised e, p')
    | (OutOfFuel, p') => (OutOfFuel, p')
    end.
Proof.
  intros Hfl Hk.
  destruct (wait_loop_rounds server task_id (clock p) (budget max_wait) k
              (S fuel) (entered p)) as (printed & Hlen & Hrun).
  - exact Hfl.
  - intros i Hi. cbn [entered clock sent].
    pose proof (poll_time_mono server (sent p) (clock p) i k ltac:(lia)). lia.
  - exists printed. split; [exact Hlen|].
    rewrite wait_for_completion_enters, Hrun, wait_loop_step.
    cbn [entered clock sent trace].
    destruct (Z.ltb_spec (poll_time server (sent p) (clock p) k - clock p)
                (1000 * budget max_wait)); [|lia].
    now rewrite <- app_assoc.
Qed.

(** C4. When the responses before request [k] are non-terminal and
    request [k], made inside the window, is answered SUCCESS with a
    non-empty artifact list, [wait_for_completion] returns exactly that
    list; request [k] is the last one issued and nothing is slept after
    it. *)
Theorem success_returns_artifacts
  (max_wait : option Z) (p : process) (k fuel : nat)
  (artifact : pyval) (others : list pyval) :
  (forall i, (i < k)%nat -> in_flight (payload server (sent p + i)) = true) ->
  poll_time server (sent p) (clock p) k - clock p < 1000 * budget max_wait ->
  status_of (payload server (sent p + k)) = Some (PyStr "SUCCESS") ->
  artifacts_of (payload server (sent p + k)) = Some (PyList (artifact :: others)) ->
  (k < fuel)%nat ->
  exists printed elapsed,
    List.length printed = k /\
    wait_for_completion server fuel task_id max_wait p =
    (Normal (PyList (artifact :: others)),
     {| clock := poll_time server (sent p) (clock p) k +
                 Z.of_N (latency (server (sent p + k)));
        sent := S (sent p + k);
        trace := trace p ++ [EvPrint MsgWaiting; EvPrint MsgTakes] ++
                 rounds task_id printed ++
                 [EvRequest task_id;
                  EvPrint (MsgCompleted elapsed);
                  EvPrint (MsgGenerated (Z.of_nat (S (List.length others))))] |}).
Proof.
  intros Hfl Hk Hs Ha Hfuel.
  replace fuel with (k + S (fuel - S k))%nat by lia.
  destruct (run_reaches max_wait p k (fuel - S k) Hfl Hk) as (printed & Hlen & ->).
  exists printed. eexists. split; [exact Hlen|].
  erewrite wait_body_success; cbn [sent]; eauto; [|reflexivity].
  cbn [clock sent trace]. rewrite <- !app_assoc. reflexivity.
Qed.

(** C5 (amended). When the passes before request [k] went back to the
    loop test and request [k], made inside the window, is answered FAILED,
    the run ends there whatever is left of [max_wait]: request [k] is the
    last one issued and nothing is slept after it. The [errorMessage]
    field as it came, or [Unknown] when the response has none, is printed
    and the process ends with [sys.exit(1)], when stdout can encode it;
    when it cannot, the [print] raises [UnicodeEncodeError] and no failure
    message is shown. *)
Theorem failed_exits_immediately
  (max_wait : option Z) (p : process) (k fuel : nat)
  (d : list (string * pyval)) :
  (forall i, (i < k)%nat -> in_flight (payload server (sent p + i)) = true) ->
  poll_time server (sent p) (clock p) k - clock p < 1000 * budget max_wait ->
  payload server (sent p + k) = PyDict d ->
  lookup "status" d = Some (PyStr "FAILED") ->
  (k < fuel)%nat ->
  exists printed,
    List.length printed = k /\
    wait_for_completion server fuel task_id max_wait p =
    (if str_encodable (dict_get d "errorMessage" (PyStr "Unknown"))
     then SysExit 1 else Raised UnicodeEncodeError,
     {| clock := poll_time server (sent p) (clock p) k +
                 Z.of_N (latency (server (sent p + k)));
        sent := S (sent p + k);
        trace := trace p ++ [EvPrint MsgWaiting; EvPrint MsgTakes] ++
                 rounds task_id printed ++
                 EvRequest task_id ::
                 (if str_encodable (dict_get d "errorMessage" (PyStr "Unknown"))
                  then [EvPrint (MsgFailed (dict_get d "errorMessage" (PyStr "Unknown")))]
                  else []) |}).
Proof.
  intros Hfl Hk Hd Hs Hfuel.
  replace fuel with (k + S (fuel - S k))%nat by lia.
  destruct (run_reaches max_wait p k (fuel - S k) Hfl Hk) as (printed & Hlen & ->).
  exists printed. split; [exact Hlen|].
  edestruct wait_body_failed as (d' & Hd' & ->).
  { cbn [sent]. rewrite Hd. exact Hs. }
  cbn [sent] in Hd'. rewrite Hd in Hd'. injection Hd' as <-.
  cbn [clock sent trace]. rewrite <- !app_assoc.
  now destruct (str_encodable (dict_get d "errorMessage" (PyStr "Unknown"))).
Qed.

(** The run ends in the timeout exit when no response inside the window
    is terminal. *)
Lemma run_times_out (max_wait : option Z) (p : process) (fuel : nat) :
  (forall i,
     poll_time server (sent p) (clock p) i - clock p < 1000 * budget max_wait ->
     in_flight (payload server (sent p + i)) = true) ->
  (enough_fuel (budget max_wait) <= fuel)%nat ->
  exists printed,
    wait_for_completion server fuel task_id max_wait p =
    (SysExit 1,
     {| clock := poll_time server (sent p) (clock p) (List.length printed);
        sent := sent p + List.length printed;
        trace := trace p ++ [EvPrint MsgWaiting; EvPrint MsgTakes] ++
                 rounds task_id printed ++
                 [EvPrint (MsgTimeout (budget max_wait))] |}).
Proof.
  intros Hfl Hfuel. destruct fuel as [|fuel]; [unfold enough_fuel in Hfuel; lia|].
  rewrite wait_for_completion_enters.
  destruct (wait_loop_timeout server task_id (clock p) (budget max_wait) fuel
              (entered p)) as [printed ->].
  - cbn [entered clock]. now apply enough_fuel_covers.
  - exact Hfl.
  - exists printed. cbn [entered clock sent trace]. now rewrite <- app_assoc.
Qed.

(** Every run of [wait_for_completion] ends: with the fuel of
    [enough_fuel] the loop bound of the model is never what stops it. *)
Lemma wait_for_completion_terminates (max_wait : option Z) (p : process) (fuel : nat) :
  (enough_fuel (budget max_wait) <= fuel)%nat ->
  fst (wait_for_completion server fuel task_id max_wait p) <> OutOfFuel.
Proof.
  intros Hfuel. destruct fuel as [|fuel]; [unfold enough_fuel in Hfuel; lia|].
  rewrite wait_for_completion_enters. apply wait_loop_terminates.
  cbn [entered clock]. now apply enough_fuel_covers.
Qed.

Lemma query_fails_payload (r : http_result) :
  query_fails r -> status_payload r = PyNone.
Proof.
  intros [ | sc | sc v Hv | sc d Hc]; try reflexivity.
  - destruct v; try reflexivity. now destruct (Hv entries).
  - unfold status_payload, response_json, res_bind, py_get. now rewrite Hc.
Qed.

Lemma transient_in_flight (k : nat) :
  transient server k -> in_flight (payload server k) = true.
Proof.
  intros [Hq | (s & (Ht & Hs & H1 & H2 & H3 & H4) & He)].
  - unfold payload. now rewrite (query_fails_payload _ Hq).
  - destruct (status_of_dict _ _ Hs) as (kv & d & -> & Hst).
    unfold in_flight. rewrite Hst. cbn.
    rewrite (proj2 (String.eqb_neq s "SUCCESS") H1),
            (proj2 (String.eqb_neq s "FAILED") H2),
            (proj2 (String.eqb_neq s "PENDING") H3),
            (proj2 (String.eqb_neq s "GENERATING") H4).
    unfold str_encodable. now rewrite He.
Qed.

(** A response the loop raises on. *)
Lemma wait_body_unusable (start_time : Z) (p : process) :
  unusable (payload server (sent p)) ->
  fst (wait_body server task_id start_time p) = Raised AttributeError /\
  trace (snd (wait_body server task_id start_time p)) = trace p ++ [EvRequest task_id] /\
  sent (snd (wait_body server task_id start_time p)) = S (sent p).
Proof.
  unfold payload. intros [[Ht Hn] | (d & v & E & Hs & Hr & Hv)]; run_py.
  - rewrite Ht. cbn.
    destruct (status_payload (reply (server (sent p)))) as [| | | | |d];
      cbn; try (now repeat split). now destruct (Hn d).
  - rewrite E.
    assert (Ht : truthy (PyDict d) = true) by (destruct d; [discriminate Hs | reflexivity]).
    rewrite Ht. cbn. unfold dict_get. rewrite Hs, Hr. cbn.
    destruct v as [| | | | |r]; cbn; try (now repeat split). now destruct (Hv r).
Qed.

(** A status the loop has no branch for and stdout cannot show: the
    [print] of the pass raises. *)
Lemma wait_body_unprintable_status (start_time : Z) (p : process) (s : string) :
  unmapped_status (payload server (sent p)) s ->
  has_surrogate s = true ->
  fst (wait_body server task_id start_time p) = Raised UnicodeEncodeError /\
  sent (snd (wait_body server task_id start_time p)) = S (sent p).
Proof.
  unfold payload. intros (Ht & Hs & H1 & H2 & H3 & H4) He.
  destruct (status_of_dict _ _ Hs) as (kv & d & E & Hst).
  run_py. rewrite E. cbn. rewrite Hst. cbn.
  rewrite (proj2 (String.eqb_neq s "SUCCESS") H1),
          (proj2 (String.eqb_neq s "FAILED") H2),
          (proj2 (String.eqb_neq s "PENDING") H3),
          (proj2 (String.eqb_neq s "GENERATING") H4).
  cbn. unfold str_encodable. rewrite He. now split.
Qed.

(** C6 (amended). A pass whose status query fails (network error, a
    body that is not a JSON object, an API code other than 200) or whose
    status is a string other than SUCCESS, FAILED, PENDING, GENERATING
    that stdout can show prints one line, sleeps [poll_interval] and goes
    back to the loop test: it ends neither the loop nor the process; and
    a run in which every request inside the window is answered that way
    ends in the timeout exit. A response with code 200 whose [data] holds
    something but no object, or whose status is SUCCESS with a [response]
    that is no object, is not treated that way: the pass raises
    [AttributeError] right after the request, and so does the call. And
    a status string with a lone surrogate in it, which stdout cannot
    show, makes the [print] of the pass, and the call, raise
    [UnicodeEncodeError]. *)
Theorem transient_polls_keep_waiting :
  (forall (start_time max_wait : Z) (fuel : nat) (p : process),
     clock p - start_time < 1000 * max_wait ->
     transient server (sent p) ->
     exists msg,
       wait_body server task_id start_time p =
       (Normal None, next_round server task_id [msg] p) /\
       wait_loop server (S fuel) task_id max_wait start_time p =
       wait_loop server fuel task_id max_wait start_time
         (next_round server task_id [msg] p)) /\
  (forall (max_wait : option Z) (p : process) (fuel : nat),
     (forall i,
        poll_time server (sent p) (clock p) i - clock p < 1000 * budget max_wait ->
        transient server (sent p + i)) ->
     (enough_fuel (budget max_wait) <= fuel)%nat ->
     exists printed,
       wait_for_completion server fuel task_id max_wait p =
       (SysExit 1,
        {| clock := poll_time server (sent p) (clock p) (List.length printed);
           sent := sent p + List.length printed;
           trace := trace p ++ [EvPrint MsgWaiting; EvPrint MsgTakes] ++
                    rounds task_id printed ++
                    [EvPrint (MsgTimeout (budget max_wait))] |})) /\
  (forall (max_wait : option Z) (p : process) (k fuel : nat),
     (forall i, (i < k)%nat -> transient server (sent p + i)) ->
     poll_time server (sent p) (clock p) k - clock p < 1000 * budget max_wait ->
     unusable (payload server (sent p + k)) ->
     (k < fuel)%nat ->
     fst (wait_for_completion server fuel task_id max_wait p) = Raised AttributeError /\
     sent (snd (wait_for_completion server fuel task_id max_wait p)) = S (sent p + k)) /\
  (forall (max_wait : option Z) (p : process) (k fuel : nat) (s : string),
     (forall i, (i < k)%nat -> transient server (sent p + i)) ->
     poll_time server (sent p) (clock p) k - clock p < 1000 * budget max_wait ->
     unmapped_status (payload server (sent p + k)) s ->
     has_surrogate s = true ->
     (k < fuel)%nat ->
     fst (wait_for_completion server fuel task_id max_wait p)
       = Raised UnicodeEncodeError /\
     sent (snd (wait_for_completion server fuel task_id max_wait p)) = S (sent p + k)).
Proof.
  split; [|split; [|split]].
  - intros start_time max_wait fuel p Hlt Htr.
    assert (exists msg,
              wait_body server task_id start_time p =
              (Normal None, next_round server task_id [msg] p)) as [msg Hb].
    { unfold next_round, round_ms.
      destruct Htr as [Hq | (s & (Ht & Hs & H1 & H2 & H3 & H4) & He)].
      - run_py. rewrite (query_fails_payload _ Hq). eexists. close_round.
      - unfold payload in *. destruct (status_of_dict _ _ Hs) as (kv & d & E & Hst).
        run_py. rewrite E. cbn. rewrite Hst. cbn.
        rewrite (proj2 (String.eqb_neq s "SUCCESS") H1),
                (proj2 (String.eqb_neq s "FAILED") H2),
                (proj2 (String.eqb_neq s "PENDING") H3),
                (proj2 (String.eqb_neq s "GENERATING") H4).
        cbn. unfold str_encodable. rewrite He. cbn.
        eexists. close_round. }
    exists msg. split; [exact Hb|].
    rewrite wait_loop_step, Hb.
    now destruct (Z.ltb_spec (clock p - start_time) (1000 * max_wait)); [|lia].
  - intros max_wait p fuel Htr Hfuel. apply run_times_out; [|exact Hfuel].
    intros i Hi. apply transient_in_flight, Htr, Hi.
  - intros max_wait p k fuel Htr Hk Hu Hfuel.
    replace fuel with (k + S (fuel - S k))%nat by lia.
    destruct (run_reaches max_wait p k (fuel - S k)) as (printed & Hlen & ->);
      [intros i Hi; now apply transient_in_flight, Htr | exact Hk |].
    match goal with
    | |- context [wait_body server task_id ?t ?q] =>
        destruct (wait_body_unusable t q Hu) as (Hr & _ & Hsent);
        destruct (wait_body server task_id t q) as [o q']
    end.
    cbn [fst snd sent] in Hr, Hsent. subst o. cbn [fst snd]. split; [reflexivity | exact Hsent].
  - intros max_wait p k fuel s Htr Hk Hu He Hfuel.
    replace fuel with (k + S (fuel - S k))%nat by lia.
    destruct (run_reaches max_wait p k (fuel - S k)) as (printed & Hlen & ->);
      [intros i Hi; now apply transient_in_flight, Htr | exact Hk |].
    match goal with
    | |- context [wait_body server task_id ?t ?q] =>
        destruct (wait_body_unprintable_status t q s Hu He) as (Hr & Hsent);
        destruct (wait_body server task_id t q) as [o q']
    end.
    cbn [fst snd sent] in Hr, Hsent. subst o. cbn [fst snd]. split; [reflexivity | exact Hsent].
Qed.

(** Outside [transient]: a well-formed answer with code 200 whose
    [data] is a list is handed to the loop as it is, and the loop raises
    on [status_data.get]. *)
Lemma data_not_an_object_raises :
  wait_for_completion Scenarios.data_is_a_list 10 "task" (Some 60) (boot 0) =
  (Raised AttributeError,
   {| clock := 0; sent := 1;
      trace := [EvPrint MsgWaiting; EvPrint MsgTakes; EvRequest "task"] |}).
Proof. vm_compute. reflexivity. Qed.

(** SUCCESS without artifacts: the pass prints the warning and the raw
    data, sleeps and goes back to the loop test. *)
Lemma empty_success_keeps_polling
  (start_time max_wait : Z) (fuel : nat) (p : process) :
  clock p - start_time < 1000 * max_wait ->
  status_of (payload server (sent p)) = Some (PyStr "SUCCESS") ->
  artifacts_of (payload server (sent p)) = Some (PyList []) ->
  json_encodable (payload server (sent p)) = true ->
  wait_loop server (S fuel) task_id max_wait start_time p =
  wait_loop server fuel task_id max_wait start_time
    (next_round server task_id
       [MsgNoAudio; MsgRawData (payload server (sent p))] p).
Proof.
  unfold payload. intros Hlt Hs Ha Hj.
  destruct (status_of_dict _ _ Hs) as (kv & d & E & Hst). rewrite E in Ha.
  destruct (artifacts_of_dict _ _ Ha) as (r & Hr & Hd).
  rewrite wait_loop_step.
  destruct (Z.ltb_spec (clock p - start_time) (1000 * max_wait)); [|lia].
  replace (wait_body server task_id start_time p)
    with (@Normal (option pyval) None,
          next_round server task_id
            [MsgNoAudio; MsgRawData (status_payload (reply (server (sent p))))] p);
    [reflexivity|].
  unfold next_round, round_ms. run_py. rewrite E in Hj |- *. cbn. rewrite Hst. cbn.
  rewrite Hr. cbn. rewrite Hd. cbn. rewrite Hj. close_round.
Qed.

End Runs.

(** A run whose first response is FAILED with a message that can be
    shown ends in [sys.exit(1)]. *)
Lemma failed_at_once_exits (server : nat -> exchange) (task_id : string)
  (max_wait : option Z) (p : process) (fuel : nat) (d : list (string * pyval)) :
  0 < budget max_wait ->
  payload server (sent p) = PyDict d ->
  lookup "status" d = Some (PyStr "FAILED") ->
  str_encodable (dict_get d "errorMessage" (PyStr "Unknown")) = true ->
  fst (wait_for_completion server (S fuel) task_id max_wait p) = SysExit 1.
Proof.
  intros Hb Hd Hs He.
  destruct (run_reaches server task_id max_wait p 0 fuel) as (printed & _ & E).
  - intros i Hi. lia.
  - cbn [poll_time]. lia.
  - cbn [Nat.add] in E. rewrite E.
    edestruct (wait_body_failed server task_id) as (d' & Hd' & ->).
    { cbn [sent]. rewrite Nat.add_0_r, Hd. exact Hs. }
    cbn [sent] in Hd'. rewrite Nat.add_0_r, Hd in Hd'. injection Hd' as <-.
    now rewrite He.
Qed.

(** C3 (amended). When every response inside the [max_wait] window sends
    the loop back to its test, [wait_for_completion] prints the timeout
    message and leaves through [sys.exit(1)], and no artifact list is
    returned. What the caller gets is what it gets from a run that ends
    at a FAILED response: the same exit status, [SystemExit(1)]; only the
    line printed differs. *)
Theorem timeout_exits_with_status_1
  (server : nat -> exchange) (task_id : string)
  (max_wait : option Z) (p : process) (fuel : nat) :
  (forall i,
     poll_time server (sent p) (clock p) i - clock p < 1000 * budget max_wait ->
     in_flight (payload server (sent p + i)) = true) ->
  (enough_fuel (budget max_wait) <= fuel)%nat ->
  (exists printed,
     wait_for_completion server fuel task_id max_wait p =
     (SysExit 1,
      {| clock := poll_time server (sent p) (clock p) (List.length printed);
         sent := sent p + List.length printed;
         trace := trace p ++ [EvPrint MsgWaiting; EvPrint MsgTakes] ++
                  rounds task_id printed ++
                  [EvPrint (MsgTimeout (budget max_wait))] |})) /\
  (forall audio_list,
     fst (wait_for_completion server fuel task_id max_wait p) <> Normal audio_list) /\
  (forall (server' : nat -> exchange) (task_id' : string) (p' : process)
          (fuel' : nat) (max_wait' : option Z) (d : list (string * pyval)),
     0 < budget max_wait' ->
     payload server' (sent p') = PyDict d ->
     lookup "status" d = Some (PyStr "FAILED") ->
     str_encodable (dict_get d "errorMessage" (PyStr "Unknown")) = true ->
     fst (wait_for_completion server' (S fuel') task_id' max_wait' p') =
     fst (wait_for_completion server fuel task_id max_wait p)).
Proof.
  intros Hfl Hfuel.
  destruct (run_times_out server task_id max_wait p fuel Hfl Hfuel) as [printed Hrun].
  split; [now exists printed|]. split.
  - intros audio_list. now rewrite Hrun.
  - intros server' task_id' p' fuel' max_wait' d Hb Hd Hs He. rewrite Hrun.
    now apply (failed_at_once_exits server' task_id' max_wait' p' fuel' d).
Qed.

(** *** The statements at work *)

(** C3 (the claim fails). A run that times out and a run that is told
    FAILED hand the caller the same thing, [SystemExit(1)]. *)
Lemma timeout_exit_is_failure_exit :
  (forall i, in_flight (payload Scenarios.always_pending i) = true) /\
  status_of (payload Scenarios.fails_at_once 0) = Some (PyStr "FAILED") /\
  fst (wait_for_completion Scenarios.always_pending 10 "task" (Some 60) (boot 0)) =
    SysExit 1 /\
  fst (wait_for_completion Scenarios.fails_at_once 10 "task" (Some 60) (boot 0)) =
    SysExit 1.
Proof. repeat split; vm_compute; reflexivity. Qed.

(** C5 (the claim fails). A FAILED response whose [errorMessage] holds a
    lone surrogate: the [print] of the failure message raises, no message
    is shown and the call ends with [UnicodeEncodeError], not with the
    exit. *)
Lemma unprintable_failure_message_raises :
  wait_for_completion Cases.fails_with_surrogate 10 "task" (Some 360) (boot 0) =
  (Raised UnicodeEncodeError,
   {| clock := 0; sent := 1;
      trace := [EvPrint MsgWaiting; EvPrint MsgTakes; EvRequest "task"] |}).
Proof. vm_compute. reflexivity. Qed.

Lemma timeout_exits_with_status_1_witness :
  fst (wait_for_completion Scenarios.always_pending 10 "task" (Some 60) (boot 0)) =
    SysExit 1 /\
  fst (wait_for_completion Scenarios.fails_at_once 1 "task" None (boot 0)) =
  fst (wait_for_completion Scenarios.always_pending 10 "task" (Some 60) (boot 0)).
Proof.
  destruct (timeout_exits_with_status_1 Scenarios.always_pending "task" (Some 60)
              (boot 0) 10) as ((printed & H1) & _ & H3).
  - intros i _. reflexivity.
  - vm_compute. lia.
  - split; [now rewrite H1|].
    apply (H3 Scenarios.fails_at_once "task" (boot 0) 0%nat None
             [("status", PyStr "FAILED"); ("errorMessage", PyStr "quota exceeded")]);
      reflexivity.
Defined.

Lemma success_returns_artifacts_witness :
  exists printed elapsed,
    List.length printed = 3%nat /\
    wait_for_completion Scenarios.lagging_success 10 "task" (Some 60) (boot 0) =
    (Normal (PyList [Scenarios.track_a]),
     {| clock := 30000;
        sent := 4;
        trace := [EvPrint MsgWaiting; EvPrint MsgTakes] ++
                 rounds "task" printed ++
                 [EvRequest "task"; EvPrint (MsgCompleted elapsed);
                  EvPrint (MsgGenerated 1)] |}).
Proof.
  apply (success_returns_artifacts Scenarios.lagging_success "task" (Some 60)
           (boot 0) 3 10 Scenarios.track_a []).
  - intros [|[|[|i]]] Hi; [reflexivity | reflexivity | reflexivity | lia].
  - vm_compute. reflexivity.
  - reflexivity.
  - reflexivity.
  - lia.
Defined.

Lemma failed_exits_immediately_witness :
  exists printed,
    List.length printed = 0%nat /\
    wait_for_completion Scenarios.fails_at_once 10 "task" (Some 360) (boot 0) =
    (SysExit 1,
     {| clock := 0;
        sent := 1;
        trace := [EvPrint MsgWaiting; EvPrint MsgTakes] ++
                 rounds "task" printed ++
                 [EvRequest "task"; EvPrint (MsgFailed (PyStr "quota exceeded"))] |}).
Proof.
  destruct (failed_exits_immediately Scenarios.fails_at_once "task" (Some 360)
              (boot 0) 0 10
              [("status", PyStr "FAILED"); ("errorMessage", PyStr "quota exceeded")])
    as (printed & Hlen & H).
  - intros i Hi. lia.
  - vm_compute. reflexivity.
  - reflexivity.
  - reflexivity.
  - lia.
  - exists printed. split; [exact Hlen | exact H].
Defined.

Lemma odd_answers_transient (i : nat) : transient Cases.odd_answers i.
Proof.
  destruct i as [|[|[|[|i]]]].
  - left. apply fails_network.
  - left. now apply fails_api_code.
  - left. apply fails_not_json.
  - left. apply fails_not_object. intros d H. discriminate H.
  - right. exists "QUEUED". repeat split; try discriminate; reflexivity.
Qed.

(** A pass over an unknown status, a run over failed queries of every
    kind and unknown statuses, and a run that meets a [data] list. *)
Lemma transient_polls_keep_waiting_witness :
  (exists msg,
     wait_body Cases.odd_answers "task" 0
       {| clock := 0; sent := 4; trace := [] |} =
     (Normal None,
      next_round Cases.odd_answers "task" [msg] {| clock := 0; sent := 4; trace := [] |})) /\
  (exists printed,
     wait_for_completion Cases.odd_answers 10 "task" (Some 60) (boot 0) =
     (SysExit 1,
      {| clock := poll_time Cases.odd_answers 0 0 (List.length printed);
         sent := 0 + List.length printed;
         trace := [] ++ [EvPrint MsgWaiting; EvPrint MsgTakes] ++
                  rounds "task" printed ++ [EvPrint (MsgTimeout 60)] |})) /\
  fst (wait_for_completion Cases.list_after_error 10 "task" (Some 60) (boot 0)) =
    Raised AttributeError.
Proof.
  split; [|split].
  - destruct (proj1 (transient_polls_keep_waiting Cases.odd_answers "task") 0 60 4%nat
                {| clock := 0; sent := 4; trace := [] |}) as (msg & H & _).
    + vm_compute. reflexivity.
    + apply odd_answers_transient.
    + now exists msg.
  - apply (proj1 (proj2 (transient_polls_keep_waiting Cases.odd_answers "task"))
             (Some 60) (boot 0) 10%nat).
    + intros i _. apply odd_answers_transient.
    + vm_compute. lia.
  - apply (proj1 (proj2 (proj2 (transient_polls_keep_waiting Cases.list_after_error "task")))
             (Some 60) (boot 0) 1%nat 10%nat).
    + intros [|i] Hi; [left; apply fails_network | lia].
    + vm_compute. reflexivity.
    + left. split; [reflexivity|]. intros d H. discriminate H.
    + lia.
Defined.

(** *** What a run can append to the trace *)

Section Emits.

Variable Q : event -> Prop.

Lemma appends_time_time : appends trace Q time_time.
Proof. intros p. exists []. cbn. now rewrite app_nil_r. Qed.

Lemma appends_print (m : message) : Q (EvPrint m) -> appends trace Q (print m).
Proof.
  intros H p. unfold print. destruct (encodable m).
  - exists [EvPrint m]. split; [reflexivity | now constructor].
  - exists []. cbn. now rewrite app_nil_r.
Qed.

Lemma appends_sleep (seconds : Z) : Q (EvSleep seconds) -> appends trace Q (sleep seconds).
Proof. intros H p. exists [EvSleep seconds]. split; [reflexivity | now constructor]. Qed.

Lemma appends_get_task_status (server : nat -> exchange) (task_id : string) :
  Q (EvRequest task_id) -> appends trace Q (get_task_status server task_id).
Proof. intros H p. exists [EvRequest task_id]. split; [reflexivity | now constructor]. Qed.

End Emits.

#[local] Hint Resolve appends_time_time appends_print appends_sleep
  appends_get_task_status : appends.

Section Sleeps.

Variable server : nat -> exchange.
Variable task_id : string.

Lemma sleeps_print (m : message) : sleeps_poll_interval (EvPrint m).
Proof. intros seconds H. discriminate H. Qed.

Lemma sleeps_request : sleeps_poll_interval (EvRequest task_id).
Proof. intros seconds H. discriminate H. Qed.

Lemma sleeps_sleep : sleeps_poll_interval (EvSleep poll_interval).
Proof. intros seconds H. now injection H as <-. Qed.

#[local] Hint Resolve sleeps_print sleeps_request sleeps_sleep : appends.

Lemma wait_body_sleeps (start_time : Z) :
  appends trace sleeps_poll_interval (wait_body server task_id start_time).
Proof. unfold wait_body. repeat appends_step. Qed.

Lemma wait_loop_sleeps (fuel : nat) (max_wait start_time : Z) :
  appends trace sleeps_poll_interval
    (wait_loop server fuel task_id max_wait start_time).
Proof.
  induction fuel as [|fuel IH]; cbn [wait_loop]; [auto with appends|].
  repeat appends_step; auto using wait_body_sleeps.
Qed.

(** Every sleep of a run lasts [poll_interval] = 10 seconds, whatever
    the caller passes. *)
Lemma wait_for_completion_sleeps
  (fuel : nat) (max_wait : option Z) (t0 seconds : Z) :
  In (EvSleep seconds)
     (trace (snd (wait_for_completion server fuel task_id max_wait (boot t0)))) ->
  seconds = 10.
Proof.
  assert (H : appends trace sleeps_poll_interval
                (wait_for_completion server fuel task_id max_wait)).
  { unfold wait_for_completion. repeat appends_step. apply wait_loop_sleeps. }
  destruct (H (boot t0)) as (evs & -> & Hq). cbn [boot trace app].
  intros Hin. rewrite Forall_forall in Hq. exact (Hq _ Hin seconds eq_refl).
Qed.

End Sleeps.
End TrapPollingFacts.

(** ** The listener and the waiters of generate_hard_trap.py *)

Module HardTrapFacts.
Import HardTrap.

(** *** The listener *)

Lemma do_POST_malformed (e : exn) (p : process) :
  do_POST (Err e) p =
  (Normal tt,
   {| clock := clock p; sent := sent p; checks := checks p;
      callback_data :=
        {| received := received (callback_data p);
           data := data (callback_data p);
           error := Some e |};
      listening := listening p;
      responses := responses p ++ [500];
      trace := trace p ++ [EvPrint (MsgCallbackError e)] |}).
Proof. reflexivity. Qed.

Lemma do_POST_well_formed (v : pyval) (p : process) :
  do_POST (Ok v) p =
  (Normal tt,
   {| clock := clock p; sent := sent p; checks := checks p;
      callback_data :=
        {| received := true; data := v; error := error (callback_data p) |};
      listening := listening p;
      responses := responses p ++ [200];
      trace := trace p ++ [EvPrint MsgCallbackReceived] |}).
Proof. reflexivity. Qed.

Lemma run_server_cons (post : inbound_post) (rest : list inbound_post) (p : process) :
  received (callback_data p) = false ->
  run_server (post :: rest) p = run_server rest (snd (do_POST post p)).
Proof.
  intros H. cbn [run_server]. rewrite H. unfold bind.
  now destruct post.
Qed.

Lemma run_server_received (inbox : list inbound_post) (p : process) :
  received (callback_data p) = true -> run_server inbox p = (Normal tt, p).
Proof. intros H. destruct inbox; cbn [run_server]; [reflexivity | now rewrite H]. Qed.

Lemma still_waiting_trans (n1 n2 k1 k2 : nat) (p p1 p2 : process) :
  still_waiting n1 k1 p p1 -> still_waiting n2 k2 p1 p2 ->
  still_waiting (n1 + n2) (k1 + k2) p p2.
Proof.
  intros (Hc & Hk & Hl & Hr & Hd & Hs) (Hc' & Hk' & Hl' & Hr' & Hd' & Hs').
  unfold still_waiting. rewrite Hc', Hc, Hk', Hk, Hl', Hl, Hd', Hd, Hs', Hs.
  rewrite repeat_app, <- app_assoc. repeat split; try lia; try assumption.
Qed.

(** The listener turns down malformed POSTs one by one and goes on
    serving. *)
Lemma run_server_rejects (inbox : list inbound_post) :
  forall p : process,
    Forall malformed inbox ->
    received (callback_data p) = false ->
    exists p',
      run_server inbox p = (Normal tt, p') /\
      still_waiting (List.length inbox) 0 p p'.
Proof.
  induction inbox as [|post rest IH]; intros p Hbad Hr.
  - exists p. split; [reflexivity|]. unfold still_waiting. cbn.
    rewrite Z.add_0_r, Nat.add_0_r, app_nil_r. repeat split. exact Hr.
  - inversion Hbad as [|? ? Hpost Hrest]; subst.
    destruct post as [v|e]; [destruct Hpost|].
    rewrite (run_server_cons _ _ _ Hr), do_POST_malformed. cbn [snd].
    edestruct IH as (p' & Hrun & Hw); [exact Hrest | | ].
    2:{ exists p'. split; [exact Hrun|].
        change (List.length (Err e :: rest)) with (1 + List.length rest)%nat.
        change 0%nat with (0 + 0)%nat at 2.
        eapply still_waiting_trans; [|exact Hw].
        unfold still_waiting. cbn. rewrite Z.add_0_r, Nat.add_0_r.
        repeat split. exact Hr. }
    exact Hr.
Qed.

(** The first well-formed POST is stored and answered 200; what follows
    it in the inbox is never served. *)
Lemma run_server_first_valid
  (bad later : list inbound_post) (v : pyval) (p : process) :
  Forall malformed bad ->
  received (callback_data p) = false ->
  exists p',
    run_server (bad ++ Ok v :: later) p = (Normal tt, p') /\
    clock p' = clock p /\
    checks p' = checks p /\
    listening p' = listening p /\
    received (callback_data p') = true /\
    data (callback_data p') = v /\
    responses p' = responses p ++ repeat 500 (List.length bad) ++ [200].
Proof.
  revert p. induction bad as [|post bad IH]; intros p Hbad Hr.
  - cbn [app]. rewrite (run_server_cons _ _ _ Hr), do_POST_well_formed. cbn [snd].
    rewrite run_server_received by reflexivity.
    eexists. split; [reflexivity|]. cbn. repeat split.
  - inversion Hbad as [|? ? Hpost Hrest]; subst.
    destruct post as [w|e]; [destruct Hpost|].
    cbn [app]. rewrite (run_server_cons _ _ _ Hr), do_POST_malformed. cbn [snd].
    edestruct IH as (p' & Hrun & Hc & Hk & Hl & Hrc & Hd & Hs); [exact Hrest| |].
    2:{ exists p'. split; [exact Hrun|]. cbn in Hc, Hk, Hl, Hs |- *.
        rewrite Hs, <- app_assoc. repeat split; assumption. }
    exact Hr.
Qed.

(** *** The waiter *)

(** The handlers end normally and take no time. *)
Lemma run_server_normal (inbox : list inbound_post) :
  forall p : process,
    fst (run_server inbox p) = Normal tt /\
    clock (snd (run_server inbox p)) = clock p.
Proof.
  induction inbox as [|post rest IH]; intros p; [now split|].
  destruct (received (callback_data p)) eqn:Hr.
  - rewrite run_server_received by exact Hr. now split.
  - rewrite (run_server_cons _ _ _ Hr).
    destruct (IH (snd (do_POST post p))) as [H1 H2].
    split; [exact H1|]. rewrite H2. now destruct post.
Qed.

Section Waiter.

Variable inbound : nat -> list inbound_post.

(** A turn of the listener ends normally and takes no time. *)
Lemma listener_turn_normal (p : process) :
  fst (listener_turn inbound p) = Normal tt /\
  clock (snd (listener_turn inbound p)) = clock p.
Proof.
  unfold listener_turn. destruct (listening p); [|now split].
  match goal with
  | |- context [run_server ?inbox ?q] => exact (run_server_normal inbox q)
  end.
Qed.

Lemma callback_loop_step (fuel : nat) (max_wait start_time : Z) (p : process) :
  callback_loop inbound (S fuel) max_wait start_time p =
  if clock p - start_time <? 1000 * max_wait then
    match callback_body inbound start_time p with
    | (Normal (Some v), p') => (Normal v, p')
    | (Normal None, p') => callback_loop inbound fuel max_wait start_time p'
    | (SysExit c, p') => (SysExit c, p')
    | (Raised e, p') => (Raised e, p')
    | (OutOfFuel, p') => (OutOfFuel, p')
    end
  else
    (SysExit 1,
     emit (EvPrint (MsgFirewallTip WEBHOOK_PORT))
       (emit (EvPrint (MsgNoCallback max_wait)) (snd (listener_turn inbound p)))).
Proof.
  cbn [callback_loop]. unfold bind at 1. unfold time_time at 1.
  destruct (clock p - start_time <? 1000 * max_wait).
  - unfold bind at 1.
    destruct (callback_body inbound start_time p) as [[[v|]| | |] p']; reflexivity.
  - unfold bind at 1. destruct (listener_turn_normal p) as [Hn _].
    destruct (listener_turn inbound p) as [o p1]. cbn [fst snd] in *. subst o.
    reflexivity.
Qed.

(** A look that finds nothing: the POSTs that came in were malformed. *)
Lemma callback_body_waits (start_time : Z) (p : process) :
  listening p <> None ->
  received (callback_data p) = false ->
  Forall malformed (inbound (checks p)) ->
  exists p',
    callback_body inbound start_time p = (Normal None, p') /\
    still_waiting (List.length (inbound (checks p))) 1 p p'.
Proof.
  intros Hl Hr Hbad. unfold callback_body, bind at 1, listener_turn.
  destruct (listening p) as [port|] eqn:El; [|contradiction].
  edestruct (run_server_rejects (inbound (checks p))) as (p1 & -> & Hw);
    [exact Hbad | | ].
  2:{ destruct Hw as (Hc & Hk & Hl1 & Hr1 & Hd & Hs). cbn in Hc, Hk, Hl1, Hd, Hs.
      unfold bind, time_time, print, sleep, ret. cbn. rewrite Hr1.
      eexists. split; [reflexivity|]. unfold still_waiting. cbn.
      rewrite Hc, Hk, Hl1, Hd, Hs, El. repeat split; try lia. exact Hr1. }
  exact Hr.
Qed.

(** The look at which the first well-formed POST has arrived. *)
Lemma callback_body_accepts
  (start_time : Z) (p : process) (bad later : list inbound_post) (v : pyval) :
  listening p <> None ->
  received (callback_data p) = false ->
  inbound (checks p) = bad ++ Ok v :: later ->
  Forall malformed bad ->
  exists p',
    callback_body inbound start_time p =
    match hand_over v p' with
    | (Normal x, q) => (Normal (Some x), q)
    | (SysExit c, q) => (SysExit c, q)
    | (Raised e, q) => (Raised e, q)
    | (OutOfFuel, q) => (OutOfFuel, q)
    end /\
    fulfilled v (List.length bad) 0 p p'.
Proof.
  intros Hl Hr Hin Hbad. unfold callback_body, bind at 1, listener_turn.
  destruct (listening p) as [port|] eqn:El; [|contradiction]. rewrite Hin.
  edestruct (run_server_first_valid bad later v) as
    (p1 & -> & Hc & Hk & Hl1 & Hr1 & Hd & Hs); [exact Hbad | | ].
  2:{ cbn in Hc, Hk, Hl1, Hs. exists p1. split.
      - unfold bind at 1. cbn [fst snd]. rewrite Hr1, Hd. unfold bind, ret.
        now destruct (hand_over v p1) as [[x| | |] q].
      - unfold fulfilled. rewrite Hc, Hk, Hl1, Hs, El, Z.add_0_r, Nat.add_0_r.
        repeat split; assumption. }
  exact Hr.
Qed.

Lemma arrived_succ (c k : nat) :
  arrived inbound c (S k) = arrived inbound c k ++ inbound (c + k).
Proof.
  revert c. induction k as [|k IH]; intros c.
  - cbn. now rewrite app_nil_r, Nat.add_0_r.
  - change (arrived inbound c (S (S k)))
      with (inbound c ++ arrived inbound (S c) (S k)).
    rewrite IH. cbn [arrived]. now rewrite <- app_assoc, Nat.add_succ_r.
Qed.

(** [k] looks that find nothing. *)
Lemma callback_loop_waits (max_wait start_time : Z) (k : nat) :
  forall (fuel : nat) (p : process),
    listening p <> None ->
    received (callback_data p) = false ->
    Forall malformed (arrived inbound (checks p) k) ->
    clock p + 1000 * Z.of_nat k - start_time <= 1000 * max_wait ->
    exists p',
      callback_loop inbound (k + fuel) max_wait start_time p =
      callback_loop inbound fuel max_wait start_time p' /\
      still_waiting (List.length (arrived inbound (checks p) k)) k p p'.
Proof.
  induction k as [|k IH]; intros fuel p Hl Hr Hbad Ht.
  - exists p. split; [reflexivity|]. unfold still_waiting. cbn.
    rewrite Z.add_0_r, Nat.add_0_r, app_nil_r. repeat split. exact Hr.
  - cbn [arrived] in Hbad. apply Forall_app in Hbad as [Hb0 Hbk].
    destruct (callback_body_waits start_time p Hl Hr Hb0) as (p1 & Hbody & Hw).
    pose proof Hw as (Hc & Hk & Hl1 & Hr1 & _).
    destruct (IH fuel p1) as (p' & Hrun & Hw').
    + now rewrite Hl1.
    + exact Hr1.
    + now rewrite Hk, Nat.add_1_r.
    + rewrite Hc. lia.
    + exists p'. split.
      * change (S k + fuel)%nat with (S (k + fuel)).
        rewrite callback_loop_step, Hbody.
        destruct (Z.ltb_spec (clock p - start_time) (1000 * max_wait)); [exact Hrun|lia].
      * cbn [arrived]. rewrite length_app. change (S k) with (1 + k)%nat.
        eapply still_waiting_trans; [exact Hw|].
        now rewrite Hk, Nat.add_1_r in Hw'.
Qed.

Lemma wait_for_callback_enters (fuel : nat) (max_wait : option Z) (p : process) :
  wait_for_callback inbound fuel max_wait p =
  callback_loop inbound fuel (budget max_wait) (clock p) (entered p).
Proof. reflexivity. Qed.

(** The run of [wait_for_callback] in which the first well-formed POST
    arrives before look [k]: the waiter hands over what that POST
    carried. *)
Lemma callback_run
  (max_wait : option Z) (p : process) (k fuel : nat)
  (bad later : list inbound_post) (v : pyval) :
  listening p <> None ->
  received (callback_data p) = false ->
  Forall malformed (arrived inbound (checks p) k ++ bad) ->
  inbound (checks p + k) = bad ++ Ok v :: later ->
  Z.of_nat k < budget max_wait ->
  (k < fuel)%nat ->
  exists p',
    wait_for_callback inbound fuel max_wait p = hand_over v p' /\
    fulfilled v (List.length (arrived inbound (checks p) k ++ bad)) k p p'.
Proof.
  intros Hl Hr Hbad Hin Hk Hfuel. apply Forall_app in Hbad as [Hb1 Hb2].
  replace fuel with (k + S (fuel - S k))%nat by lia.
  rewrite wait_for_callback_enters.
  destruct (callback_loop_waits (budget max_wait) (clock p) k (S (fuel - S k))
              (entered p)) as (p1 & -> & Hw); try assumption.
  { unfold entered, emit. cbn [clock]. lia. }
  destruct Hw as (Hc & Hck & Hl1 & Hr1 & Hd & Hs).
  unfold entered, emit in Hc, Hck, Hl1, Hd, Hs.
  cbn [clock checks listening callback_data responses] in Hc, Hck, Hl1, Hd, Hs.
  destruct (callback_body_accepts (clock p) p1 bad later v) as (p2 & Hbody & Hf);
    try assumption.
  { now rewrite Hl1. }
  { now rewrite Hck. }
  destruct Hf as (Hc2 & Hck2 & Hl2 & Hr2 & Hd2 & Hs2).
  exists p2. split.
  - rewrite callback_loop_step, Hbody.
    destruct (Z.ltb_spec (clock p1 - clock p) (1000 * budget max_wait)); [|lia].
    now destruct (hand_over v p2) as [[x| | |] q].
  - unfold fulfilled.
    rewrite Hc2, Hck2, Hl2, Hs2, Hc, Hck, Hl1, Hs, length_app, repeat_app,
      Z.add_0_r, Nat.add_0_r, <- !app_assoc.
    repeat split; assumption.
Qed.

(** A look either ends the wait or takes one second. *)
Lemma callback_body_cases (start_time : Z) (p : process) :
  (exists p',
     callback_body inbound start_time p = (Normal None, p') /\
     clock p' = clock p + 1000) \/
  (fst (callback_body inbound start_time p) <> Normal None /\
   fst (callback_body inbound start_time p) <> OutOfFuel).
Proof.
  assert (Ht : exists p1, listener_turn inbound p = (Normal tt, p1) /\ clock p1 = clock p).
  { unfold listener_turn. destruct (listening p).
    - match goal with
      | |- context [run_server ?inbox ?q] =>
          destruct (run_server_normal inbox q) as [H1 H2];
          destruct (run_server inbox q) as [o p1]
      end.
      cbn in H1, H2. subst o. now exists p1.
    - eexists. split; reflexivity. }
  destruct Ht as (p1 & Ht & Hc).
  assert (E : callback_body inbound start_time p =
              if received (callback_data p1) then
                match hand_over (data (callback_data p1)) p1 with
                | (Normal x, q) => (Normal (Some x), q)
                | (SysExit c, q) => (SysExit c, q)
                | (Raised e, q) => (Raised e, q)
                | (OutOfFuel, q) => (OutOfFuel, q)
                end
              else
                (Normal None,
                 emit (EvSleep 1)
                   (advance 1000
                      (emit (EvPrint (MsgAwaitingCallback
                                        (elapsed_seconds (clock p1) start_time))) p1)))).
  { unfold callback_body, bind at 1. rewrite Ht. unfold bind at 1.
    destruct (received (callback_data p1)).
    - unfold bind, ret. now destruct (hand_over (data (callback_data p1)) p1) as [[x| | |] q].
    - reflexivity. }
  rewrite E. destruct (received (callback_data p1)).
  - right.
    assert (Hh : fst (hand_over (data (callback_data p1)) p1) <> OutOfFuel).
    { unfold hand_over, bind, lift, print, sys_exit.
      destruct (py_get (data (callback_data p1)) "code" PyNone) as [code|];
        [|discriminate].
      destruct (eq_int code 200); cbn.
      - destruct (py_get (data (callback_data p1)) "data" (PyDict [])); discriminate.
      - destruct (py_get (data (callback_data p1)) "msg" (PyStr "Unknown error"))
          as [error_msg|]; [|discriminate].
        cbn. destruct (str_encodable error_msg); discriminate. }
    destruct (hand_over (data (callback_data p1)) p1) as [[v| | |] q];
      cbn in Hh |- *; split; congruence.
  - left. eexists. split; [reflexivity|]. cbn. lia.
Qed.

(** [wait_for_callback] ends within the looks the window has room for. *)
Lemma callback_loop_terminates (max_wait start_time : Z) (fuel : nat) :
  forall p : process,
    1000 * max_wait - (clock p - start_time) <= 1000 * Z.of_nat fuel ->
    fst (callback_loop inbound (S fuel) max_wait start_time p) <> OutOfFuel.
Proof.
  induction fuel as [|fuel IH]; intros p Hb; rewrite callback_loop_step;
    destruct (Z.ltb_spec (clock p - start_time) (1000 * max_wait)) as [Hlt|Hge];
    try discriminate.
  - lia.
  - destruct (callback_body_cases start_time p) as [(p' & -> & Hc) | [H1 H2]].
    + apply IH. lia.
    + destruct (callback_body inbound start_time p) as [[[v|]| | |] p'];
        cbn in *; congruence.
Qed.

(** Every run of [wait_for_callback] ends: fuel beyond the seconds of
    [max_wait] is never what stops it. *)
Lemma wait_for_callback_terminates (max_wait : option Z) (p : process) (fuel : nat) :
  (Z.to_nat (budget max_wait) < fuel)%nat ->
  fst (wait_for_callback inbound fuel max_wait p) <> OutOfFuel.
Proof.
  intros Hfuel. destruct fuel as [|fuel]; [lia|].
  rewrite wait_for_callback_enters. apply callback_loop_terminates.
  unfold entered, emit. cbn [clock]. lia.
Qed.

(** A wait that starts with [callback_data["received"]] set hands over
    what is stored at its first look, whatever arrives. *)
Lemma stale_mailbox_is_handed_over
  (max_wait : option Z) (p : process) (fuel : nat) :
  received (callback_data p) = true ->
  0 < budget max_wait ->
  wait_for_callback inbound (S fuel) max_wait p =
  hand_over (data (callback_data p))
    {| clock := clock p; sent := sent p; checks := S (checks p);
       callback_data := callback_data p; listening := listening p;
       responses := responses p;
       trace := trace p ++ [EvPrint MsgWaiting; EvPrint MsgUsually] |}.
Proof.
  intros Hr Hb.
  rewrite wait_for_callback_enters, callback_loop_step.
  unfold entered, emit. cbn [clock].
  destruct (Z.ltb_spec (clock p - clock p) (1000 * budget max_wait)); [|lia].
  unfold callback_body, bind at 1, listener_turn.
  cbn [listening checks clock sent callback_data responses trace].
  assert (E : forall q, received (callback_data q) = true ->
                match listening p with
                | Some _ => run_server (inbound (checks p)) q
                | None => (Normal tt, q)
                end = (Normal tt, q)).
  { intros q Hq. destruct (listening p); [|reflexivity].
    now apply run_server_received. }
  rewrite E by exact Hr. unfold bind at 1. cbn [callback_data]. rewrite Hr.
  unfold bind, ret. rewrite <- app_assoc. cbn [app].
  match goal with |- context [hand_over ?v ?q] => destruct (hand_over v q) as [[x| | |] q'] end;
    reflexivity.
Qed.

End Waiter.

Lemma hand_over_keeps (v : pyval) (p : process) :
  callback_data (snd (hand_over v p)) = callback_data p /\
  responses (snd (hand_over v p)) = responses p /\
  checks (snd (hand_over v p)) = checks p /\
  clock (snd (hand_over v p)) = clock p.
Proof.
  unfold hand_over, bind, lift, print, sys_exit.
  destruct (py_get v "code" PyNone) as [code|]; [|now cbn].
  destruct (eq_int code 200); cbn.
  - now destruct (py_get v "data" (PyDict [])).
  - destruct (py_get v "msg" (PyStr "Unknown error")) as [error_msg|]; [|now cbn].
    cbn. now destruct (str_encodable error_msg).
Qed.

(** A notification with another code than 200: the message and the exit,
    or the exception of the [print]. *)
Lemma hand_over_fails (d : list (string * pyval)) (p : process) :
  eq_int (dict_get d "code" PyNone) 200 = false ->
  hand_over (PyDict d) p =
  if str_encodable (dict_get d "msg" (PyStr "Unknown error")) then
    (SysExit 1, emit (EvPrint (MsgFailed (dict_get d "msg" (PyStr "Unknown error")))) p)
  else (Raised UnicodeEncodeError, p).
Proof.
  intros H. unfold hand_over, bind, lift, print, sys_exit. cbn [py_get]. rewrite H.
  cbn. now destruct (str_encodable (dict_get d "msg" (PyStr "Unknown error"))).
Qed.

(** A notification that is no object: [data.get] raises. *)
Lemma hand_over_not_an_object (v : pyval) (p : process) :
  (forall d, v <> PyDict d) -> hand_over v p = (Raised AttributeError, p).
Proof.
  intros H. destruct v as [| | | | |d]; try reflexivity. now destruct (H d).
Qed.

Lemma hand_over_returns (d : list (string * pyval)) (p : process) :
  eq_int (dict_get d "code" PyNone) 200 = true ->
  fst (hand_over (PyDict d) p) = Normal (dict_get d "data" (PyDict [])).
Proof.
  intros H. unfold hand_over, bind, lift, print. cbn [py_get]. now rewrite H.
Qed.

(** C2 (amended). The mailbox is written once in a process. In a wait
    that starts with nothing received, when the first POST with a JSON
    body arrives before look [k] of the waiter (everything before it
    unreadable), [wait_for_callback] ends with [callback_data] holding
    what that POST carried, whatever its shape; it returns its [data]
    field when it is an object with [code] 200, and raises
    [AttributeError] when it is no object. What arrives after it, [later]
    in the same turn of the listener and every later turn, is neither
    stored nor answered: the only 200 the listener sends is the last
    response it ever sends. The mailbox is not emptied for the next
    tracking operation: a later wait in the same process returns the
    [data] of that same first notification at once, whatever is sent to
    it. *)
Theorem first_notification_wins
  (inbound : nat -> list inbound_post) (max_wait : option Z) (p : process)
  (k fuel : nat) (bad later : list inbound_post) (v : pyval) :
  listening p <> None ->
  received (callback_data p) = false ->
  Forall malformed (arrived inbound (checks p) k ++ bad) ->
  inbound (checks p + k)%nat = bad ++ Ok v :: later ->
  Z.of_nat k < budget max_wait ->
  (k < fuel)%nat ->
  received (callback_data (snd (wait_for_callback inbound fuel max_wait p))) = true /\
  data (callback_data (snd (wait_for_callback inbound fuel max_wait p))) = v /\
  responses (snd (wait_for_callback inbound fuel max_wait p)) =
    responses p ++
    repeat 500 (List.length (arrived inbound (checks p) k ++ bad)) ++ [200] /\
  (forall d,
     v = PyDict d ->
     eq_int (dict_get d "code" PyNone) 200 = true ->
     fst (wait_for_callback inbound fuel max_wait p) =
     Normal (dict_get d "data" (PyDict []))) /\
  ((forall d, v <> PyDict d) ->
   fst (wait_for_callback inbound fuel max_wait p) = Raised AttributeError) /\
  (forall (inbound' : nat -> list inbound_post) (max_wait' : option Z) (fuel' : nat)
          (d : list (string * pyval)),
     v = PyDict d ->
     eq_int (dict_get d "code" PyNone) 200 = true ->
     0 < budget max_wait' ->
     fst (wait_for_callback inbound' (S fuel') max_wait'
            (snd (wait_for_callback inbound fuel max_wait p))) =
       Normal (dict_get d "data" (PyDict [])) /\
     responses (snd (wait_for_callback inbound' (S fuel') max_wait'
                       (snd (wait_for_callback inbound fuel max_wait p)))) =
       responses (snd (wait_for_callback inbound fuel max_wait p))).
Proof.
  intros Hl Hr Hbad Hin Hk Hfuel.
  destruct (callback_run inbound max_wait p k fuel bad later v Hl Hr Hbad Hin Hk Hfuel)
    as (p' & -> & _ & _ & _ & Hr' & Hd' & Hs').
  destruct (hand_over_keeps v p') as (Hcb & Hrs & _ & _).
  split; [now rewrite Hcb|]. split; [now rewrite Hcb|]. split; [now rewrite Hrs|].
  split; [intros d -> Hcode; now apply hand_over_returns|].
  split; [intros Hv; now rewrite hand_over_not_an_object|].
  intros inbound' max_wait' fuel' d Hv Hcode Hb'.
  assert (Hrq : received (callback_data (snd (hand_over v p'))) = true)
    by now rewrite Hcb.
  rewrite (stale_mailbox_is_handed_over inbound' max_wait' _ fuel' Hrq Hb').
  rewrite Hcb, Hd', Hv. split; [now apply hand_over_returns|].
  match goal with
  | |- context [hand_over (PyDict d) ?q1] =>
      destruct (hand_over_keeps (PyDict d) q1) as (_ & Hrs1 & _ & _)
  end.
  exact Hrs1.
Qed.

(** C7 (amended). A POST whose body cannot be read as JSON is answered
    500, its exception is recorded in [callback_data["error"]], and
    [received] and [data] stay as they were; the handler ends normally.
    After any number of such POSTs the listener still serves: the first
    notification that arrives before look [k] of the waiter, inside
    [max_wait], is stored and answered 200, and [wait_for_callback]
    returns its [data] when it is an object with [code] 200. A body that
    is JSON is not turned down, whatever its shape: it is stored and
    answered 200, and the listener serves nothing after it. *)
Theorem malformed_callback_is_rejected :
  (forall (e : exn) (p : process),
     do_POST (Err e) p =
     (Normal tt,
      {| clock := clock p; sent := sent p; checks := checks p;
         callback_data :=
           {| received := received (callback_data p);
              data := data (callback_data p);
              error := Some e |};
         listening := listening p;
         responses := responses p ++ [500];
         trace := trace p ++ [EvPrint (MsgCallbackError e)] |})) /\
  (forall (inbound : nat -> list inbound_post) (max_wait : option Z) (p : process)
          (k fuel : nat) (bad later : list inbound_post)
          (d : list (string * pyval)),
     listening p <> None ->
     received (callback_data p) = false ->
     Forall malformed (arrived inbound (checks p) k ++ bad) ->
     inbound (checks p + k)%nat = bad ++ Ok (PyDict d) :: later ->
     eq_int (dict_get d "code" PyNone) 200 = true ->
     Z.of_nat k < budget max_wait ->
     (k < fuel)%nat ->
     fst (wait_for_callback inbound fuel max_wait p) =
       Normal (dict_get d "data" (PyDict [])) /\
     received (callback_data (snd (wait_for_callback inbound fuel max_wait p))) = true /\
     data (callback_data (snd (wait_for_callback inbound fuel max_wait p))) = PyDict d /\
     responses (snd (wait_for_callback inbound fuel max_wait p)) =
       responses p ++
       repeat 500 (List.length (arrived inbound (checks p) k ++ bad)) ++ [200]) /\
  (forall (v : pyval) (rest : list inbound_post) (p : process),
     received (callback_data p) = false ->
     run_server (Ok v :: rest) p =
     (Normal tt,
      {| clock := clock p; sent := sent p; checks := checks p;
         callback_data :=
           {| received := true; data := v; error := error (callback_data p) |};
         listening := listening p;
         responses := responses p ++ [200];
         trace := trace p ++ [EvPrint MsgCallbackReceived] |})).
Proof.
  split; [reflexivity|]. split.
  - intros inbound max_wait p k fuel bad later d Hl Hr Hbad Hin Hcode Hk Hfuel.
    destruct (callback_run inbound max_wait p k fuel bad later (PyDict d)
                Hl Hr Hbad Hin Hk Hfuel)
      as (p' & -> & _ & _ & _ & Hr' & Hd' & Hs').
    destruct (hand_over_keeps (PyDict d) p') as (Hcb & Hrs & _ & _).
    rewrite Hcb, Hrs, Hs', Hr', Hd'. repeat split.
    now apply hand_over_returns.
  - intros v rest p Hr.
    rewrite (run_server_cons _ _ _ Hr), do_POST_well_formed. cbn [snd].
    now rewrite run_server_received.
Qed.

(** *** The polling wait of this script *)

(** The first SUCCESS ends [wait_for_completion] with whatever
    [response.data] holds, the empty list included. *)
Lemma success_ends_the_wait
  (server : nat -> exchange) (task_id : string) (fuel : nat)
  (max_wait : option Z) (p : process) (d r : list (string * pyval)) :
  0 < budget max_wait ->
  status_payload (reply (server (sent p))) = Ok (PyDict d) ->
  lookup "status" d = Some (PyStr "SUCCESS") ->
  lookup "response" d = Some (PyDict r) ->
  fst (wait_for_completion server (S fuel) task_id max_wait p) =
    Normal (dict_get r "data" (PyList [])) /\
  sent (snd (wait_for_completion server (S fuel) task_id max_wait p)) = S (sent p).
Proof.
  intros Hb Hp Hs Hr.
  assert (Ht : truthy (PyDict d) = true).
  { destruct d; [discriminate Hs | reflexivity]. }
  assert (E : exists q,
             wait_for_completion server (S fuel) task_id max_wait p =
             (Normal (dict_get r "data" (PyList [])), q) /\
             sent q = S (sent p)).
  { unfold wait_for_completion. cbn [wait_loop].
    unfold bind, time_time, print. cbn [emit clock fst snd encodable].
    replace (clock p - clock p) with 0 by lia.
    destruct (Z.ltb_spec 0 (1000 * budget max_wait)); [|lia].
    unfold wait_body, get_task_status, bind. cbn [emit sent clock].
    rewrite Hp. unfold ret at 1. rewrite Ht. cbn [negb].
    unfold lift, print, ret, time_time, py_get, dict_get.
    rewrite Hs. cbn [eq_str encodable]. rewrite String.eqb_refl. rewrite Hr.
    eexists. split; reflexivity. }
  destruct E as (q & -> & Hq). split; [reflexivity | exact Hq].
Qed.

(** *** The listening socket *)

Section Socket.

Variable inbound : nat -> list inbound_post.
Variable writable : string -> bool.

Lemma print_keeps_socket (m : message) : preserves listening (print m).
Proof. intros p. unfold print. now destruct (encodable m). Qed.

Lemma write_text_keeps_socket (file : string) (text : pyval) :
  preserves listening (write_text writable file text).
Proof.
  intros p. unfold write_text. destruct text as [| | |t| |]; try reflexivity.
  destruct (writable file); [|reflexivity]. now destruct (has_surrogate t).
Qed.

Lemma sleep_keeps_socket (seconds : Z) : preserves listening (sleep seconds).
Proof. intros p. reflexivity. Qed.

Lemma time_time_keeps_socket : preserves listening time_time.
Proof. intros p. reflexivity. Qed.

Lemma do_POST_keeps_socket (post : inbound_post) : preserves listening (do_POST post).
Proof. intros p. now destruct post. Qed.

Lemma run_server_keeps_socket (inbox : list inbound_post) :
  preserves listening (run_server inbox).
Proof.
  induction inbox as [|post rest IH]; intros p; [reflexivity|].
  cbn [run_server]. destruct (received (callback_data p)); [reflexivity|].
  apply (preserves_bind listening); [apply do_POST_keeps_socket | intros _; exact IH].
Qed.

Lemma listener_turn_keeps_socket : preserves listening (listener_turn inbound).
Proof.
  intros p. unfold listener_turn.
  destruct (listening p) eqn:El; [now rewrite run_server_keeps_socket | reflexivity].
Qed.

#[local] Hint Resolve print_keeps_socket sleep_keeps_socket time_time_keeps_socket
  listener_turn_keeps_socket write_text_keeps_socket : preserves.

Lemma client_init_keeps_socket (api_key : string) :
  preserves listening (client_init api_key).
Proof. unfold client_init. repeat preserves_step. Qed.

Lemma generate_music_keeps_socket (config : pyval) (callback_url : url)
  (submit : exchange) :
  preserves listening (generate_music config callback_url submit).
Proof.
  unfold generate_music. repeat preserves_step; intros p; reflexivity.
Qed.

Lemma hand_over_keeps_socket (v : pyval) : preserves listening (hand_over v).
Proof. unfold hand_over. repeat preserves_step. Qed.

Lemma callback_body_keeps_socket (start_time : Z) :
  preserves listening (callback_body inbound start_time).
Proof.
  unfold callback_body. repeat preserves_step;
    solve [apply hand_over_keeps_socket | intros p; reflexivity].
Qed.

Lemma callback_loop_keeps_socket (fuel : nat) (max_wait start_time : Z) :
  preserves listening (callback_loop inbound fuel max_wait start_time).
Proof.
  induction fuel as [|fuel IH]; cbn [callback_loop]; [auto with preserves|].
  repeat preserves_step; auto using callback_body_keeps_socket.
Qed.

Lemma wait_for_callback_keeps_socket (fuel : nat) (max_wait : option Z) :
  preserves listening (wait_for_callback inbound fuel max_wait).
Proof.
  unfold wait_for_callback. repeat preserves_step. apply callback_loop_keeps_socket.
Qed.

(** C8 (amended). No exit path of the callback-mode run closes the
    listening socket: when [main] has its artifact list, and when it
    leaves through [sys.exit(1)] (placeholder API key, rejected
    submission, remote failure, empty artifact list, timeout), the socket
    bound by [start_webhook_server] is still open on [WEBHOOK_PORT]. *)
Theorem listening_socket_stays_open
  (fuel : nat) (api_key : string) (submit : exchange) (p : process) :
  listening (snd (main inbound writable fuel api_key submit p)) = Some WEBHOOK_PORT.
Proof.
  unfold main. unfold bind at 1.
  change (start_webhook_server WEBHOOK_PORT p)
    with (@Normal Z WEBHOOK_PORT,
          emit (EvPrint (MsgServerStarted WEBHOOK_PORT))
            (emit (EvListen WEBHOOK_PORT)
               {| clock := clock p; sent := sent p; checks := checks p;
                  callback_data := callback_data p;
                  listening := Some WEBHOOK_PORT;
                  responses := responses p; trace := trace p |})).
  cbv beta iota.
  match goal with
  | |- listening (snd (?rest ?q)) = _ =>
      assert (H : preserves listening rest); [|now rewrite H]
  end.
  repeat preserves_step;
    auto using client_init_keeps_socket, generate_music_keeps_socket,
      wait_for_callback_keeps_socket.
Qed.

End Socket.

(** *** What the waiters sleep *)

Section Sleeps.

Variable server : nat -> exchange.
Variable inbound : nat -> list inbound_post.
Variable Q : event -> Prop.
Hypothesis prints_allowed : forall m, Q (EvPrint m).
Hypothesis requests_allowed : forall task_id, Q (EvRequest task_id).

Lemma clock_read_appends : appends trace Q time_time.
Proof. intros p. exists []. cbn. now rewrite app_nil_r. Qed.

Lemma printing_appends (m : message) : appends trace Q (print m).
Proof.
  intros p. unfold print. destruct (encodable m).
  - exists [EvPrint m]. split; [reflexivity | now constructor].
  - exists []. cbn. now rewrite app_nil_r.
Qed.

Lemma sleeping_appends (seconds : Z) : Q (EvSleep seconds) -> appends trace Q (sleep seconds).
Proof. intros H p. exists [EvSleep seconds]. split; [reflexivity | now constructor]. Qed.

Lemma appends_do_POST (post : inbound_post) : appends trace Q (do_POST post).
Proof.
  intros p. destruct post as [v|e].
  - exists [EvPrint MsgCallbackReceived]. split; [reflexivity | now constructor].
  - exists [EvPrint (MsgCallbackError e)]. split; [reflexivity | now constructor].
Qed.

Lemma appends_run_server (inbox : list inbound_post) : appends trace Q (run_server inbox).
Proof.
  induction inbox as [|post rest IH]; [apply appends_ret|].
  intros p. cbn [run_server]. destruct (received (callback_data p)).
  - exists []. cbn. now rewrite app_nil_r.
  - apply (appends_bind trace Q); [apply appends_do_POST | intros _; exact IH].
Qed.

Lemma appends_listener_turn : appends trace Q (listener_turn inbound).
Proof.
  intros p. unfold listener_turn. destruct (listening p) as [port|].
  - match goal with
    | |- context [run_server ?inbox ?q] =>
        destruct (appends_run_server inbox q) as (evs & Ht & Hq)
    end.
    exists evs. split; [exact Ht | exact Hq].
  - exists []. cbn. now rewrite app_nil_r.
Qed.

Lemma status_request_appends (task_id : string) :
  appends trace Q (get_task_status server task_id).
Proof.
  unfold get_task_status. apply appends_bind.
  - intros p. exists [EvRequest task_id]. split; [reflexivity | now constructor].
  - intros x. repeat appends_step; apply printing_appends.
Qed.

#[local] Hint Resolve clock_read_appends printing_appends sleeping_appends
  appends_listener_turn status_request_appends : appends.

Lemma appends_wait_loop (fuel : nat) (task_id : string) (max_wait start_time : Z) :
  Q (EvSleep poll_interval) ->
  appends trace Q (wait_loop server fuel task_id max_wait start_time).
Proof.
  intros Hs. induction fuel as [|fuel IH]; cbn [wait_loop]; [auto with appends|].
  unfold wait_body. repeat appends_step.
Qed.

Lemma appends_callback_loop (fuel : nat) (max_wait start_time : Z) :
  Q (EvSleep 1) ->
  appends trace Q (callback_loop inbound fuel max_wait start_time).
Proof.
  intros Hs. induction fuel as [|fuel IH]; cbn [callback_loop]; [auto with appends|].
  unfold callback_body, hand_over. repeat appends_step.
Qed.

End Sleeps.

(** Every sleep of the polling wait of this script lasts 5 seconds. *)
Lemma polling_wait_sleeps_5_seconds
  (server : nat -> exchange) (fuel : nat) (task_id : string)
  (max_wait : option Z) (t0 seconds : Z) :
  In (EvSleep seconds)
     (trace (snd (wait_for_completion server fuel task_id max_wait (boot t0)))) ->
  seconds = 5.
Proof.
  assert (H : appends trace sleeps_poll_interval
                (wait_for_completion server fuel task_id max_wait)).
  { unfold wait_for_completion.
    repeat appends_step; try (apply printing_appends; intros m s H; discriminate H).
    - apply clock_read_appends.
    - apply appends_wait_loop.
      + intros m s H. discriminate H.
      + intros t s H. discriminate H.
      + intros s H. now injection H as <-. }
  destruct (H (boot t0)) as (evs & -> & Hq). cbn [boot trace app].
  intros Hin. rewrite Forall_forall in Hq. exact (Hq _ Hin seconds eq_refl).
Qed.

(** Every sleep of the callback wait lasts one second. *)
Lemma callback_wait_sleeps_1_second
  (inbound : nat -> list inbound_post) (fuel : nat)
  (max_wait : option Z) (t0 seconds : Z) :
  In (EvSleep seconds)
     (trace (snd (wait_for_callback inbound fuel max_wait (boot t0)))) ->
  seconds = 1.
Proof.
  assert (H : appends trace sleeps_one_second
                (wait_for_callback inbound fuel max_wait)).
  { unfold wait_for_callback.
    repeat appends_step; try (apply printing_appends; intros m s H; discriminate H).
    - apply clock_read_appends.
    - apply appends_callback_loop.
      + intros m s H. discriminate H.
      + intros s H. now injection H as <-. }
  destruct (H (boot t0)) as (evs & -> & Hq). cbn [boot trace app].
  intros Hin. rewrite Forall_forall in Hq. exact (Hq _ Hin seconds eq_refl).
Qed.

(** C8 (the claim fails). A run of [main] that ends with the artifact
    list in hand: the callback arrives in the fourth second, [main] goes
    on to the download, and the listening socket is still open. *)
Lemma socket_open_after_success :
  fst (main Scenarios.junk_then_callback Scenarios.writable_disk 400 "key"
         Scenarios.accepted (boot 0)) =
    Normal (PyList [Scenarios.track_a]) /\
  listening (snd (main Scenarios.junk_then_callback Scenarios.writable_disk 400 "key"
                    Scenarios.accepted (boot 0))) =
    Some 8877.
Proof. split; vm_compute; reflexivity. Qed.

(** C2 (the claim fails). The second tracking operation of a process is
    handed the result of the first, though its own callback is sent; and
    a body [null], first to arrive, is stored and answered 200: the
    waiter raises, and the callback behind it is never served. *)
Lemma mailbox_is_not_per_operation :
  fst (wait_for_callback Cases.next_job_callbacks 5 (Some 60)
         (snd (wait_for_callback Scenarios.two_callbacks 10 None Scenarios.served))) =
    Normal (PyList [Scenarios.track_a]) /\
  fst (wait_for_callback Cases.null_then_callback 10 None Scenarios.served) =
    Raised AttributeError /\
  data (callback_data
          (snd (wait_for_callback Cases.null_then_callback 10 None Scenarios.served))) =
    PyNone /\
  responses (snd (wait_for_callback Cases.null_then_callback 10 None Scenarios.served)) =
    [200].
Proof. repeat split; vm_compute; reflexivity. Qed.

(** C7 (the claim fails). A body that is JSON and not of the expected
    structure, [{}], is answered 200 and fulfils the mailbox; the waiter
    takes it for a failure and exits, and the callback that follows is
    never served. *)
Lemma wrong_shape_is_answered_200 :
  fst (wait_for_callback Cases.empty_object_then_callback 10 (Some 60) Scenarios.served) =
    SysExit 1 /\
  callback_data
    (snd (wait_for_callback Cases.empty_object_then_callback 10 (Some 60)
            Scenarios.served)) =
    {| received := true; data := PyDict []; error := None |} /\
  responses (snd (wait_for_callback Cases.empty_object_then_callback 10 (Some 60)
                    Scenarios.served)) = [200].
Proof. repeat split; vm_compute; reflexivity. Qed.

(** *** The statements at work *)

Lemma first_notification_wins_witness :
  received (callback_data
              (snd (wait_for_callback Scenarios.two_callbacks 10 None Scenarios.served))) =
    true /\
  data (callback_data
          (snd (wait_for_callback Scenarios.two_callbacks 10 None Scenarios.served))) =
    PyDict [("code", PyInt 200); ("msg", PyStr "All generated successfully.");
            ("data", PyList [Scenarios.track_a])] /\
  responses (snd (wait_for_callback Scenarios.two_callbacks 10 None Scenarios.served)) =
    [200] /\
  fst (wait_for_callback Scenarios.two_callbacks 10 None Scenarios.served) =
    Normal (PyList [Scenarios.track_a]) /\
  fst (wait_for_callback Cases.next_job_callbacks 5 (Some 60)
         (snd (wait_for_callback Scenarios.two_callbacks 10 None Scenarios.served))) =
    Normal (PyList [Scenarios.track_a]).
Proof.
  destruct (first_notification_wins Scenarios.two_callbacks None Scenarios.served
              2 10 [] [Scenarios.callback [Scenarios.track_b]]
              (PyDict [("code", PyInt 200); ("msg", PyStr "All generated successfully.");
                       ("data", PyList [Scenarios.track_a])]))
    as (H1 & H2 & H3 & H4 & _ & H6).
  - discriminate.
  - reflexivity.
  - constructor.
  - reflexivity.
  - vm_compute. reflexivity.
  - lia.
  - split; [exact H1|]. split; [exact H2|]. split; [exact H3|].
    split; [apply (H4 _ eq_refl); reflexivity|].
    apply (H6 Cases.next_job_callbacks (Some 60) 4%nat _ eq_refl); reflexivity.
Defined.

Lemma malformed_callback_is_rejected_witness :
  do_POST (Err ValueError) Scenarios.served =
    (Normal tt,
     {| clock := 0; sent := 0; checks := 0;
        callback_data := {| received := false; data := PyNone; error := Some ValueError |};
        listening := Some 8877;
        responses := [500];
        trace := trace Scenarios.served ++ [EvPrint (MsgCallbackError ValueError)] |}) /\
  fst (wait_for_callback Scenarios.junk_then_callback 10 (Some 60) Scenarios.served) =
    Normal (PyList [Scenarios.track_a]) /\
  responses (snd (wait_for_callback Scenarios.junk_then_callback 10 (Some 60)
                    Scenarios.served)) = [500; 200] /\
  responses (snd (run_server [Ok (PyDict []); Scenarios.callback [Scenarios.track_a]]
                    Scenarios.served)) = [200].
Proof.
  destruct malformed_callback_is_rejected as (Hpost & Hrun & Hjson). split.
  - exact (Hpost ValueError Scenarios.served).
  - destruct (Hrun Scenarios.junk_then_callback (Some 60) Scenarios.served 3%nat 10%nat
                [] []
                [("code", PyInt 200); ("msg", PyStr "All generated successfully.");
                 ("data", PyList [Scenarios.track_a])])
      as (H1 & _ & _ & H4).
    + discriminate.
    + reflexivity.
    + repeat constructor.
    + reflexivity.
    + reflexivity.
    + vm_compute. reflexivity.
    + lia.
    + split; [exact H1|]. split; [exact H4|].
      now rewrite (Hjson (PyDict []) [Scenarios.callback [Scenarios.track_a]]
                     Scenarios.served eq_refl).
Defined.

End HardTrapFacts.

(** ** The personas of r2r.py *)

Module R2RFacts.
Import R2R.

Lemma or_empty_kept (v : pyval) : kept_by_init v -> or_empty v = v.
Proof.
  unfold or_empty. intros [H | ->]; [now rewrite H | reflexivity].
Qed.

Lemma or_empty_is_kept (v : pyval) : kept_by_init (or_empty v).
Proof.
  unfold or_empty, kept_by_init. destruct (truthy v) eqn:E; [now left | now right].
Qed.

Lemma is_list_kept (v : pyval) : is_list v -> kept_by_init v.
Proof.
  intros [[|x items] ->]; [now right | now left].
Qed.

(** [to_dict] then [from_dict] gives the persona back. *)
Lemma from_dict_to_dict (now : string) (p : SunoPersona) :
  kept_by_init (instrumental_elements p) ->
  kept_by_init (tags p) ->
  from_dict now (to_dict p) = Ok p.
Proof.
  intros Hi Ht. unfold from_dict, to_dict. cbn.
  rewrite (or_empty_kept _ Hi), (or_empty_kept _ Ht). now destruct p.
Qed.

Lemma existsb_eq_str (track_id : string) (ids : list pyval) :
  existsb (fun x => eq_str x track_id) ids = true <-> In (PyStr track_id) ids.
Proof.
  rewrite existsb_exists. split.
  - intros (x & Hin & Heq). destruct x; try discriminate.
    cbn in Heq. apply String.eqb_eq in Heq. now subst.
  - intros Hin. exists (PyStr track_id). split; [exact Hin|].
    cbn. apply String.eqb_refl.
Qed.

(** Adding an id that is there changes nothing. *)
Lemma add_track_present (p : SunoPersona) (track_id : string) (ids : list pyval) :
  track_ids p = PyList ids ->
  In (PyStr track_id) ids ->
  add_track p track_id = Ok p.
Proof.
  intros Hids Hin. unfold add_track. rewrite Hids. cbn.
  now rewrite (proj2 (existsb_eq_str track_id ids) Hin).
Qed.

(** Adding an id that is not there appends it. *)
Lemma add_track_absent (p : SunoPersona) (track_id : string) (ids : list pyval) :
  track_ids p = PyList ids ->
  ~ In (PyStr track_id) ids ->
  exists p',
    add_track p track_id = Ok p' /\
    track_ids p' = PyList (ids ++ [PyStr track_id]) /\
    instrumental_elements p' = instrumental_elements p /\
    tags p' = tags p.
Proof.
  intros Hids Hin. unfold add_track. rewrite Hids. cbn.
  destruct (existsb (fun x => eq_str x track_id) ids) eqn:E.
  - apply existsb_eq_str in E. contradiction.
  - cbn. eexists. split; [reflexivity|]. now cbn.
Qed.

(** [add_track] keeps a list without duplicates without duplicates. *)
Lemma add_track_NoDup (p : SunoPersona) (track_id : string) (ids : list pyval) :
  track_ids p = PyList ids ->
  NoDup ids ->
  exists p' ids',
    add_track p track_id = Ok p' /\
    track_ids p' = PyList ids' /\
    NoDup ids' /\
    instrumental_elements p' = instrumental_elements p /\
    tags p' = tags p.
Proof.
  intros Hids Hnd.
  destruct (existsb (fun x => eq_str x track_id) ids) eqn:E.
  - apply existsb_eq_str in E. exists p, ids.
    rewrite (add_track_present p track_id ids Hids E). now repeat split.
  - assert (Hout : ~ In (PyStr track_id) ids).
    { intros Hin. apply existsb_eq_str in Hin. congruence. }
    destruct (add_track_absent p track_id ids Hids Hout) as (p' & Hadd & Ht & Hi & Hg).
    exists p', (ids ++ [PyStr track_id]). repeat split; try assumption.
    apply NoDup_app; repeat split; [exact Hnd | repeat constructor; intros [] | ].
    intros x Hx [<- | []]. contradiction.
Qed.

Lemma add_tracks_NoDup (ids : list string) :
  forall (p : SunoPersona) (present : list pyval),
    track_ids p = PyList present ->
    NoDup present ->
    exists p' present',
      add_tracks p ids = Ok p' /\
      track_ids p' = PyList present' /\
      NoDup present' /\
      instrumental_elements p' = instrumental_elements p /\
      tags p' = tags p.
Proof.
  induction ids as [|t ids IH]; intros p present Hp Hnd.
  - exists p, present. now repeat split.
  - destruct (add_track_NoDup p t present Hp Hnd) as (p1 & l1 & Hadd & Ht & Hn & Hi & Hg).
    destruct (IH p1 l1 Ht Hn) as (p2 & l2 & Hadds & Ht2 & Hn2 & Hi2 & Hg2).
    exists p2, l2. cbn [add_tracks]. rewrite Hadd. cbn [res_bind].
    repeat split; try assumption; congruence.
Qed.

(** C10 (amended). [from_dict(p.to_dict())] is [p], field by field, for
    every persona whose [instrumental_elements] and [tags] hold what
    [__init__] leaves there (a list); adding a track id that is present
    leaves the persona as it is; and [add_track] never makes a duplicate:
    a persona made by the constructor and any sequence of [add_track]
    round-trips and has no duplicates in [track_ids]. [from_dict] itself
    stores the [track_ids] of the dict as it is (the empty list when the
    dict has none), duplicates included. *)
Theorem persona_round_trip_and_add_track :
  (forall (now : string) (p : SunoPersona),
     kept_by_init (instrumental_elements p) ->
     kept_by_init (tags p) ->
     from_dict now (to_dict p) = Ok p) /\
  (forall (p : SunoPersona) (track_id : string) (ids : list pyval),
     track_ids p = PyList ids ->
     In (PyStr track_id) ids ->
     add_track p track_id = Ok p) /\
  (forall (p : SunoPersona) (track_id : string) (ids : list pyval),
     track_ids p = PyList ids ->
     NoDup ids ->
     exists p' ids',
       add_track p track_id = Ok p' /\ track_ids p' = PyList ids' /\ NoDup ids') /\
  (forall (now later : string)
          (a_name a_style a_model a_bpm a_key a_vocal a_instr a_mixing a_tags a_descr : pyval)
          (ids : list string),
     exists p present,
       add_tracks
         (init now a_name a_style a_model a_bpm a_key a_vocal a_instr a_mixing
            a_tags a_descr) ids = Ok p /\
       track_ids p = PyList present /\
       NoDup present /\
       from_dict later (to_dict p) = Ok p) /\
  (forall (now : string) (d : list (string * pyval)) (p : SunoPersona),
     from_dict now (PyDict d) = Ok p ->
     track_ids p = dict_get d "track_ids" (PyList [])).
Proof.
  split; [|split; [|split; [|split]]].
  - intros now p. apply from_dict_to_dict.
  - intros p track_id ids. apply add_track_present.
  - intros p track_id ids Hids Hnd.
    destruct (add_track_NoDup p track_id ids Hids Hnd) as (p' & ids' & H1 & H2 & H3 & _).
    now exists p', ids'.
  - intros now later a_name a_style a_model a_bpm a_key a_vocal a_instr a_mixing
      a_tags a_descr ids.
    destruct (add_tracks_NoDup ids
                (init now a_name a_style a_model a_bpm a_key a_vocal a_instr
                   a_mixing a_tags a_descr) [] eq_refl (NoDup_nil _))
      as (p & present & Hadd & Ht & Hn & Hi & Hg).
    exists p, present. repeat split; try assumption.
    apply from_dict_to_dict; [rewrite Hi | rewrite Hg]; apply or_empty_is_kept.
  - intros now d p. unfold from_dict. cbn [py_index py_get].
    destruct (lookup "name" d); [|discriminate].
    destruct (lookup "style" d); [|discriminate].
    cbn. intros H. now injection H as <-.
Qed.

(** C10 (the claim fails). [from_dict] stores the list of the dict as it
    is: a persona read from a dict that names a track twice has the
    duplicate in [track_ids], and [add_track] leaves it there. And a
    persona whose [instrumental_elements] was set to [None] comes back
    from the round trip with the empty list in its place. *)
Lemma from_dict_keeps_duplicates :
  (exists p,
     from_dict "2025-01-01T00:00:00" Scenarios.doubled_tracks = Ok p /\
     track_ids p = PyList [PyStr "t1"; PyStr "t1"] /\
     add_track p "t1" = Ok p /\
     ~ NoDup [PyStr "t1"; PyStr "t1"]) /\
  (exists p,
     from_dict "2025-01-01T00:00:00" (to_dict Scenarios.drill_reset) = Ok p /\
     instrumental_elements p = PyList [] /\
     p <> Scenarios.drill_reset).
Proof.
  split.
  - eexists. split; [vm_compute; reflexivity|].
    split; [reflexivity|]. split; [vm_compute; reflexivity|].
    intros H. inversion H as [|x l Hin _]; subst. apply Hin. now left.
  - eexists. split; [vm_compute; reflexivity|]. split; [reflexivity|].
    intros H. apply (f_equal instrumental_elements) in H. discriminate H.
Qed.

(** The persona of the example round-trips and keeps its one track. *)
Lemma persona_round_trip_and_add_track_witness :
  from_dict "2025-02-02T00:00:00" (to_dict Scenarios.drill) = Ok Scenarios.drill /\
  add_track Scenarios.drill "t1" = Ok Scenarios.drill /\
  (exists p' ids',
     add_track Scenarios.drill "t2" = Ok p' /\
     track_ids p' = PyList ids' /\ NoDup ids') /\
  (forall p,
     from_dict "2025-02-02T00:00:00" Scenarios.doubled_tracks = Ok p ->
     track_ids p = PyList [PyStr "t1"; PyStr "t1"]).
Proof.
  destruct persona_round_trip_and_add_track as (Hrt & Hidem & Hnd & _ & Hkeep).
  split; [|split; [|split]].
  - apply Hrt; [left; reflexivity | right; reflexivity].
  - apply (Hidem Scenarios.drill "t1" [PyStr "t1"]); [reflexivity | now left].
  - apply (Hnd Scenarios.drill "t2" [PyStr "t1"]); [reflexivity|].
    constructor; [intros [] | constructor].
  - intros p H. exact (Hkeep _ _ p H).
Defined.

End R2RFacts.

(** ** The two scripts side by side *)

(** C1 (code bug). On the example of the specification (PENDING,
    PENDING, SUCCESS without artifacts, SUCCESS with one artifact) the
    polling script keeps polling over the empty SUCCESS and returns the
    artifact of the fourth response; [wait_for_completion] of the
    callback script takes the empty SUCCESS for the end: it returns the
    empty list after the third request and never sees the fourth
    response. *)
Theorem empty_success_ends_the_wait_of_the_callback_script :
  fst (TrapPolling.wait_for_completion Scenarios.lagging_success 10 "task"
         (Some 60) (TrapPolling.boot 0)) = Normal (PyList [Scenarios.track_a]) /\
  TrapPolling.sent
    (snd (TrapPolling.wait_for_completion Scenarios.lagging_success 10 "task"
            (Some 60) (TrapPolling.boot 0))) = 4%nat /\
  fst (HardTrap.wait_for_completion Scenarios.lagging_success 10 "task"
         (Some 60) (HardTrap.boot 0)) = Normal (PyList []) /\
  HardTrap.sent
    (snd (HardTrap.wait_for_completion Scenarios.lagging_success 10 "task"
            (Some 60) (HardTrap.boot 0))) = 3%nat.
Proof. repeat split; vm_compute; reflexivity. Qed.

(** C9 (amended). [max_wait] is the one setting a caller supplies, with
    the defaults 360 (polling script) and 300 (callback script) when left
    out, and the port is the argument of [start_webhook_server]. The
    interval between polls is not a setting: every sleep of
    [wait_for_completion] lasts 10 seconds in the polling script and 5 in
    the callback script, and [wait_for_callback] sleeps one second between
    looks, whatever the caller passes. *)
Theorem poll_interval_is_a_constant_of_the_script :
  (forall server fuel task_id max_wait t0 seconds,
     In (TrapPolling.EvSleep seconds)
        (TrapPolling.trace
           (snd (TrapPolling.wait_for_completion server fuel task_id max_wait
                   (TrapPolling.boot t0)))) ->
     seconds = 10) /\
  (forall server fuel task_id max_wait t0 seconds,
     In (HardTrap.EvSleep seconds)
        (HardTrap.trace
           (snd (HardTrap.wait_for_completion server fuel task_id max_wait
                   (HardTrap.boot t0)))) ->
     seconds = 5) /\
  (forall inbound fuel max_wait t0 seconds,
     In (HardTrap.EvSleep seconds)
        (HardTrap.trace
           (snd (HardTrap.wait_for_callback inbound fuel max_wait (HardTrap.boot t0)))) ->
     seconds = 1) /\
  (forall seconds, TrapPolling.budget (Some seconds) = seconds) /\
  TrapPolling.budget None = 360 /\
  (forall seconds, HardTrap.budget (Some seconds) = seconds) /\
  HardTrap.budget None = 300 /\
  (forall port p,
     HardTrap.listening (snd (HardTrap.start_webhook_server port p)) = Some port).
Proof.
  repeat split.
  - intros server fuel task_id max_wait t0 seconds.
    apply TrapPollingFacts.wait_for_completion_sleeps.
  - intros server fuel task_id max_wait t0 seconds.
    apply HardTrapFacts.polling_wait_sleeps_5_seconds.
  - intros inbound fuel max_wait t0 seconds.
    apply HardTrapFacts.callback_wait_sleeps_1_second.
Qed.

(** C9 (the claim fails). A caller who wants a poll every 3 seconds
    cannot have it: no server, task id, [max_wait], start time or length
    of run makes the polling script sleep 3 seconds. *)
Lemma no_call_polls_every_3_seconds :
  ~ exists server fuel task_id max_wait t0,
      In (TrapPolling.EvSleep 3)
         (TrapPolling.trace
            (snd (TrapPolling.wait_for_completion server fuel task_id max_wait
                    (TrapPolling.boot t0)))).
Proof.
  intros (server & fuel & task_id & max_wait & t0 & Hin).
  apply TrapPollingFacts.wait_for_completion_sleeps in Hin. discriminate Hin.
Qed.

Lemma poll_interval_is_a_constant_of_the_script_witness :
  In (TrapPolling.EvSleep 10)
     (TrapPolling.trace
        (snd (TrapPolling.wait_for_completion Scenarios.lagging_success 10 "task"
                (Some 60) (TrapPolling.boot 0)))) /\
  10 = 10.
Proof.
  assert (H : In (TrapPolling.EvSleep 10)
                (TrapPolling.trace
                   (snd (TrapPolling.wait_for_completion Scenarios.lagging_success
                           10 "task" (Some 60) (TrapPolling.boot 0))))).
  { vm_compute. do 4 right. left. reflexivity. }
  split; [exact H|].
  exact (proj1 poll_interval_is_a_constant_of_the_script
           Scenarios.lagging_success 10%nat "task" (Some 60) 0 10 H).
Defined.

(** ** More on the polling loop of generate_trap_polling.py *)

Module TrapPollingBounds.
Import TrapPolling.

Ltac pass_done :=
  cbn; repeat split; try discriminate;
  try (intros; unfold poll_interval; lia);
  try (intros ? H; injection H; intros; subst; solve [assumption | reflexivity]).

Section AnyWorld.

Variable server : nat -> exchange.
Variable task_id : string.

(** Whatever comes back, a pass issues one request; if it goes back to
    the loop test it has slept, and if it returns, what it returns is
    truthy. *)
Lemma wait_body_any (start_time : Z) (p : process) :
  sent (snd (wait_body server task_id start_time p)) = S (sent p) /\
  (fst (wait_body server task_id start_time p) = Normal None ->
   clock p + 1000 * poll_interval <= clock (snd (wait_body server task_id start_time p))) /\
  (forall v, fst (wait_body server task_id start_time p) = Normal (Some v) ->
             truthy v = true) /\
  (forall code, fst (wait_body server task_id start_time p) = SysExit code -> code = 1) /\
  fst (wait_body server task_id start_time p) <> OutOfFuel.
Proof.
  unfold wait_body, get_task_status, bind, ret, lift, sys_exit, print, sleep, time_time.
  cbn [fst snd clock sent trace encodable].
  destruct (truthy (status_payload (reply (server (sent p))))) eqn:Ht; cbn [negb];
    [|pass_done].
  destruct (py_get (status_payload (reply (server (sent p)))) "status" PyNone)
    as [status|e]; [|pass_done].
  destruct (eq_str status "SUCCESS").
  - destruct (py_get (status_payload (reply (server (sent p)))) "response" (PyDict []))
      as [response_data|e]; [|pass_done].
    destruct (py_get response_data "data" (PyList [])) as [audio_list|e]; [|pass_done].
    destruct (truthy audio_list) eqn:Ha.
    + destruct (py_len audio_list); pass_done.
    + cbn [fst snd clock sent trace encodable].
      destruct (json_encodable (status_payload (reply (server (sent p))))); pass_done.
  - destruct (eq_str status "FAILED").
    + destruct (py_get (status_payload (reply (server (sent p)))) "errorMessage"
                  (PyStr "Unknown")) as [error|e]; [|pass_done].
      cbn [fst snd clock sent trace encodable].
      destruct (str_encodable error); pass_done.
    + destruct (eq_str status "PENDING" || eq_str status "GENERATING");
        cbn [fst snd clock sent trace encodable];
        destruct (str_encodable status); pass_done.
Qed.

Lemma wait_loop_any (max_wait start_time : Z) (fuel : nat) :
  forall p : process,
    let q := snd (wait_loop server fuel task_id max_wait start_time p) in
    (sent q = sent p \/
     10000 * (Z.of_nat (sent q - sent p) - 1) < 1000 * max_wait - (clock p - start_time)) /\
    (sent p <= sent q)%nat /\
    (forall v, fst (wait_loop server fuel task_id max_wait start_time p) = Normal v ->
               truthy v = true) /\
    (forall code, fst (wait_loop server fuel task_id max_wait start_time p) = SysExit code ->
                  code = 1).
Proof.
  induction fuel as [|fuel IH]; intros p q; subst q.
  - cbn. repeat split; try discriminate; auto.
  - rewrite TrapPollingFacts.wait_loop_step.
    destruct (Z.ltb_spec (clock p - start_time) (1000 * max_wait)) as [Hlt|Hge].
    + destruct (wait_body_any start_time p) as (Hs & Hc & Hv & He & _).
      destruct (wait_body server task_id start_time p) as [[[v|]| | |] p1];
        cbn [fst snd] in *.
      * repeat split; try discriminate; try lia.
        intros w H. injection H as <-. now apply Hv.
      * specialize (Hc eq_refl). destruct (IH p1) as (Hn & Hle & Hv' & He').
        repeat split; try assumption; try lia.
        unfold poll_interval in Hc. destruct Hn as [Hn | Hn]; right; lia.
      * repeat split; try discriminate; try lia.
        intros c H. injection H as <-. now apply He.
      * repeat split; try discriminate; lia.
      * repeat split; try discriminate; lia.
    + cbn. repeat split; try discriminate; auto.
      intros c H. now injection H.
Qed.

(** X1. Whatever the service answers, a call of [wait_for_completion]
    issues at most [max_wait / 10], rounded up, status requests: none at
    all when [max_wait <= 0], and [n] requests only when
    [10 * (n - 1) < max_wait]. *)
Theorem polling_requests_are_bounded
  (fuel : nat) (max_wait : option Z) (p : process) :
  sent (snd (wait_for_completion server fuel task_id max_wait p)) = sent p \/
  10 * (Z.of_nat (sent (snd (wait_for_completion server fuel task_id max_wait p))
                  - sent p) - 1) < budget max_wait.
Proof.
  rewrite TrapPollingFacts.wait_for_completion_enters.
  destruct (wait_loop_any (budget max_wait) (clock p) fuel (entered p)) as (H & _).
  cbn [entered clock sent] in H. destruct H as [H | H]; [now left | right; lia].
Qed.

(** X2. What [wait_for_completion] returns is never empty, and when it
    ends the process the exit status is 1: a return value is the truthy
    [response.data] of a SUCCESS response. *)
Theorem polling_wait_returns_artifacts_or_exits_1
  (fuel : nat) (max_wait : option Z) (p : process) :
  (forall v,
     fst (wait_for_completion server fuel task_id max_wait p) = Normal v ->
     truthy v = true) /\
  (forall code,
     fst (wait_for_completion server fuel task_id max_wait p) = SysExit code ->
     code = 1).
Proof.
  rewrite TrapPollingFacts.wait_for_completion_enters.
  destruct (wait_loop_any (budget max_wait) (clock p) fuel (entered p))
    as (_ & _ & Hv & He).
  now split.
Qed.

End AnyWorld.

Lemma polling_wait_returns_artifacts_or_exits_1_witness :
  fst (wait_for_completion Scenarios.lagging_success 10 "task" (Some 60) (boot 0)) =
    Normal (PyList [Scenarios.track_a]) /\
  truthy (PyList [Scenarios.track_a]) = true /\
  fst (wait_for_completion Scenarios.fails_at_once 10 "task" (Some 60) (boot 0)) =
    SysExit 1 /\
  1 = 1.
Proof.
  assert (H1 : fst (wait_for_completion Scenarios.lagging_success 10 "task" (Some 60)
                      (boot 0)) = Normal (PyList [Scenarios.track_a]))
    by (vm_compute; reflexivity).
  assert (H2 : fst (wait_for_completion Scenarios.fails_at_once 10 "task" (Some 60)
                      (boot 0)) = SysExit 1)
    by (vm_compute; reflexivity).
  split; [exact H1|]. split.
  - exact (proj1 (polling_wait_returns_artifacts_or_exits_1 Scenarios.lagging_success
                    "task" 10 (Some 60) (boot 0)) _ H1).
  - split; [exact H2|].
    exact (proj2 (polling_wait_returns_artifacts_or_exits_1 Scenarios.fails_at_once
                    "task" 10 (Some 60) (boot 0)) _ H2).
Defined.

End TrapPollingBounds.

(** ** More on the waiters of generate_hard_trap.py *)

Module HardTrapEdges.
Import HardTrap.

Lemma bind_normal {S A B} (m : M S A) (f : A -> M S B) (s : S) (b : B) :
  fst (bind m f s) = Normal b ->
  exists a s', m s = (Normal a, s') /\ fst (f a s') = Normal b.
Proof.
  unfold bind. destruct (m s) as [[a| | |] s']; cbn; try discriminate.
  intros H. now exists a, s'.
Qed.

Lemma run_server_checks (inbox : list inbound_post) :
  forall p : process, checks (snd (run_server inbox p)) = checks p.
Proof.
  induction inbox as [|post rest IH]; intros p; [reflexivity|].
  destruct (received (callback_data p)) eqn:Hr.
  - now rewrite HardTrapFacts.run_server_received.
  - rewrite (HardTrapFacts.run_server_cons _ _ _ Hr), IH. now destruct post.
Qed.

Section Waiter.

Variable inbound : nat -> list inbound_post.

Lemma listener_turn_checks (p : process) :
  checks (snd (listener_turn inbound p)) = S (checks p).
Proof.
  unfold listener_turn. destruct (listening p); [|reflexivity].
  now rewrite run_server_checks.
Qed.

(** A turn of the listener in which nothing readable comes in. *)
Lemma listener_turn_rejects (p : process) :
  listening p <> None ->
  received (callback_data p) = false ->
  Forall malformed (inbound (checks p)) ->
  received (callback_data (snd (listener_turn inbound p))) = false /\
  responses (snd (listener_turn inbound p)) =
    responses p ++ repeat 500 (List.length (inbound (checks p))).
Proof.
  intros Hl Hr Hbad. unfold listener_turn.
  destruct (listening p) as [port|] eqn:El; [|contradiction].
  edestruct (HardTrapFacts.run_server_rejects (inbound (checks p))) as (p1 & -> & Hw);
    [exact Hbad | | ].
  2:{ destruct Hw as (_ & _ & _ & Hr1 & _ & Hs). cbn in Hs. now split. }
  exact Hr.
Qed.

(** A turn of the listener in which a POST with a JSON body comes in. *)
Lemma listener_turn_accepts
  (p : process) (bad later : list inbound_post) (v : pyval) :
  listening p <> None ->
  received (callback_data p) = false ->
  Forall malformed bad ->
  inbound (checks p) = bad ++ Ok v :: later ->
  received (callback_data (snd (listener_turn inbound p))) = true /\
  data (callback_data (snd (listener_turn inbound p))) = v /\
  responses (snd (listener_turn inbound p)) =
    responses p ++ repeat 500 (List.length bad) ++ [200].
Proof.
  intros Hl Hr Hbad Hin. unfold listener_turn.
  destruct (listening p) as [port|] eqn:El; [|contradiction]. rewrite Hin.
  edestruct (HardTrapFacts.run_server_first_valid bad later v)
    as (p1 & -> & _ & _ & _ & Hr1 & Hd & Hs); [exact Hbad | | ].
  2:{ cbn in Hs. now repeat split. }
  exact Hr.
Qed.

(** X3. When nothing readable reaches the listener before the last look
    of the window, the waiter looks once a second and gives up with exit
    status 1 when [max_wait] seconds are over. What arrives during its
    last sleep is still served by the listener: turned down with 500
    when it is unreadable, and when it has a JSON body stored and
    answered 200, although the process ends saying that no callback was
    received. *)
Theorem callback_wait_times_out
  (max_wait : option Z) (p : process) (fuel : nat) :
  listening p <> None ->
  received (callback_data p) = false ->
  0 <= budget max_wait ->
  Forall malformed (arrived inbound (checks p) (Z.to_nat (budget max_wait))) ->
  (Z.to_nat (budget max_wait) < fuel)%nat ->
  fst (wait_for_callback inbound fuel max_wait p) = SysExit 1 /\
  checks (snd (wait_for_callback inbound fuel max_wait p)) =
    S (checks p + Z.to_nat (budget max_wait)) /\
  clock (snd (wait_for_callback inbound fuel max_wait p)) =
    clock p + 1000 * budget max_wait /\
  (exists earlier,
     trace (snd (wait_for_callback inbound fuel max_wait p)) =
     earlier ++ [EvPrint (MsgNoCallback (budget max_wait));
                 EvPrint (MsgFirewallTip WEBHOOK_PORT)]) /\
  (Forall malformed (inbound (checks p + Z.to_nat (budget max_wait))) ->
   received (callback_data (snd (wait_for_callback inbound fuel max_wait p))) = false /\
   responses (snd (wait_for_callback inbound fuel max_wait p)) =
     responses p ++
     repeat 500
       (List.length (arrived inbound (checks p) (S (Z.to_nat (budget max_wait)))))) /\
  (forall (bad later : list inbound_post) (v : pyval),
     Forall malformed bad ->
     inbound (checks p + Z.to_nat (budget max_wait)) = bad ++ Ok v :: later ->
     received (callback_data (snd (wait_for_callback inbound fuel max_wait p))) = true /\
     data (callback_data (snd (wait_for_callback inbound fuel max_wait p))) = v /\
     responses (snd (wait_for_callback inbound fuel max_wait p)) =
       responses p ++
       repeat 500
         (List.length (arrived inbound (checks p) (Z.to_nat (budget max_wait)) ++ bad))
       ++ [200]).
Proof.
  intros Hl Hr Hb Hbad Hfuel.
  set (k := Z.to_nat (budget max_wait)) in *.
  replace fuel with (k + S (fuel - S k))%nat by lia.
  rewrite HardTrapFacts.wait_for_callback_enters.
  destruct (HardTrapFacts.callback_loop_waits inbound (budget max_wait) (clock p) k
              (S (fuel - S k)) (entered p)) as (p1 & -> & Hw); try assumption.
  { unfold entered, emit. cbn [clock]. lia. }
  destruct Hw as (Hc & Hk & Hl1 & Hr1 & Hd & Hs).
  unfold entered, emit in Hc, Hk, Hl1, Hs.
  cbn [clock checks listening callback_data responses] in Hc, Hk, Hl1, Hs.
  rewrite HardTrapFacts.callback_loop_step.
  destruct (Z.ltb_spec (clock p1 - clock p) (1000 * budget max_wait)); [lia|].
  destruct (HardTrapFacts.listener_turn_normal inbound p1) as [_ Hct].
  pose proof (listener_turn_checks p1) as Hck.
  assert (Hl1' : listening p1 <> None) by now rewrite Hl1.
  unfold emit. cbn [fst snd callback_data checks clock responses trace].
  split; [reflexivity|]. split; [rewrite Hck, Hk; reflexivity|].
  split; [rewrite Hct, Hc; lia|].
  split; [eexists; rewrite <- app_assoc; reflexivity|].
  split.
  - intros Hlast. rewrite <- Hk in Hlast.
    destruct (listener_turn_rejects p1 Hl1' Hr1 Hlast) as [Hr2 Hs2].
    split; [exact Hr2|].
    rewrite Hs2, Hs, Hk, HardTrapFacts.arrived_succ, length_app, repeat_app.
    now rewrite <- app_assoc.
  - intros bad later v Hb2 Hlast. rewrite <- Hk in Hlast.
    destruct (listener_turn_accepts p1 bad later v Hl1' Hr1 Hb2 Hlast)
      as (Hr2 & Hd2 & Hs2).
    split; [exact Hr2|]. split; [exact Hd2|].
    rewrite Hs2, Hs, length_app, repeat_app. now rewrite <- !app_assoc.
Qed.

(** X4. A callback whose [code] is not 200 is a remote failure: the waiter
    prints its [msg] and ends the process with status 1. When the [msg]
    is a string that stdout cannot encode, the [print] raises
    [UnicodeEncodeError] instead of the exit. *)
Theorem failure_callback_exits
  (max_wait : option Z) (p : process) (k fuel : nat)
  (bad later : list inbound_post) (d : list (string * pyval)) :
  listening p <> None ->
  received (callback_data p) = false ->
  Forall malformed (arrived inbound (checks p) k ++ bad) ->
  inbound (checks p + k)%nat = bad ++ Ok (PyDict d) :: later ->
  eq_int (dict_get d "code" PyNone) 200 = false ->
  Z.of_nat k < budget max_wait ->
  (k < fuel)%nat ->
  fst (wait_for_callback inbound fuel max_wait p) =
    (if str_encodable (dict_get d "msg" (PyStr "Unknown error")) then SysExit 1
     else Raised UnicodeEncodeError) /\
  data (callback_data (snd (wait_for_callback inbound fuel max_wait p))) = PyDict d /\
  (str_encodable (dict_get d "msg" (PyStr "Unknown error")) = true ->
   exists earlier,
     trace (snd (wait_for_callback inbound fuel max_wait p)) =
     earlier ++ [EvPrint (MsgFailed (dict_get d "msg" (PyStr "Unknown error")))]).
Proof.
  intros Hl Hr Hbad Hin Hcode Hk Hfuel.
  destruct (HardTrapFacts.callback_run inbound max_wait p k fuel bad later (PyDict d)
              Hl Hr Hbad Hin Hk Hfuel)
    as (p' & -> & _ & _ & _ & _ & Hd' & _).
  rewrite (HardTrapFacts.hand_over_fails d p' Hcode).
  destruct (str_encodable (dict_get d "msg" (PyStr "Unknown error")));
    cbn [fst snd emit callback_data trace].
  - repeat split; [exact Hd'|]. intros _. now eexists.
  - repeat split; [exact Hd'|]. discriminate.
Qed.

End Waiter.

(** X5. [callback_data] is never reset. A second wait in the same process
    returns the artifact list of the first job at once, and the listener
    serves none of the POSTs of the second. *)
Theorem second_wait_returns_first_result
  (inbound inbound' : nat -> list inbound_post) (max_wait max_wait' : option Z)
  (p : process) (k fuel fuel' : nat)
  (bad later : list inbound_post) (d : list (string * pyval)) :
  listening p <> None ->
  received (callback_data p) = false ->
  Forall malformed (arrived inbound (checks p) k ++ bad) ->
  inbound (checks p + k)%nat = bad ++ Ok (PyDict d) :: later ->
  eq_int (dict_get d "code" PyNone) 200 = true ->
  Z.of_nat k < budget max_wait ->
  (k < fuel)%nat ->
  0 < budget max_wait' ->
  fst (wait_for_callback inbound' (S fuel') max_wait'
         (snd (wait_for_callback inbound fuel max_wait p))) =
    Normal (dict_get d "data" (PyDict [])) /\
  responses (snd (wait_for_callback inbound' (S fuel') max_wait'
                    (snd (wait_for_callback inbound fuel max_wait p)))) =
    responses (snd (wait_for_callback inbound fuel max_wait p)) /\
  checks (snd (wait_for_callback inbound' (S fuel') max_wait'
                 (snd (wait_for_callback inbound fuel max_wait p)))) =
    S (checks (snd (wait_for_callback inbound fuel max_wait p))).
Proof.
  intros Hl Hr Hbad Hin Hcode Hk Hfuel Hb'.
  destruct (HardTrapFacts.callback_run inbound max_wait p k fuel bad later (PyDict d)
              Hl Hr Hbad Hin Hk Hfuel)
    as (p' & -> & _ & _ & _ & Hr' & Hd' & _).
  destruct (HardTrapFacts.hand_over_keeps (PyDict d) p') as (Hcb & Hrs & Hck & _).
  set (q := snd (hand_over (PyDict d) p')) in *.
  assert (Hrq : received (callback_data q) = true) by now rewrite Hcb.
  rewrite (HardTrapFacts.stale_mailbox_is_handed_over inbound' max_wait' q fuel' Hrq Hb').
  rewrite Hcb, Hd'.
  match goal with
  | |- context [hand_over (PyDict d) ?q1] =>
      destruct (HardTrapFacts.hand_over_keeps (PyDict d) q1) as (_ & Hrs1 & Hck1 & _);
      pose proof (HardTrapFacts.hand_over_returns d q1 Hcode) as Hret
  end.
  rewrite Hret, Hrs1, Hck1. now repeat split.
Qed.

(** What the [try] body of [generate_music] takes for a task id. *)
Lemma task_id_of_ok (r : http_result) (t : pyval) :
  task_id_of r = Ok t ->
  exists status_code d fields,
    r = Response status_code (Some (PyDict d)) /\
    (status_code < 400 \/ 600 <= status_code) /\
    eq_int (dict_get d "code" PyNone) 200 = true /\
    lookup "data" d = Some (PyDict fields) /\
    lookup "taskId" fields = Some t.
Proof.
  intros E. unfold task_id_of in E. destruct r as [|sc body]; [discriminate|].
  unfold raise_for_status, res_bind in E.
  destruct ((400 <=? sc) && (sc <? 600)) eqn:Hsc; [discriminate|].
  destruct body as [[| | | | |d]|]; try discriminate. cbn in E.
  destruct (eq_int (dict_get d "code" PyNone) 200) eqn:Hc; [|discriminate].
  cbn in E. destruct (lookup "data" d) as [[| | | | |fields]|] eqn:Hd;
    try discriminate.
  cbn in E. destruct (lookup "taskId" fields) as [x|] eqn:Hf; [|discriminate].
  injection E as ->. exists sc, d, fields. repeat split; try assumption.
  apply andb_false_iff in Hsc as [H | H]; [left | right]; lia.
Qed.

(** The only [Exception] with a text of the service in it. *)
Lemma task_id_of_api_error (r : http_result) (msg : pyval) :
  task_id_of r = Err (ApiError msg) ->
  exists status_code d,
    r = Response status_code (Some (PyDict d)) /\
    (status_code < 400 \/ 600 <= status_code) /\
    eq_int (dict_get d "code" PyNone) 200 = false /\
    dict_get d "msg" (PyStr "Unknown error") = msg.
Proof.
  intros E. unfold task_id_of in E. destruct r as [|sc body]; [discriminate|].
  unfold raise_for_status, res_bind in E.
  destruct ((400 <=? sc) && (sc <? 600)) eqn:Hsc; [discriminate|].
  destruct body as [[| | | | |d]|]; try discriminate. cbn in E.
  destruct (eq_int (dict_get d "code" PyNone) 200) eqn:Hc.
  - cbn in E. destruct (lookup "data" d) as [[| | | | |fields]|]; try discriminate.
    cbn in E. destruct (lookup "taskId" fields); discriminate.
  - cbn in E. injection E as <-. exists sc, d.
    split; [reflexivity|]. split; [|now split].
    apply andb_false_iff in Hsc as [H | H]; [left | right]; lia.
Qed.

Lemma py_index_raises (v : pyval) (key : string) (e : exn) :
  py_index v key = Err e -> e = TypeError \/ e = KeyError.
Proof.
  destruct v as [| | | | |d]; cbn; try (intros H; injection H as <-; now left).
  destruct (lookup key d); [discriminate|]. intros H. injection H as <-. now right.
Qed.

Lemma py_slice_raises (n : nat) (v : pyval) (e : exn) :
  py_slice n v = Err e -> e = TypeError \/ e = KeyError.
Proof.
  destruct v; cbn; try discriminate; intros H; injection H as <-; auto.
Qed.

Lemma print_cases (m : message) (q : process) :
  (encodable m = true /\ print m q = (Normal tt, emit (EvPrint m) q)) \/
  (encodable m = false /\ print m q = (Raised UnicodeEncodeError, q)).
Proof. unfold print. destruct (encodable m); [left | right]; now split. Qed.

Section Main.

Variable inbound : nat -> list inbound_post.
Variable writable : string -> bool.

(** X6. [main] goes on to the download with a non-empty artifact list only:
    when the callback carries no [data], or an empty one, it exits. *)
Theorem main_returns_artifacts
  (fuel : nat) (api_key : string) (submit : exchange) (p : process) (v : pyval) :
  fst (main inbound writable fuel api_key submit p) = Normal v ->
  truthy v = true.
Proof.
  unfold main. intros H.
  apply bind_normal in H as (a1 & s1 & _ & H).
  apply bind_normal in H as (a2 & s2 & _ & H).
  apply bind_normal in H as (a3 & s3 & _ & H).
  apply bind_normal in H as (a4 & s4 & _ & H).
  apply bind_normal in H as (a5 & s5 & _ & H).
  apply bind_normal in H as (a6 & s6 & _ & H).
  apply bind_normal in H as (audio_info & s7 & _ & H).
  destruct (truthy audio_info) eqn:Ht; cbn [negb] in H.
  - cbn in H. now injection H as <-.
  - discriminate H.
Qed.

(** What [generate_music] does with a configuration that is a dict:
    a task id, the exit, the exception of the [print] that shows the
    [msg] of an API error, or an exception of the lines that show the
    configuration. *)
Lemma generate_music_cases
  (d : list (string * pyval)) (callback_url : url) (submit : exchange) (p : process) :
  (exists t,
     fst (generate_music (PyDict d) callback_url submit p) = Normal t /\
     task_id_of (reply submit) = Ok t /\ str_encodable t = true) \/
  fst (generate_music (PyDict d) callback_url submit p) = SysExit 1 \/
  (exists msg,
     fst (generate_music (PyDict d) callback_url submit p) = Raised UnicodeEncodeError /\
     task_id_of (reply submit) = Err (ApiError msg) /\
     str_encodable msg = false) \/
  (exists e,
     fst (generate_music (PyDict d) callback_url submit p) = Raised e /\
     (e = TypeError \/ e = KeyError \/ e = UnicodeEncodeError) /\
     match lookup "title" (dict_set "callBackUrl" (PyStr (url_text callback_url)) d),
           lookup "model" (dict_set "callBackUrl" (PyStr (url_text callback_url)) d),
           lookup "style" (dict_set "callBackUrl" (PyStr (url_text callback_url)) d)
     with
     | Some title, Some model, Some style =>
         str_encodable title && str_encodable model = false \/
         match style with
         | PyStr s => has_surrogate (take_chars 80 s) = true
         | PyList _ => False
         | _ => True
         end
     | _, _, _ => True
     end).
Proof.
  unfold generate_music, bind, lift. cbn [py_setitem py_index].
  set (d' := dict_set "callBackUrl" (PyStr (url_text callback_url)) d).
  destruct (lookup "title" d') as [title|];
    [|do 3 right; exists KeyError; cbn; auto].
  destruct (print_cases (MsgGenerating title) p) as [[Et ->]|[Et ->]];
    cbn [encodable] in Et.
  2:{ do 3 right. exists UnicodeEncodeError. split; [reflexivity|]. split; [auto|].
      destruct (lookup "model" d'); [|exact I]. destruct (lookup "style" d'); [|exact I].
      left. now rewrite Et. }
  destruct (lookup "model" d') as [model|];
    [|do 3 right; exists KeyError; cbn; auto].
  match goal with
  | |- context [print (MsgModel model) ?q] =>
      destruct (print_cases (MsgModel model) q) as [[Em ->]|[Em ->]]
  end; cbn [encodable] in Em.
  2:{ do 3 right. exists UnicodeEncodeError. split; [reflexivity|]. split; [auto|].
      destruct (lookup "style" d'); [|exact I].
      left. now rewrite Et, Em. }
  destruct (lookup "style" d') as [style|];
    [|do 3 right; exists KeyError; cbn; auto].
  destruct (py_slice 80 style) as [head|e] eqn:Es.
  2:{ do 3 right. exists e. split; [reflexivity|].
      split; [destruct (py_slice_raises _ _ _ Es) as [-> | ->]; auto|].
      right. destruct style; try exact I; discriminate Es. }
  match goal with
  | |- context [print (MsgStyle head) ?q] =>
      destruct (print_cases (MsgStyle head) q) as [[Eh ->]|[Eh ->]]
  end; cbn [encodable] in Eh.
  2:{ do 3 right. exists UnicodeEncodeError. split; [reflexivity|]. split; [auto|].
      right. destruct style; try exact I; cbn in Es; injection Es as <-.
      - unfold str_encodable in Eh. now apply negb_false_iff in Eh.
      - discriminate Eh. }
  match goal with
  | |- context [print MsgVocals ?q] =>
      destruct (print_cases MsgVocals q) as [[_ ->]|[Ek _]]; [|discriminate Ek]
  end.
  match goal with
  | |- context [print (MsgCallbackUrl ?n) ?q] =>
      destruct (print_cases (MsgCallbackUrl n) q) as [[_ ->]|[Ek _]]; [|discriminate Ek]
  end.
  unfold try_except.
  destruct (task_id_of (reply submit)) as [t|e] eqn:E.
  - match goal with
    | |- context [print (MsgTaskCreated t) ?q] =>
        destruct (print_cases (MsgTaskCreated t) q) as [[Ek ->]|[Ek ->]]
    end; cbn [encodable] in Ek.
    + left. exists t. now repeat split.
    + right. left. reflexivity.
  - destruct e; try (right; left; reflexivity).
    match goal with
    | |- context [print (MsgError (ApiError msg)) ?q] =>
        destruct (print_cases (MsgError (ApiError msg)) q) as [[Ek ->]|[Ek ->]]
    end; cbn [encodable] in Ek.
    + right. left. reflexivity.
    + right. right. left. exists msg. now repeat split.
Qed.

Lemma generate_music_no_dict
  (config : pyval) (callback_url : url) (submit : exchange) (p : process) :
  (forall d, config <> PyDict d) ->
  fst (generate_music config callback_url submit p) = Raised TypeError.
Proof.
  intros H. destruct config as [| | | | |d]; try reflexivity. now destruct (H d).
Qed.

(** X7. [generate_music] returns a task id, ends the process with status
    1, or raises: the lines that show the configuration stand before the
    [try], so it raises [TypeError] or [KeyError] for a configuration
    that is no dict or lacks [title], [model] or [style], and
    [UnicodeEncodeError] when a line it prints cannot be encoded. A
    returned id is [data.taskId] of an answer that is not an HTTP error
    and carries the API code 200, and it is printable. With
    [TRACK_CONFIG] the call raises in one case only: the service answers
    with another code than 200 and a [msg] that holds a lone
    surrogate. *)
Theorem generate_music_returns_or_exits
  (callback_url : url) (submit : exchange) (p : process) :
  (forall config,
     (exists t, fst (generate_music config callback_url submit p) = Normal t) \/
     fst (generate_music config callback_url submit p) = SysExit 1 \/
     (exists e,
        fst (generate_music config callback_url submit p) = Raised e /\
        (e = TypeError \/ e = KeyError \/ e = UnicodeEncodeError))) /\
  (forall config t,
     fst (generate_music config callback_url submit p) = Normal t ->
     str_encodable t = true /\
     exists status_code d fields,
       reply submit = Response status_code (Some (PyDict d)) /\
       (status_code < 400 \/ 600 <= status_code) /\
       eq_int (dict_get d "code" PyNone) 200 = true /\
       lookup "data" d = Some (PyDict fields) /\
       lookup "taskId" fields = Some t) /\
  (forall e,
     fst (generate_music TRACK_CONFIG callback_url submit p) = Raised e ->
     e = UnicodeEncodeError /\
     exists status_code d s,
       reply submit = Response status_code (Some (PyDict d)) /\
       (status_code < 400 \/ 600 <= status_code) /\
       eq_int (dict_get d "code" PyNone) 200 = false /\
       dict_get d "msg" (PyStr "Unknown error") = PyStr s /\
       has_surrogate s = true).
Proof.
  split; [|split].
  - intros config.
    assert (Hd : (exists d, config = PyDict d) \/ (forall d, config <> PyDict d)).
    { destruct config; try (right; discriminate). left. now eexists. }
    destruct Hd as [[d ->] | Hd].
    + destruct (generate_music_cases d callback_url submit p)
        as [(t & H & _) | [H | [(msg & H & _) | (e & H & He & _)]]].
      * left. now exists t.
      * right. now left.
      * right. right. exists UnicodeEncodeError. auto.
      * right. right. now exists e.
    + right. right. exists TypeError. split; [now apply generate_music_no_dict | auto].
  - intros config t H.
    assert (Hd : (exists d, config = PyDict d) \/ (forall d, config <> PyDict d)).
    { destruct config; try (right; discriminate). left. now eexists. }
    destruct Hd as [[d ->] | Hd].
    + destruct (generate_music_cases d callback_url submit p)
        as [(t' & H' & Ht & Hp) | [H' | [(msg & H' & _) | (e & H' & _)]]];
        rewrite H' in H; try discriminate H.
      injection H as <-. split; [exact Hp|]. now apply task_id_of_ok.
    + rewrite generate_music_no_dict in H by exact Hd. discriminate H.
  - intros e H. unfold TRACK_CONFIG in H.
    match type of H with
    | fst (generate_music (PyDict ?d) _ _ _) = _ =>
        destruct (generate_music_cases d callback_url submit p)
          as [(t' & H' & _) | [H' | [(msg & H' & Hm & Hp) | (e' & H' & _ & Hq)]]]
    end; rewrite H' in H; try discriminate H.
    + injection H as <-. split; [reflexivity|].
      destruct (task_id_of_api_error _ _ Hm) as (sc & d & Hr & Hsc & Hc & Hg).
      destruct msg as [| | |s| |]; try discriminate Hp.
      exists sc, d, s. repeat split; try assumption.
      unfold str_encodable in Hp. now apply negb_false_iff in Hp.
    + exfalso. vm_compute in Hq. destruct Hq; discriminate.
Qed.

End Main.

Lemma main_returns_artifacts_witness :
  fst (main Scenarios.junk_then_callback Scenarios.writable_disk 400 "key"
         Scenarios.accepted (boot 0)) =
    Normal (PyList [Scenarios.track_a]) /\
  truthy (PyList [Scenarios.track_a]) = true.
Proof.
  assert (H : fst (main Scenarios.junk_then_callback Scenarios.writable_disk 400 "key"
                     Scenarios.accepted (boot 0)) = Normal (PyList [Scenarios.track_a]))
    by (vm_compute; reflexivity).
  split; [exact H|].
  exact (main_returns_artifacts Scenarios.junk_then_callback Scenarios.writable_disk
           400 "key" Scenarios.accepted (boot 0) _ H).
Defined.

Lemma generate_music_returns_or_exits_witness :
  fst (generate_music TRACK_CONFIG (LocalCallback 8877) Scenarios.accepted (boot 0)) =
    Normal (PyStr "task-1") /\
  str_encodable (PyStr "task-1") = true /\
  exists status_code d fields,
    reply Scenarios.accepted = Response status_code (Some (PyDict d)) /\
    (status_code < 400 \/ 600 <= status_code) /\
    eq_int (dict_get d "code" PyNone) 200 = true /\
    lookup "data" d = Some (PyDict fields) /\
    lookup "taskId" fields = Some (PyStr "task-1").
Proof.
  assert (H : fst (generate_music TRACK_CONFIG (LocalCallback 8877) Scenarios.accepted
                     (boot 0)) = Normal (PyStr "task-1")) by (vm_compute; reflexivity).
  split; [exact H|].
  exact (proj1 (proj2 (generate_music_returns_or_exits (LocalCallback 8877)
                         Scenarios.accepted (boot 0))) _ _ H).
Defined.

Lemma callback_wait_times_out_witness :
  fst (wait_for_callback Cases.late_callback 10 (Some 3) Scenarios.served) = SysExit 1 /\
  received (callback_data (snd (wait_for_callback Cases.late_callback 10 (Some 3)
                                  Scenarios.served))) = true /\
  responses (snd (wait_for_callback Cases.late_callback 10 (Some 3)
                    Scenarios.served)) = [500; 500; 500; 200].
Proof.
  destruct (callback_wait_times_out Cases.late_callback (Some 3)
              Scenarios.served 10) as (H1 & _ & _ & _ & _ & H6).
  - discriminate.
  - reflexivity.
  - vm_compute. discriminate.
  - vm_compute. repeat constructor.
  - vm_compute. lia.
  - destruct (H6 [] [] (PyDict [("code", PyInt 200);
                                ("msg", PyStr "All generated successfully.");
                                ("data", PyList [Scenarios.track_a])]))
      as (H7 & _ & H9); [constructor | reflexivity |].
    split; [exact H1|]. split; [exact H7 | exact H9].
Defined.

Lemma failure_callback_exits_witness :
  fst (wait_for_callback Cases.rejected_callback 10 None Scenarios.served) = SysExit 1 /\
  exists earlier,
    trace (snd (wait_for_callback Cases.rejected_callback 10 None Scenarios.served)) =
    earlier ++ [EvPrint (MsgFailed (PyStr "Sensitive word"))].
Proof.
  destruct (failure_callback_exits Cases.rejected_callback None Scenarios.served
              1 10 [] [] [("code", PyInt 400); ("msg", PyStr "Sensitive word")])
    as (H1 & _ & H3).
  - discriminate.
  - reflexivity.
  - constructor.
  - reflexivity.
  - reflexivity.
  - vm_compute. reflexivity.
  - lia.
  - split; [exact H1 | apply H3; vm_compute; reflexivity].
Defined.

Lemma second_wait_returns_first_result_witness :
  fst (wait_for_callback Cases.next_job_callbacks 5 (Some 60)
         (snd (wait_for_callback Scenarios.two_callbacks 10 None Scenarios.served))) =
    Normal (PyList [Scenarios.track_a]) /\
  responses (snd (wait_for_callback Cases.next_job_callbacks 5 (Some 60)
                    (snd (wait_for_callback Scenarios.two_callbacks 10 None
                            Scenarios.served)))) = [200].
Proof.
  destruct (second_wait_returns_first_result Scenarios.two_callbacks
              Cases.next_job_callbacks None (Some 60) Scenarios.served 2 10 4
              [] [Scenarios.callback [Scenarios.track_b]]
              [("code", PyInt 200); ("msg", PyStr "All generated successfully.");
               ("data", PyList [Scenarios.track_a])])
    as (H1 & H2 & _).
  - discriminate.
  - reflexivity.
  - constructor.
  - reflexivity.
  - reflexivity.
  - vm_compute. reflexivity.
  - lia.
  - vm_compute. reflexivity.
  - split; [exact H1|]. rewrite H2. vm_compute. reflexivity.
Defined.

End HardTrapEdges.

(** ** The style string of r2r.py *)

Module R2RStyleFacts.
Import R2R R2RStyle.

Example drill_style_string :
  get_suno_style_string Cases.bytes Cases.plain_str Scenarios.drill =
  Ok "Russian drill-rap, balalaika motifs, D Minor, 142 bpm".
Proof. vm_compute. reflexivity. Qed.

Lemma prefix_append (s t : string) : prefix s (s ++ t)%string = true.
Proof.
  induction s as [|c s IH]; cbn.
  - now destruct t.
  - destruct (Ascii.ascii_dec c c); [exact IH | contradiction].
Qed.

Lemma append_assoc (a b c : string) : ((a ++ b) ++ c = a ++ (b ++ c))%string.
Proof. induction a as [|x a IH]; cbn; [reflexivity | now rewrite IH]. Qed.

Lemma append_empty (a : string) : (a ++ "" = a)%string.
Proof. induction a as [|x a IH]; cbn; [reflexivity | now rewrite IH]. Qed.

(** A joined list starts with its first item, which is a string. *)
Lemma py_join_head (code_points : string -> list string) (sep : string) (first : pyval) (rest : list pyval) (joined : string) :
  py_join code_points sep (PyList (first :: rest)) = Ok joined ->
  exists s t, first = PyStr s /\ joined = (s ++ t)%string.
Proof.
  unfold py_join. cbn [all_strings].
  destruct first as [| | |s| |]; try discriminate.
  destruct (all_strings rest) as [tail|e]; [|discriminate].
  cbn [res_bind]. intros H. injection H as <-.
  exists s. destruct tail as [|x tail].
  - exists ""%string. split; [reflexivity | now rewrite append_empty].
  - eexists. split; reflexivity.
Qed.

Lemma py_join_raises_type_error (code_points : string -> list string) (sep : string) (v : pyval) (e : exn) :
  py_join code_points sep v = Err e -> e = TypeError.
Proof.
  destruct v as [| | | |items|]; cbn; try discriminate; try congruence.
  assert (H : forall l e', all_strings l = Err e' -> e' = TypeError).
  { induction l as [|x l IH]; intros e'; cbn; [discriminate|].
    destruct x; try congruence.
    destruct (all_strings l); cbn; [discriminate|]. intros H. injection H as <-.
    now apply IH. }
  destruct (all_strings items) eqn:E; cbn; [discriminate|].
  intros H'. injection H' as <-. now apply (H items).
Qed.

Section Formatting.

Variable code_points : string -> list string.
Variable py_str : pyval -> string.

(** X8. The style string starts with [style], which has to be a string, and
    the only exception the method raises is [TypeError]. *)
Theorem style_string_starts_with_style (p : SunoPersona) :
  (forall r,
     get_suno_style_string code_points py_str p = Ok r ->
     exists s, style p = PyStr s /\ prefix s r = true) /\
  (forall e, get_suno_style_string code_points py_str p = Err e -> e = TypeError).
Proof.
  unfold get_suno_style_string.
  set (parts1 := if truthy (vocal_characteristics p)
                 then [style p] ++ [vocal_characteristics p] else [style p]).
  assert (H1 : exists tail, parts1 = style p :: tail).
  { subst parts1. destruct (truthy (vocal_characteristics p)); eexists; reflexivity. }
  destruct H1 as [tail1 E1]. rewrite E1.
  set (parts2 := if truthy (instrumental_elements p)
                 then (joined <-? py_join code_points ", " (instrumental_elements p) ;;
                       Ok ((style p :: tail1) ++ [PyStr joined]))%py
                 else Ok (style p :: tail1)).
  assert (H2 : (exists tail, parts2 = Ok (style p :: tail)) \/ parts2 = Err TypeError).
  { subst parts2. destruct (truthy (instrumental_elements p)); [|left; eexists; reflexivity].
    destruct (py_join code_points ", " (instrumental_elements p)) as [joined|e] eqn:Ej; cbn.
    - left. eexists. reflexivity.
    - right. now rewrite (py_join_raises_type_error _ _ _ _ Ej). }
  destruct H2 as [[tail2 ->] | ->]; cbn [res_bind].
  2:{ split; [discriminate | congruence]. }
  set (parts3 := if truthy (mixing_notes p)
                 then (style p :: tail2) ++ [mixing_notes p] else style p :: tail2).
  assert (H3 : exists tail, parts3 = style p :: tail).
  { subst parts3. destruct (truthy (mixing_notes p)); eexists; reflexivity. }
  destruct H3 as [tail3 ->].
  destruct (py_join code_points ", " (PyList (style p :: tail3))) as [joined|e] eqn:Ej; cbn [res_bind].
  - destruct (py_join_head _ _ _ _ _ Ej) as (s & t & Hs & ->).
    split; [|discriminate]. intros r H. injection H as <-. exists s. split; [exact Hs|].
    destruct (truthy (key p)), (truthy (bpm p));
      rewrite ?append_assoc; apply prefix_append.
  - split; [discriminate|]. intros e' H. injection H as <-.
    now apply (py_join_raises_type_error _ _ _ _ Ej).
Qed.

(** X9. The style string reads [style], [vocal_characteristics],
    [instrumental_elements], [mixing_notes], [key] and [bpm] only:
    [add_track] does not change it, and neither does the trip through
    [to_dict] and [from_dict], also for a persona that does not come back
    equal. *)
Theorem style_string_survives_add_track_and_round_trip (p : SunoPersona) :
  (forall track_id p',
     add_track p track_id = Ok p' ->
     get_suno_style_string code_points py_str p' = get_suno_style_string code_points py_str p) /\
  (forall now,
     exists p',
       from_dict now (to_dict p) = Ok p' /\
       get_suno_style_string code_points py_str p' = get_suno_style_string code_points py_str p).
Proof.
  split.
  - intros track_id p'. unfold add_track.
    destruct (py_in track_id (track_ids p)) as [present|]; [|discriminate].
    cbn [res_bind]. destruct present; cbn [negb].
    + intros H. now injection H as <-.
    + destruct (py_append (track_ids p) (PyStr track_id)); [|discriminate].
      cbn [res_bind]. intros H. injection H as <-. reflexivity.
  - intros now. eexists. split; [unfold from_dict, to_dict; cbn; reflexivity|].
    unfold get_suno_style_string.
    cbn [style vocal_characteristics instrumental_elements mixing_notes key bpm].
    assert (E : truthy (or_empty (instrumental_elements p)) =
                truthy (instrumental_elements p)).
    { unfold or_empty. now destruct (truthy (instrumental_elements p)) eqn:Et. }
    rewrite E. destruct (truthy (instrumental_elements p)) eqn:Et; [|reflexivity].
    unfold or_empty. now rewrite Et.
Qed.

End Formatting.

Lemma style_string_starts_with_style_witness :
  get_suno_style_string Cases.bytes Cases.plain_str Scenarios.drill =
    Ok "Russian drill-rap, balalaika motifs, D Minor, 142 bpm" /\
  exists s,
    style Scenarios.drill = PyStr s /\
    prefix s "Russian drill-rap, balalaika motifs, D Minor, 142 bpm" = true.
Proof.
  split; [exact drill_style_string|].
  exact (proj1 (style_string_starts_with_style Cases.bytes Cases.plain_str Scenarios.drill)
           _ drill_style_string).
Defined.

Lemma style_string_survives_add_track_and_round_trip_witness :
  (exists p',
     add_track Scenarios.drill "t2" = Ok p' /\
     get_suno_style_string Cases.bytes Cases.plain_str p' =
     get_suno_style_string Cases.bytes Cases.plain_str Scenarios.drill) /\
  (exists p',
     from_dict "2025-03-03T00:00:00" (to_dict Scenarios.drill_reset) = Ok p' /\
     get_suno_style_string Cases.bytes Cases.plain_str p' =
     get_suno_style_string Cases.bytes Cases.plain_str Scenarios.drill_reset).
Proof.
  split.
  - eexists. split; [vm_compute; reflexivity|].
    apply (proj1 (style_string_survives_add_track_and_round_trip Cases.bytes Cases.plain_str
                    Scenarios.drill) "t2").
    vm_compute. reflexivity.
  - exact (proj2 (style_string_survives_add_track_and_round_trip Cases.bytes Cases.plain_str
                    Scenarios.drill_reset) "2025-03-03T00:00:00").
Defined.

End R2RStyleFacts.

(** ** The persona manager of r2r.py *)

Module R2RManagerFacts.
Import R2R R2RManager.

(** *** Keys *)

Lemma key_eq_refl (k : pyval) : hashable k = true -> key_eq k k = true.
Proof.
  destruct k as [|[]|n|s|l|e]; cbn; try congruence; intros _;
    auto using Z.eqb_refl, String.eqb_refl.
Qed.

Lemma key_eq_sym (a b : pyval) : key_eq a b = key_eq b a.
Proof.
  destruct a as [|[]|?|?|?|?], b as [|[]|?|?|?|?]; cbn [key_eq key_number];
    auto using Z.eqb_sym, String.eqb_sym.
Qed.

Lemma key_eq_trans (a b c : pyval) :
  key_eq a b = true -> key_eq b c = true -> key_eq a c = true.
Proof.
  destruct a as [|[]|?|?|?|?], b as [|[]|?|?|?|?], c as [|[]|?|?|?|?];
    cbn [key_eq key_number]; intros H1 H2; try discriminate; try reflexivity;
    rewrite ?Z.eqb_eq, ?String.eqb_eq in *; subst; try reflexivity; try lia.
Qed.

(** Equal keys compare alike with any third key. *)
Lemma key_eq_left (a b c : pyval) :
  key_eq a b = true -> key_eq a c = key_eq b c.
Proof.
  intros H. destruct (key_eq a c) eqn:Ea, (key_eq b c) eqn:Eb; try reflexivity.
  - rewrite key_eq_sym in H. now rewrite (key_eq_trans _ _ _ H Ea) in Eb.
  - now rewrite (key_eq_trans _ _ _ H Eb) in Ea.
Qed.

(** *** The dict *)

Section DictFacts.

Context {V : Type}.
Implicit Types (d : list (pyval * V)) (k : pyval) (v : V).

Lemma find_equal_keys k k' d :
  key_eq k k' = true -> dict_find k' d = dict_find k d.
Proof.
  intros H. induction d as [|[k0 v0] d IH]; [reflexivity|]. cbn.
  rewrite (key_eq_sym k0 k'), (key_eq_sym k0 k), <- (key_eq_left _ _ _ H).
  now rewrite IH.
Qed.

Lemma find_store_same k v d :
  hashable k = true -> dict_find k (dict_store k v d) = Some v.
Proof.
  intros Hk. induction d as [|[k0 v0] d IH]; cbn.
  - now rewrite key_eq_refl.
  - destruct (key_eq k0 k) eqn:E; cbn; now rewrite E.
Qed.

Lemma find_store_other k v k2 d :
  key_eq k k2 = false -> dict_find k2 (dict_store k v d) = dict_find k2 d.
Proof.
  intros Hk. induction d as [|[k0 v0] d IH]; cbn.
  - now rewrite Hk.
  - destruct (key_eq k0 k) eqn:E; cbn.
    + now rewrite (key_eq_left _ _ k2 E), Hk.
    + now rewrite IH.
Qed.

Lemma find_remove_none k q d :
  dict_find q d = None -> dict_find q (dict_remove k d) = None.
Proof.
  induction d as [|[k0 v0] d IH]; cbn; [reflexivity|].
  destruct (key_eq k0 q) eqn:Eq; [discriminate|]. intros H.
  destruct (key_eq k0 k); cbn; [exact H|]. rewrite Eq. now apply IH.
Qed.

Lemma find_remove_same k d :
  distinct_keys d -> dict_find k (dict_remove k d) = None.
Proof.
  induction d as [|[k0 v0] d IH]; cbn; [reflexivity|]. intros [H0 Hd].
  destruct (key_eq k0 k) eqn:E; cbn.
  - now rewrite (find_equal_keys _ _ _ E).
  - rewrite E. now apply IH.
Qed.

Lemma find_remove_other k k2 d :
  key_eq k k2 = false -> dict_find k2 (dict_remove k d) = dict_find k2 d.
Proof.
  intros Hk. induction d as [|[k0 v0] d IH]; cbn; [reflexivity|].
  destruct (key_eq k0 k) eqn:E; cbn.
  - now rewrite (key_eq_left _ _ k2 E), Hk.
  - now rewrite IH.
Qed.

Lemma distinct_store k v d :
  distinct_keys d -> distinct_keys (dict_store k v d).
Proof.
  induction d as [|[k0 v0] d IH]; cbn; [now split|]. intros [H0 Hd].
  destruct (key_eq k0 k) eqn:E; cbn; [now split|]. split; [|now apply IH].
  rewrite find_store_other; [exact H0|]. now rewrite key_eq_sym.
Qed.

Lemma distinct_remove k d :
  distinct_keys d -> distinct_keys (dict_remove k d).
Proof.
  induction d as [|[k0 v0] d IH]; cbn; [easy|]. intros [H0 Hd].
  destruct (key_eq k0 k) eqn:E; cbn; [exact Hd|]. split; [|now apply IH].
  now apply find_remove_none.
Qed.

(** A key that is not there goes to the end. *)
Lemma store_new k v d :
  dict_find k d = None -> dict_store k v d = d ++ [(k, v)].
Proof.
  induction d as [|[k0 v0] d IH]; cbn; [reflexivity|].
  destruct (key_eq k0 k); [discriminate|]. intros H. now rewrite IH.
Qed.

Lemma find_app_none k d d' :
  dict_find k (d ++ d') = None -> dict_find k d = None /\ dict_find k d' = None.
Proof.
  induction d as [|[k0 v0] d IH]; cbn; [now split|].
  destruct (key_eq k0 k); [discriminate|]. exact IH.
Qed.

(** In a dict of different keys, a later key is not among the earlier. *)
Lemma distinct_middle d k v d' :
  distinct_keys (d ++ (k, v) :: d') -> dict_find k d = None.
Proof.
  induction d as [|[k0 v0] d IH]; cbn; [reflexivity|]. intros [H0 Hd].
  apply find_app_none in H0 as [_ H0]. revert H0. cbn.
  rewrite (key_eq_sym k k0).
  destruct (key_eq k0 k) eqn:E; [discriminate|]. intros _. now apply IH.
Qed.

End DictFacts.

(** *** The file *)

Lemma dumped_as_built (ps : list (pyval * SunoPersona)) :
  as_built ps ->
  writable_text ps ->
  exists members, dumped ps = Ok members /\ Forall2 same_entry ps members.
Proof.
  induction ps as [|[k persona] ps IH]; intros B T.
  - exists []. now split.
  - inversion B as [|? ? [[s Hs] _] B']; subst.
    inversion T as [|? ? [Hk Hj] T']; subst.
    cbn in Hs, Hk, Hj. subst k. unfold str_encodable in Hk.
    destruct (IH B' T') as [members [E F]].
    cbn. rewrite Hk, Hj, E. cbn.
    exists ((s, to_dict persona) :: members). split; [reflexivity|].
    constructor; [now split | exact F].
Qed.

(** One name or field with a lone surrogate makes [json.dump] raise. *)
Lemma dumped_unencodable (ps : list (pyval * SunoPersona)) :
  as_built ps ->
  Exists (fun kp => str_encodable (fst kp) = false \/
                    json_encodable (to_dict (snd kp)) = false) ps ->
  dumped ps = Err UnicodeEncodeError.
Proof.
  induction ps as [|[k persona] ps IH]; intros B X; [inversion X|].
  inversion B as [|? ? [[s Hs] _] B']; subst. cbn in Hs. subst k. cbn.
  destruct (negb (has_surrogate s) && json_encodable (to_dict persona)) eqn:E;
    [|reflexivity].
  cbn. apply andb_prop in E as [E1 E2].
  inversion X as [? ? [H | H]|? ? X']; subst.
  - cbn in H. unfold str_encodable in H. congruence.
  - cbn in H. congruence.
  - now rewrite (IH B' X').
Qed.

Lemma lookup_members (ps : list (pyval * SunoPersona)) (members : list (string * pyval))
  (s : string) :
  Forall2 same_entry ps members ->
  dict_find (PyStr s) ps = None -> lookup s members = None.
Proof.
  induction 1 as [|[k persona] [t v] ps members [Hk _] _ IH]; cbn; [reflexivity|].
  cbn in Hk. subst k. cbn. destruct (t =? s)%string; [discriminate | exact IH].
Qed.

Lemma object_store_new (k : string) (v : pyval) (o : list (string * pyval)) :
  lookup k o = None -> object_store k v o = o ++ [(k, v)].
Proof.
  induction o as [|[k0 v0] o IH]; cbn; [reflexivity|].
  destruct (k0 =? k)%string; [discriminate|]. intros H. now rewrite IH.
Qed.

(** Members with different keys are read back as they were written. *)
Lemma json_object_distinct (ps acc : list (pyval * SunoPersona))
  (members o : list (string * pyval)) :
  Forall2 same_entry ps members ->
  Forall2 same_entry acc o ->
  distinct_keys (acc ++ ps) ->
  fold_left (fun o kv => object_store (fst kv) (snd kv) o) members o = o ++ members.
Proof.
  intros F. revert acc o.
  induction F as [|[k persona] [t v] ps members [Hk Hv] F IH]; intros acc o Fo D; cbn.
  - now rewrite app_nil_r.
  - cbn in Hk, Hv. subst k.
    rewrite object_store_new
      by (apply (lookup_members acc); [exact Fo | exact (distinct_middle _ _ _ _ D)]).
    rewrite (IH (acc ++ [(PyStr t, persona)])).
    + now rewrite <- app_assoc.
    + apply Forall2_app; [exact Fo|]. constructor; [now split | constructor].
    + now rewrite <- app_assoc.
Qed.

Lemma loaded_members (now : nat -> string) (ps : list (pyval * SunoPersona))
  (members : list (string * pyval)) :
  Forall2 same_entry ps members ->
  as_built ps ->
  forall i acc, distinct_keys (acc ++ ps) ->
  loaded now i members acc = Ok (acc ++ ps).
Proof.
  induction 1 as [|[k persona] [t v] ps members [Hk Hv] F IH]; intros B i acc D; cbn.
  - now rewrite app_nil_r.
  - cbn in Hk, Hv. subst k v. inversion B as [|? ? [_ [Hi Ht]] B']; subst.
    cbn in Hi, Ht. rewrite (R2RFacts.from_dict_to_dict _ _ Hi Ht). cbn.
    rewrite (store_new _ _ _ (distinct_middle _ _ _ _ D)).
    rewrite (IH B' (S i)); [now rewrite <- app_assoc|]. now rewrite <- app_assoc.
Qed.

Lemma loaded_keeps (now : nat -> string) (members : list (string * pyval)) :
  forall i acc ps,
  loaded now i members acc = Ok ps ->
  distinct_keys acc -> Forall (fun kp => exists s, fst kp = PyStr s) acc ->
  distinct_keys ps /\ Forall (fun kp => exists s, fst kp = PyStr s) ps.
Proof.
  induction members as [|[t v] members IH]; intros i acc ps; cbn.
  - intros [= <-]. now split.
  - destruct (from_dict (now i) v) as [persona|e]; cbn; [|discriminate].
    intros E D S. apply (IH _ _ _ E); [now apply distinct_store|].
    clear - S. induction acc as [|[k0 v0] acc IHa]; cbn.
    + constructor; [now exists t | constructor].
    + inversion S; subst. destruct (key_eq k0 (PyStr t)); constructor; auto.
Qed.

Section Files.

Variable resolve : string -> nat.
Variable writable : nat -> bool.

Lemma write_read (id : nat) (f : file) (d : disk) : write id f d id = Some f.
Proof. unfold write. now rewrite Nat.eqb_refl. Qed.

Lemma write_elsewhere (id i : nat) (f : file) (d : disk) :
  i <> id -> write id f d i = d i.
Proof. unfold write. intros H. now rewrite (proj2 (Nat.eqb_neq i id) H). Qed.

(** [add_persona] without the file. *)
Lemma add_persona_manager (m : PersonaManager) (persona : SunoPersona) (d : disk) :
  hashable (name persona) = true ->
  snd (fst (add_persona resolve writable m persona d)) =
  {| storage_path := storage_path m;
     personas := dict_store (name persona) persona (personas m) |}.
Proof.
  intros H. unfold add_persona. rewrite H.
  now destruct (save resolve writable _ d).
Qed.

Lemma add_persona_unhashable (m : PersonaManager) (persona : SunoPersona) (d : disk) :
  hashable (name persona) = false ->
  add_persona resolve writable m persona d = (Failed TypeError, m, d).
Proof. intros H. unfold add_persona. now rewrite H. Qed.

Lemma add_persona_found (m : PersonaManager) (persona : SunoPersona) (d : disk) :
  hashable (name persona) = true ->
  get_persona (snd (fst (add_persona resolve writable m persona d))) (name persona)
    = Done (Some persona).
Proof.
  intros H. rewrite (add_persona_manager _ _ _ H). unfold get_persona. cbn.
  now rewrite H, find_store_same.
Qed.

(** X10. After [add_persona] the manager holds the persona under its
    name, and every other name gives what it gave before; this is so
    even when the file cannot be written, and then the call raises
    [OSError] and the file is as it was. *)
Theorem added_persona_is_found (m : PersonaManager) (persona : SunoPersona) (d : disk) :
  hashable (name persona) = true ->
  get_persona (snd (fst (add_persona resolve writable m persona d))) (name persona)
    = Done (Some persona) /\
  (forall k, key_eq (name persona) k = false ->
     get_persona (snd (fst (add_persona resolve writable m persona d))) k
       = get_persona m k) /\
  (writable (resolve (storage_path m)) = false ->
     fst (fst (add_persona resolve writable m persona d)) = Failed OSError /\
     snd (add_persona resolve writable m persona d) = d).
Proof.
  intros H. split; [now apply add_persona_found|].
  rewrite (add_persona_manager _ _ _ H). unfold get_persona. cbn. split.
  - intros k Hk. destruct (hashable k); [|reflexivity].
    now rewrite find_store_other.
  - intros W. unfold add_persona, save. cbn. now rewrite H, W.
Qed.

(** X11. After [delete_persona] the name gives [None] and every other
    name gives what it gave before; for a name that is not there the call
    changes neither the manager nor the file. *)
Theorem deleted_persona_is_gone (m : PersonaManager) (name : pyval) (d : disk) :
  hashable name = true ->
  distinct_keys (personas m) ->
  get_persona (snd (fst (delete_persona resolve writable m name d))) name = Done None /\
  (forall k, key_eq name k = false ->
     get_persona (snd (fst (delete_persona resolve writable m name d))) k
       = get_persona m k) /\
  (get_persona m name = Done None ->
     delete_persona resolve writable m name d = (Done tt, m, d)).
Proof.
  intros H D. unfold delete_persona, get_persona. rewrite H.
  destruct (dict_find name (personas m)) as [p|] eqn:E.
  - destruct (save resolve writable _ d) as [r d']. cbn. split; [|split].
    + now rewrite find_remove_same.
    + intros k Hk. destruct (hashable k); [|reflexivity].
      now rewrite find_remove_other.
    + discriminate.
  - cbn. rewrite E. split; [reflexivity|]. split; reflexivity.
Qed.

Lemma save_writes (m : PersonaManager) (d : disk) :
  as_built (personas m) -> distinct_keys (personas m) ->
  writable_text (personas m) ->
  writable (resolve (storage_path m)) = true ->
  exists members,
    Forall2 same_entry (personas m) members /\
    save resolve writable m d =
      (Done tt, write (resolve (storage_path m)) (JsonFile (PyDict members)) d).
Proof.
  intros B D T W. destruct (dumped_as_built _ B T) as [members [E F]].
  exists members. split; [exact F|]. unfold save. rewrite W, E.
  unfold json_object.
  now rewrite (json_object_distinct (personas m) [] members []
                 F (Forall2_nil _) D).
Qed.

(** A new manager on the path of a saved one reads the same personas. *)
Lemma init_after_save (now : nat -> string) (m : PersonaManager) (d : disk) :
  as_built (personas m) ->
  distinct_keys (personas m) ->
  writable_text (personas m) ->
  writable (resolve (storage_path m)) = true ->
  init resolve now (storage_path m) (snd (save resolve writable m d)) = Done m.
Proof.
  intros B D T W. destruct (save_writes m d B D T W) as [members [F E]].
  rewrite E. cbn [fst snd].
  unfold init, load. cbn [storage_path]. rewrite write_read.
  rewrite (loaded_members now _ _ F B 0%nat []) by exact D. cbn.
  now destruct m.
Qed.

(** X12. A manager whose personas are filed under strings and are as
    [__init__] builds them, and whose names and fields hold no lone
    surrogate, is restored by [save] and a new [PersonaManager] on the
    same path, the personas in the same order. When a name or a field
    does hold a lone surrogate, [save] raises [UnicodeEncodeError] with
    the file emptied and partly written, and a new [PersonaManager] on
    that path raises on reading it. *)
Theorem save_then_load_restores (now : nat -> string) (m : PersonaManager) (d : disk) :
  as_built (personas m) ->
  distinct_keys (personas m) ->
  writable (resolve (storage_path m)) = true ->
  (writable_text (personas m) ->
   fst (save resolve writable m d) = Done tt /\
   init resolve now (storage_path m) (snd (save resolve writable m d)) = Done m) /\
  (Exists (fun kp => str_encodable (fst kp) = false \/
                     json_encodable (to_dict (snd kp)) = false) (personas m) ->
   fst (save resolve writable m d) = Failed UnicodeEncodeError /\
   snd (save resolve writable m d) (resolve (storage_path m)) = Some NotJson /\
   init resolve now (storage_path m) (snd (save resolve writable m d)) =
     Failed ValueError).
Proof.
  intros B D W. split.
  - intros T. split; [|now apply init_after_save].
    destruct (save_writes m d B D T W) as [members [F E]]. now rewrite E.
  - intros X. unfold save. rewrite W, (dumped_unencodable _ B X). cbn [fst snd].
    rewrite write_read. split; [reflexivity|]. split; [reflexivity|].
    unfold init, load. cbn [storage_path]. now rewrite write_read.
Qed.

(** X13. What a new [PersonaManager] reads from a file is filed under
    strings that differ pairwise, and [add_persona], [delete_persona] and
    [import_persona] keep the names different: [list_personas] never has
    a name twice. *)
Theorem names_stay_distinct (now : nat -> string) (path : string) (d : disk) :
  (forall m, init resolve now path d = Done m ->
     distinct_keys (personas m) /\
     Forall (fun k => exists s, k = PyStr s) (list_personas m)) /\
  (forall m, distinct_keys (personas m) ->
     (forall persona,
        distinct_keys (personas (snd (fst (add_persona resolve writable m persona d))))) /\
     (forall name,
        distinct_keys (personas (snd (fst (delete_persona resolve writable m name d))))) /\
     (forall input_path,
        distinct_keys
          (personas (snd (fst (import_persona resolve writable (now 0%nat) m input_path d)))))).
Proof.
  assert (A : forall m persona d0, distinct_keys (personas m) ->
            distinct_keys (personas (snd (fst (add_persona resolve writable m persona d0))))).
  { intros m persona d0 D. destruct (hashable (name persona)) eqn:H.
    - rewrite (add_persona_manager _ _ _ H). cbn. now apply distinct_store.
    - now rewrite (add_persona_unhashable _ _ _ H). }
  split.
  - intros m. unfold init, load. cbn [storage_path].
    destruct (d (resolve path)) as [[[| | | |items|members]| |]|]; try discriminate.
    + destruct (loaded now 0 members []) as [ps|e] eqn:E; [|discriminate].
      intros [= <-]. cbn.
      destruct (loaded_keeps now members _ _ _ E I (Forall_nil _)) as [D S].
      split; [exact D|]. unfold list_personas. cbn. now rewrite Forall_map.
    + intros [= <-]. cbn. split; [exact I | constructor].
  - intros m D. split; [|split].
    + intros persona. now apply A.
    + intros name. unfold delete_persona. destruct (hashable name); [|exact D].
      destruct (dict_find name (personas m)); [|exact D].
      destruct (save resolve writable _ d). cbn. now apply distinct_remove.
    + intros input_path. unfold import_persona.
      destruct (d (resolve input_path)) as [[data| |]|]; try exact D.
      destruct (from_dict (now 0%nat) data); [now apply A | exact D].
Qed.


End Files.

Lemma studio_as_built : as_built (personas Cases.studio).
Proof.
  constructor; [|constructor]. split; [now exists "Drill"|].
  split; [now left | now right].
Qed.

Lemma studio_distinct : distinct_keys (personas Cases.studio).
Proof. now split. Qed.

Lemma studio_writable_text : writable_text (personas Cases.studio).
Proof. constructor; [split; vm_compute; reflexivity | constructor]. Qed.

(** Adding the reset persona to the manager that holds [drill] replaces
    [drill]. *)
Lemma added_persona_is_found_witness :
  hashable (name Scenarios.drill_reset) = true /\
  get_persona
    (snd (fst (add_persona Cases.paths Cases.all_writable Cases.studio
                 Scenarios.drill_reset Cases.empty_disk)))
    (PyStr "Drill") = Done (Some Scenarios.drill_reset).
Proof.
  split; [reflexivity|].
  exact (proj1 (added_persona_is_found Cases.paths Cases.all_writable Cases.studio
                  Scenarios.drill_reset Cases.empty_disk eq_refl)).
Defined.

Lemma deleted_persona_is_gone_witness :
  hashable (PyStr "Drill") = true /\
  distinct_keys (personas Cases.studio) /\
  get_persona
    (snd (fst (delete_persona Cases.paths Cases.all_writable Cases.studio
                 (PyStr "Drill") Cases.empty_disk)))
    (PyStr "Drill") = Done None.
Proof.
  split; [reflexivity|]. split; [exact studio_distinct|].
  exact (proj1 (deleted_persona_is_gone Cases.paths Cases.all_writable Cases.studio
                  (PyStr "Drill") Cases.empty_disk eq_refl studio_distinct)).
Defined.

Lemma save_then_load_restores_witness :
  as_built (personas Cases.studio) /\
  distinct_keys (personas Cases.studio) /\
  Cases.all_writable (Cases.paths (storage_path Cases.studio)) = true /\
  writable_text (personas Cases.studio) /\
  init Cases.paths Cases.noon "suno_personas.json"
    (snd (save Cases.paths Cases.all_writable Cases.studio Cases.empty_disk))
  = Done Cases.studio.
Proof.
  split; [exact studio_as_built|]. split; [exact studio_distinct|].
  split; [reflexivity|]. split; [exact studio_writable_text|].
  exact (proj2 (proj1 (save_then_load_restores Cases.paths Cases.all_writable
                         Cases.noon Cases.studio Cases.empty_disk studio_as_built
                         studio_distinct eq_refl) studio_writable_text)).
Defined.

Lemma names_stay_distinct_witness :
  distinct_keys (personas Cases.studio) /\
  distinct_keys
    (personas (snd (fst (add_persona Cases.paths Cases.all_writable Cases.studio
                           Scenarios.drill_reset Cases.empty_disk)))).
Proof.
  split; [exact studio_distinct|].
  exact (proj1 (proj2 (names_stay_distinct Cases.paths Cases.all_writable Cases.noon
                         "suno_personas.json" Cases.empty_disk)
                  Cases.studio studio_distinct) Scenarios.drill_reset).
Defined.


End R2RManagerFacts.

(** ** The downloads *)

Module FilesFacts.
Import Files.

Lemma path_eqb_refl (p : path) : path_eqb p p = true.
Proof. destruct p as [d f]. cbn. now rewrite !String.eqb_refl. Qed.

Lemma replace_chars (a b : ascii) (s : string) (c : ascii) :
  In c (list_ascii_of_string (replace a b s)) ->
  (c = b /\ In a (list_ascii_of_string s)) \/
  (c <> a /\ In c (list_ascii_of_string s)).
Proof.
  induction s as [|x s IH]; cbn; [easy|].
  destruct (Ascii.eqb x a) eqn:E.
  - apply Ascii.eqb_eq in E. subst x. intros [<-|H]; [left; auto|].
    destruct (IH H) as [[-> Ha]|[Hc Hs]]; [left | right]; auto.
  - apply Ascii.eqb_neq in E. intros [<-|H]; [right; auto|].
    destruct (IH H) as [[-> Ha]|[Hc Hs]]; [left | right]; auto.
Qed.

Lemma replace_keeps (a b : ascii) (s : string) (c : ascii) :
  c <> a -> In c (list_ascii_of_string s) ->
  In c (list_ascii_of_string (replace a b s)).
Proof.
  intros Hc. induction s as [|x s IH]; cbn; [easy|].
  intros [->|H]; [|right; auto].
  left. destruct (Ascii.eqb c a) eqn:E; [|reflexivity].
  apply Ascii.eqb_eq in E. contradiction.
Qed.

Lemma chars_of_append (s t : string) :
  list_ascii_of_string (s ++ t) = list_ascii_of_string s ++ list_ascii_of_string t.
Proof. induction s as [|x s IH]; cbn; [reflexivity | now rewrite IH]. Qed.

(** *** Lone surrogates and the file names *)

Lemma has_surrogate_step (a b : ascii) (rest : string) :
  has_surrogate (String a (String b rest)) =
  ((nat_of_ascii a =? 237)%nat &&
   (160 <=? nat_of_ascii b)%nat && (nat_of_ascii b <=? 191)%nat)
  || has_surrogate (String b rest).
Proof. reflexivity. Qed.

(** Replacing one ASCII character by another makes and takes no
    surrogate. *)
Lemma replace_surrogate (a b : ascii) (s : string) :
  (nat_of_ascii a < 128)%nat -> (nat_of_ascii b < 128)%nat ->
  has_surrogate (replace a b s) = has_surrogate s.
Proof.
  intros Ha Hb.
  assert (F : forall x,
            (nat_of_ascii (if Ascii.eqb x a then b else x) =? 237)%nat
              = (nat_of_ascii x =? 237)%nat /\
            (160 <=? nat_of_ascii (if Ascii.eqb x a then b else x))%nat
              = (160 <=? nat_of_ascii x)%nat).
  { intros x. destruct (Ascii.eqb x a) eqn:E; [|now split].
    apply Ascii.eqb_eq in E. subst x. split.
    - rewrite (proj2 (Nat.eqb_neq _ _)) by lia.
      now rewrite (proj2 (Nat.eqb_neq _ _)) by lia.
    - rewrite (proj2 (Nat.leb_gt _ _)) by lia.
      now rewrite (proj2 (Nat.leb_gt _ _)) by lia. }
  induction s as [|x s IH]; [reflexivity|].
  destruct s as [|y s]; [reflexivity|].
  change (replace a b (String x (String y s)))
    with (String (if Ascii.eqb x a then b else x) (replace a b (String y s))).
  change (replace a b (String y s))
    with (String (if Ascii.eqb y a then b else y) (replace a b s)) in *.
  rewrite !has_surrogate_step, IH.
  destruct (F x) as [-> _]. destruct (F y) as [_ Hy].
  destruct (Ascii.eqb y a) eqn:E; [|reflexivity].
  apply Ascii.eqb_eq in E. subst y.
  rewrite (proj2 (Nat.leb_gt 160 (nat_of_ascii b))) by lia.
  rewrite (proj2 (Nat.leb_gt 160 (nat_of_ascii a))) by lia.
  now rewrite !andb_false_r.
Qed.

(** Text that starts with an ASCII character continues no character of
    the text before it. *)
Lemma append_surrogate (s : string) (c : ascii) (t : string) :
  (nat_of_ascii c < 128)%nat ->
  has_surrogate (s ++ String c t) = has_surrogate s || has_surrogate (String c t).
Proof.
  intros Hc. induction s as [|x s IH]; [reflexivity|].
  destruct s as [|y s].
  - change (has_surrogate (String x (String c t)) =
            has_surrogate (String x EmptyString) || has_surrogate (String c t)).
    rewrite has_surrogate_step.
    rewrite (proj2 (Nat.leb_gt 160 (nat_of_ascii c))) by lia.
    now rewrite andb_false_r.
  - change (has_surrogate (String x (String y s ++ String c t)) =
            has_surrogate (String x (String y s)) || has_surrogate (String c t)).
    change (String y s ++ String c t)%string with (String y (s ++ String c t)) in *.
    rewrite !has_surrogate_step, IH. now rewrite orb_assoc.
Qed.







Lemma sublist_refl {A : Type} (l : list A) : sublist l l.
Proof. induction l; [apply sublist_nil | now apply sublist_cons]. Qed.

Lemma sublist_length {A : Type} (l l' : list A) :
  sublist l l' -> (List.length l <= List.length l')%nat.
Proof. induction 1; cbn; lia. Qed.

End FilesFacts.

Module TrapPollingDownloadFacts.
Import Files FilesFacts TrapPollingDownload.

Lemma file_name_surrogate (title : string) :
  has_surrogate (file_name title) = has_surrogate title.
Proof.
  unfold file_name. rewrite (append_surrogate _ "."%char "mp3") by (cbn; lia).
  rewrite replace_surrogate by (cbn; lia).
  change (has_surrogate (String "."%char "mp3")) with false. apply orb_false_r.
Qed.

Section World.

Variable fetch : nat -> pyval -> download.
Variable can_write : path -> bool.
Variable can_mkdir : string -> bool.
Variable code_points : string -> list string.


(** One pass of the loop over a track that is an object. *)
Lemma download_loop_step (output_dir : string) (i : nat)
  (fields : list (string * pyval)) (rest : list pyval) (downloaded : list path)
  (s : state) :
  download_loop fetch can_write output_dir i (PyDict fields :: rest) downloaded s =
  if negb (truthy (dict_get fields "audio_url" PyNone)) then
    download_loop fetch can_write output_dir (S i) rest downloaded
      (add_line (NoAudioUrl i) s)
  else
    match dict_get fields "title" (PyStr ("Hard_Trap_Moscow_" ++ decimal i)) with
    | PyStr title =>
        match fetch_and_save fetch can_write i (PyDict fields)
                (dict_get fields "audio_url" PyNone) (file_name title)
                (Join output_dir (file_name title)) s with
        | (Normal (Some saved), s1) =>
            download_loop fetch can_write output_dir (S i) rest (downloaded ++ [saved]) s1
        | (Normal None, s1) =>
            download_loop fetch can_write output_dir (S i) rest downloaded s1
        | (SysExit c, s1) => (SysExit c, s1)
        | (Raised e, s1) => (Raised e, s1)
        | (OutOfFuel, s1) => (OutOfFuel, s1)
        end
    | _ => (Raised AttributeError, s)
    end.
Proof.
  cbn [download_loop py_get]. unfold bind at 1. unfold lift at 1.
  destruct (negb (truthy (dict_get fields "audio_url" PyNone))); [reflexivity|].
  unfold bind at 1. unfold lift at 1.
  destruct (dict_get fields "title" (PyStr ("Hard_Trap_Moscow_" ++ decimal i)));
    try reflexivity.
  unfold bind at 1.
  now destruct (fetch_and_save _ _ _ _ _ _ _ _) as [[[saved|]| | |] s1].
Qed.



(** *** What is printed has no influence on the files *)











(** With a directory that can be made and a list of tracks, the loop
    starts at track 1 after the first line. *)
Lemma download_track_list (tracks : list pyval) (output_dir : string) (s : state) :
  can_mkdir output_dir = true ->
  download_track fetch can_write can_mkdir code_points (PyList tracks) output_dir s =
  download_loop fetch can_write output_dir 1 tracks []
    (add_line (DownloadingTracks (Z.of_nat (List.length tracks))) s).
Proof. intros M. unfold download_track. now rewrite M. Qed.



Lemma fetch_and_save_success (i : nat) (fields : list (string * pyval))
  (audio_url : pyval) (filename : string) (filepath : path) (s : state)
  (status_code : Z) (body : content) :
  fetch i audio_url = Answer status_code body ->
  raise_for_status status_code = Ok tt ->
  can_write filepath = true ->
  has_surrogate filename = false ->
  encodable (Saved filepath (List.length body)) = true ->
  str_encodable (dict_get fields "duration" PyNone) = true ->
  str_encodable (dict_get fields "tags" PyNone) = true ->
  fst (fetch_and_save fetch can_write i (PyDict fields) audio_url filename filepath s)
    = Normal (Some filepath) /\
  files (snd (fetch_and_save fetch can_write i (PyDict fields) audio_url filename
                filepath s)) = (filepath, body) :: files s.
Proof.
  intros F R W Hn Hs Hd Ht.
  unfold fetch_and_save, try_except, bind, print, get, save, lift, ret.
  cbn [py_get encodable]. rewrite Hn, F, R, W. cbn [negb].
  change (match filepath with
          | Join output_dir filename0 =>
              negb (has_surrogate output_dir) && negb (has_surrogate filename0)
          end) with (encodable (Saved filepath (List.length body))).
  rewrite Hs, Hd, Ht.
  now destruct (truthy (dict_get fields "duration" PyNone)),
               (truthy (dict_get fields "tags" PyNone)).
Qed.

(** X17. The two variants of a song come with one title. When both are
    downloaded, and the lines printed for them can be encoded, they go
    to one path: the list returned names it twice and the file holds the
    second variant, the first is lost. *)
Theorem same_title_overwrites (a b : list (string * pyval)) (title : string)
  (code_a code_b : Z) (body_a body_b : content) (output_dir : string) (s : state) :
  can_mkdir output_dir = true ->
  lookup "title" a = Some (PyStr title) ->
  lookup "title" b = Some (PyStr title) ->
  truthy (dict_get a "audio_url" PyNone) = true ->
  truthy (dict_get b "audio_url" PyNone) = true ->
  fetch 1 (dict_get a "audio_url" PyNone) = Answer code_a body_a ->
  fetch 2 (dict_get b "audio_url" PyNone) = Answer code_b body_b ->
  raise_for_status code_a = Ok tt ->
  raise_for_status code_b = Ok tt ->
  can_write (Join output_dir (file_name title)) = true ->
  shows_cleanly output_dir (PyDict a) ->
  shows_cleanly output_dir (PyDict b) ->
  fst (download_track fetch can_write can_mkdir code_points (PyList [PyDict a; PyDict b])
         output_dir s)
    = Normal [Join output_dir (file_name title); Join output_dir (file_name title)] /\
  read (Join output_dir (file_name title))
    (files (snd (download_track fetch can_write can_mkdir code_points (PyList [PyDict a; PyDict b])
                   output_dir s)))
    = Some body_b.
Proof.
  intros M Ta Tb Ua Ub Fa Fb Ra Rb W Pa Pb. rewrite (download_track_list _ _ _ M).
  destruct Pa as (Ho & a' & Ea & Pta & Pda & _ & Pga). injection Ea as <-.
  destruct Pb as (_ & b' & Eb & Ptb & Pdb & _ & Pgb). injection Eb as <-.
  assert (Hn : has_surrogate (file_name title) = false)
    by (rewrite file_name_surrogate; now apply Pta).
  assert (Hs : forall n, encodable (Saved (Join output_dir (file_name title)) n) = true)
    by (intros n; cbn [encodable]; now rewrite Ho, Hn).
  assert (Da : forall default, dict_get a "title" default = PyStr title)
    by (intros default; unfold dict_get; now rewrite Ta).
  assert (Db : forall default, dict_get b "title" default = PyStr title)
    by (intros default; unfold dict_get; now rewrite Tb).
  rewrite download_loop_step, Ua, Da. cbn [negb].
  match goal with
  | |- context [fetch_and_save fetch can_write 1 (PyDict a) ?u ?f ?p ?s0] =>
      destruct (fetch_and_save_success 1 a u f p s0 code_a body_a Fa Ra W Hn (Hs _)
                  Pda Pga) as [Na Ka];
      destruct (fetch_and_save fetch can_write 1 (PyDict a) u f p s0) as [ra sa]
  end.
  cbn [fst snd] in Na, Ka. subst ra.
  rewrite download_loop_step, Ub, Db. cbn [negb].
  match goal with
  | |- context [fetch_and_save fetch can_write 2 (PyDict b) ?u ?f ?p ?s0] =>
      destruct (fetch_and_save_success 2 b u f p s0 code_b body_b Fb Rb W Hn (Hs _)
                  Pdb Pgb) as [Nb Kb];
      destruct (fetch_and_save fetch can_write 2 (PyDict b) u f p s0) as [rb sb]
  end.
  cbn [fst snd] in Nb, Kb. subst rb. cbn [download_loop fst snd app ret].
  split; [reflexivity|].
  rewrite Kb. cbn [read]. now rewrite path_eqb_refl.
Qed.

End World.


Lemma variant_1_shows_cleanly : shows_cleanly "generated_music" (PyDict Cases.variant_1).
Proof.
  split; [reflexivity|]. exists Cases.variant_1. split; [reflexivity|].
  split; [|now repeat split].
  intros t H. vm_compute in H. injection H as <-. reflexivity.
Qed.

Lemma variant_2_shows_cleanly : shows_cleanly "generated_music" (PyDict Cases.variant_2).
Proof.
  split; [reflexivity|]. exists Cases.variant_2. split; [reflexivity|].
  split; [|now repeat split].
  intros t H. vm_compute in H. injection H as <-. reflexivity.
Qed.



Lemma same_title_overwrites_witness :
  lookup "title" Cases.variant_1 = lookup "title" Cases.variant_2 /\
  read (Join "generated_music" "Hard_Trap_Moscow.mp3")
    (files (snd (download_track Cases.cdn Cases.any_path Cases.any_dir Cases.bytes
                   (PyList [PyDict Cases.variant_1; PyDict Cases.variant_2])
                   "generated_music" Cases.no_files)))
    = Some [Byte.x02; Byte.x02].
Proof.
  split; [reflexivity|].
  exact (proj2 (same_title_overwrites Cases.cdn Cases.any_path Cases.any_dir Cases.bytes
                  Cases.variant_1 Cases.variant_2 "Hard Trap Moscow" 200 200
                  [Byte.x01] [Byte.x02; Byte.x02] "generated_music" Cases.no_files
                  eq_refl eq_refl eq_refl eq_refl eq_refl eq_refl eq_refl eq_refl
                  eq_refl eq_refl variant_1_shows_cleanly variant_2_shows_cleanly)).
Defined.

End TrapPollingDownloadFacts.

Module HardTrapDownloadFacts.
Import Files FilesFacts HardTrapDownload.

(** A name without [/] names an entry of the directory itself. *)
Lemma file_name_flat (title : string) (c : ascii) :
  In c (list_ascii_of_string (file_name title)) -> c <> "/"%char /\ c <> " "%char.
Proof.
  unfold file_name. rewrite chars_of_append, in_app_iff. intros [H|H].
  - apply replace_chars in H as [[-> _]|[Hc H]]; [now split|].
    apply replace_chars in H as [[-> _]|[Hc' _]]; now split.
  - cbn in H. repeat (destruct H as [<-|H]; [now split|]). contradiction.
Qed.

(** X18. The file name that the callback script makes of a title has no
    [/] and no space, so the file lies in the output directory itself;
    the polling script takes the spaces out and leaves every [/] of the
    title in the name. *)
Theorem file_names_of_the_two_scripts (title : string) :
  (forall c, In c (list_ascii_of_string (file_name title)) ->
     c <> "/"%char /\ c <> " "%char) /\
  (forall c, In c (list_ascii_of_string (TrapPollingDownload.file_name title)) ->
     c <> " "%char) /\
  (In "/"%char (list_ascii_of_string title) ->
   In "/"%char (list_ascii_of_string (TrapPollingDownload.file_name title))).
Proof.
  split; [exact (file_name_flat title)|]. unfold TrapPollingDownload.file_name. split.
  - intros c. rewrite chars_of_append, in_app_iff. intros [H|H].
    + now apply replace_chars in H as [[-> _]|[Hc _]].
    + cbn in H. repeat (destruct H as [<-|H]; [discriminate|]). contradiction.
  - intros H. rewrite chars_of_append, in_app_iff. left.
    now apply replace_keeps.
Qed.


Section World.

Variable fetch : nat -> pyval -> download.
Variable can_write : path -> bool.
Variable can_mkdir : string -> bool.
Variable code_points : string -> list string.






End World.

Lemma file_names_of_the_two_scripts_witness :
  In "/"%char (list_ascii_of_string "AC/DC mix") /\
  In "/"%char (list_ascii_of_string (TrapPollingDownload.file_name "AC/DC mix")) /\
  ~ In "/"%char (list_ascii_of_string (file_name "AC/DC mix")).
Proof.
  assert (H : In "/"%char (list_ascii_of_string "AC/DC mix")) by (cbn; tauto).
  split; [exact H|]. split.
  - exact (proj2 (proj2 (file_names_of_the_two_scripts "AC/DC mix")) H).
  - intros K.
    now destruct (proj1 (file_names_of_the_two_scripts "AC/DC mix") _ K).
Defined.


End HardTrapDownloadFacts.

(** ** The generator that reads the personas *)

Module GeneratorFacts.
Import R2R R2RStyle R2RManager Generator.

(** *** Text that can be printed and written *)






Section World.

Variable code_points : string -> list string.
Variable py_str : pyval -> string.
Variable resolve : string -> nat.
Variable writable : nat -> bool.
Variable now : nat -> string.
Variable seconds : Z.



(** X21. A name that the storage file does not hold, or a storage file
    that is not there, gives [ValueError] before a line is printed. A
    call that fails leaves every file but its output file as it was, and
    the output file too, with one exception: when it is [json.dump] that
    raises, over a lone surrogate, the output file has been opened for
    writing and is left emptied and partly written. *)
Theorem generator_fails_without_writing (persona_name : pyval) (lyrics : string)
  (title : pyval) (d : disk) (out : list message) :
  (forall f,
     fst (fst (generate_with_persona code_points py_str resolve writable now seconds
                 persona_name lyrics title d out)) = Failed f ->
     snd (fst (generate_with_persona code_points py_str resolve writable now seconds
                 persona_name lyrics title d out)) = d \/
     (f = UnicodeEncodeError /\
      writable (resolve (file_name seconds)) = true /\
      snd (fst (generate_with_persona code_points py_str resolve writable now seconds
                  persona_name lyrics title d out))
        = write (resolve (file_name seconds)) NotJson d)) /\
  (forall f i,
     fst (fst (generate_with_persona code_points py_str resolve writable now seconds
                 persona_name lyrics title d out)) = Failed f ->
     i <> resolve (file_name seconds) ->
     snd (fst (generate_with_persona code_points py_str resolve writable now seconds
                 persona_name lyrics title d out)) i = d i) /\
  (forall manager,
     init resolve now "suno_personas.json" d = Done manager ->
     get_persona manager persona_name = Done None ->
     generate_with_persona code_points py_str resolve writable now seconds
       persona_name lyrics title d out = (Failed ValueError, d, out)) /\
  (hashable persona_name = true ->
   d (resolve "suno_personas.json") = None ->
   generate_with_persona code_points py_str resolve writable now seconds
     persona_name lyrics title d out = (Failed ValueError, d, out)).
Proof.
  assert (A : forall f,
            fst (fst (generate_with_persona code_points py_str resolve writable now
                        seconds persona_name lyrics title d out)) = Failed f ->
            snd (fst (generate_with_persona code_points py_str resolve writable now
                        seconds persona_name lyrics title d out)) = d \/
            (f = UnicodeEncodeError /\
             writable (resolve (file_name seconds)) = true /\
             snd (fst (generate_with_persona code_points py_str resolve writable now
                         seconds persona_name lyrics title d out))
               = write (resolve (file_name seconds)) NotJson d)).
  { intros f. unfold generate_with_persona.
    destruct (init resolve now "suno_personas.json" d) as [manager|f0]; [|now left].
    destruct (get_persona manager persona_name) as [[persona|]|f1]; try (now left).
    destruct (get_suno_style_string code_points py_str persona); [|now left].
    match goal with
    | |- context [print_lines ?lines out] =>
        destruct (print_lines lines out) as [[] out']
    end; [|now left].
    destruct (writable (resolve (file_name seconds))) eqn:W; [|now left].
    match goal with
    | |- context [json_encodable ?v] => destruct (json_encodable v)
    end; [discriminate|].
    cbn [fst snd]. intros [= <-]. right. now repeat split. }
  split; [exact A|]. split; [|split].
  - intros f i H Hi. destruct (A f H) as [-> | (_ & _ & ->)]; [reflexivity|].
    now apply R2RManagerFacts.write_elsewhere.
  - intros manager I G. unfold generate_with_persona. now rewrite I, G.
  - intros H N. unfold generate_with_persona, init, load. cbn [storage_path].
    rewrite N. unfold get_persona. cbn. now rewrite H.
Qed.

End World.



(** A title that is a list with a lone surrogate in it is printed by
    [repr] and cannot be written: the call raises with the output file
    emptied. *)
Example unwritable_title_empties_the_output_file :
  let d := snd (save Cases.paths Cases.all_writable Cases.studio Cases.empty_disk) in
  let run := generate_with_persona Cases.bytes Cases.plain_str Cases.paths
               Cases.all_writable Cases.noon 1735732800 (PyStr "Drill") "la la"
               (PyList [PyStr Cases.lone_surrogate]) d [] in
  fst (fst run) = Failed UnicodeEncodeError /\
  d 1%nat = None /\
  snd (fst run) 1%nat = Some NotJson.
Proof. vm_compute. repeat split. Qed.

Lemma generator_fails_without_writing_witness :
  Cases.empty_disk (Cases.paths "suno_personas.json") = None /\
  generate_with_persona Cases.bytes Cases.plain_str Cases.paths Cases.all_writable
    Cases.noon 1735732800 (PyStr "Drill") "la la" PyNone Cases.empty_disk []
  = (Failed ValueError, Cases.empty_disk, []).
Proof.
  split; [reflexivity|].
  exact (proj2 (proj2 (proj2 (generator_fails_without_writing Cases.bytes Cases.plain_str
                                Cases.paths Cases.all_writable Cases.noon 1735732800
                                (PyStr "Drill") "la la" PyNone Cases.empty_disk [])))
           eq_refl eq_refl).
Defined.

End GeneratorFacts.
